(** * Truck HOS logbook: duty-status totals, recap windows, mileage shares

    A shallow embedding of the arithmetic of the logbook front end:

    - [LogbookSheet.tsx]: [isoToHoursSinceMidnight], [statusToRowIndex],
      the [totalsByStatus] block, the sleeper-berth time parsing and the
      vertical connectors of the duty overlay;
    - the logbook page: [getDrivingPlusOnDutyHours], [getDrivingHours],
      [getRecapForDay] and the [perDayMiles] expression.

    JavaScript numbers are idealised: a finite number is an exact rational
    (no rounding, no signed zero), and [NaN], [+Infinity], [-Infinity] are
    kept as separate values with their IEEE behaviour under the operations
    the code uses. Strings are ASCII. *)

From Stdlib Require Import QArith Qabs ZArith List String Ascii Bool Lia Lqa.
From Stdlib Require Import Permutation.
Import ListNotations.

Set Implicit Arguments.
Local Open Scope Q_scope.

(** ** JavaScript numbers *)

Inductive num : Type :=
| Fin (q : Q)
| PInf
| NInf
| NaN.

Module Num.

Definition Qlt_bool (x y : Q) : bool := negb (Qle_bool y x).

Definition neg (a : num) : num :=
  match a with
  | Fin x => Fin (- x)
  | PInf => NInf
  | NInf => PInf
  | NaN => NaN
  end.

Definition add (a b : num) : num :=
  match a, b with
  | NaN, _ | _, NaN => NaN
  | Fin x, Fin y => Fin (x + y)
  | PInf, NInf | NInf, PInf => NaN
  | PInf, _ | _, PInf => PInf
  | NInf, _ | _, NInf => NInf
  end.

Definition sub (a b : num) : num := add a (neg b).

(** Sign of a finite number, as needed by the infinite cases of [*] and [/]. *)
Definition signed_inf (x : Q) : num :=
  if Qlt_bool 0 x then PInf else if Qlt_bool x 0 then NInf else NaN.

Definition mul (a b : num) : num :=
  match a, b with
  | NaN, _ | _, NaN => NaN
  | Fin x, Fin y => Fin (x * y)
  | Fin x, PInf | PInf, Fin x => signed_inf x
  | Fin x, NInf | NInf, Fin x => neg (signed_inf x)
  | PInf, PInf | NInf, NInf => PInf
  | PInf, NInf | NInf, PInf => NInf
  end.

Definition div (a b : num) : num :=
  match a, b with
  | NaN, _ | _, NaN => NaN
  | Fin x, Fin y => if Qeq_bool y 0 then signed_inf x else Fin (x / y)
  | Fin _, (PInf | NInf) => Fin 0
  | (PInf | NInf), (PInf | NInf) => NaN
  | PInf, Fin y => if Qlt_bool y 0 then NInf else PInf
  | NInf, Fin y => if Qlt_bool y 0 then PInf else NInf
  end.

(** [a < b]; false as soon as one side is [NaN]. *)
Definition ltb (a b : num) : bool :=
  match a, b with
  | NaN, _ | _, NaN => false
  | Fin x, Fin y => Qlt_bool x y
  | _, NInf => false
  | NInf, _ => true
  | PInf, _ => false
  | _, PInf => true
  end.

(** [a <= b]; false as soon as one side is [NaN]. *)
Definition leb (a b : num) : bool :=
  match a, b with
  | NaN, _ | _, NaN => false
  | Fin x, Fin y => Qle_bool x y
  | NInf, _ => true
  | _, PInf => true
  | _, NInf => false
  | PInf, _ => false
  end.

Definition gtb (a b : num) : bool := ltb b a.
Definition geb (a b : num) : bool := leb b a.

(** [Math.min] and [Math.max] return [NaN] when an argument is [NaN]. *)
Definition min (a b : num) : num :=
  match a, b with
  | NaN, _ | _, NaN => NaN
  | _, _ => if leb a b then a else b
  end.

Definition max (a b : num) : num :=
  match a, b with
  | NaN, _ | _, NaN => NaN
  | _, _ => if leb a b then b else a
  end.

(** [Math.abs]. *)
Definition abs (a : num) : num :=
  match a with
  | Fin x => Fin (Qabs x)
  | PInf | NInf => PInf
  | NaN => NaN
  end.

(** [Number.isNaN] on a number. *)
Definition isNaN (a : num) : bool :=
  match a with NaN => true | _ => false end.

(** Equality of numbers: the same special value, or equal rationals. *)
Definition eq (a b : num) : Prop :=
  match a, b with
  | Fin x, Fin y => x == y
  | PInf, PInf | NInf, NInf | NaN, NaN => True
  | _, _ => False
  end.

End Num.

Declare Scope num_scope.
Delimit Scope num_scope with num.
Bind Scope num_scope with num.
Infix "+" := Num.add : num_scope.
Infix "-" := Num.sub : num_scope.
Infix "*" := Num.mul : num_scope.
Infix "/" := Num.div : num_scope.
Infix "<?" := Num.ltb (at level 70) : num_scope.
Infix "<=?" := Num.leb (at level 70) : num_scope.
Infix ">?" := Num.gtb (at level 70) : num_scope.
Infix ">=?" := Num.geb (at level 70) : num_scope.
Infix "=n=" := Num.eq (at level 70).

(** Integer literals of the source. *)
Definition lit (z : Z) : num := Fin (inject_Z z).

(** A value that may be [undefined] (a missing array element). *)
Definition jsval := option num.

(** [ToNumber]: [undefined] becomes [NaN]. *)
Definition toNumber (v : jsval) : num :=
  match v with Some a => a | None => NaN end.

(** [Number.isNaN(v)]: no coercion, so it is false on [undefined]. *)
Definition Number_isNaN (v : jsval) : bool :=
  match v with Some a => Num.isNaN a | None => false end.

(** ** Strings *)

Definition is_digit (c : ascii) : bool :=
  let n := nat_of_ascii c in (48 <=? n)%nat && (n <=? 57)%nat.

Definition digit_val (c : ascii) : Z := Z.of_nat (nat_of_ascii c) - 48.

(** White space removed by [String.prototype.trim] (ASCII part). *)
Definition is_space (c : ascii) : bool :=
  let n := nat_of_ascii c in
  ((9 <=? n)%nat && (n <=? 13)%nat) || (n =? 32)%nat.

Fixpoint trimStart (s : string) : string :=
  match s with
  | String c r => if is_space c then trimStart r else s
  | EmptyString => EmptyString
  end.

(** Drops trailing white space: a space is kept only when something that is
    kept follows it. *)
Fixpoint trimEnd (s : string) : string :=
  match s with
  | String c r =>
      match trimEnd r with
      | EmptyString => if is_space c then EmptyString else String c EmptyString
      | r' => String c r'
      end
  | EmptyString => EmptyString
  end.

Definition trim (s : string) : string := trimEnd (trimStart s).

(** [s.split(sep)] for a one-character separator: never the empty array. *)
Fixpoint split (sep : ascii) (s : string) : list string :=
  match s with
  | EmptyString => [EmptyString]
  | String c r =>
      if Ascii.eqb c sep then EmptyString :: split sep r
      else match split sep r with
           | p :: ps => String c p :: ps
           | [] => [String c EmptyString]
           end
  end.

(** [parseInt(s, 10)] on the text of a capture group: the value of the
    leading run of decimal digits, [NaN] when there is none. (The groups it is
    applied to hold digits only, so sign and leading space do not occur.) *)
Fixpoint digits_value (acc : Z) (s : string) : Z :=
  match s with
  | String c r => if is_digit c then digits_value (10 * acc + digit_val c) r else acc
  | EmptyString => acc
  end.

Definition parseInt (s : string) : num :=
  match s with
  | String c _ => if is_digit c then lit (digits_value 0 s) else NaN
  | EmptyString => NaN
  end.

(** *** The pattern [/T(\d{1,2}):(\d{2})(?::(\d{2}))?(?:\.\d+)?/] *)

(** What follows the hour group: [:(\d{2})(?::(\d{2}))?]. The optional
    fraction [(?:\.\d+)?] captures nothing and cannot fail, so it does not
    appear. Returns groups 2 and 3. *)
Definition match_minutes (s : string) : option (string * option string) :=
  match s with
  | String c (String m1 (String m2 r)) =>
      if Ascii.eqb c ":" && is_digit m1 && is_digit m2 then
        let g2 := String m1 (String m2 EmptyString) in
        match r with
        | String c' (String s1 (String s2 _)) =>
            if Ascii.eqb c' ":" && is_digit s1 && is_digit s2
            then Some (g2, Some (String s1 (String s2 EmptyString)))
            else Some (g2, None)
        | _ => Some (g2, None)
        end
      else None
  | _ => None
  end.

(** A match starting at the first character: [T], then the greedy hour group
    (two digits first, one digit on backtracking), then the rest. *)
Definition match_here (s : string) : option (string * string * option string) :=
  match s with
  | String t (String h1 r1) =>
      if Ascii.eqb t "T" && is_digit h1 then
        let one :=
          match match_minutes r1 with
          | Some (g2, g3) => Some (String h1 EmptyString, g2, g3)
          | None => None
          end in
        match r1 with
        | String h2 r2 =>
            if is_digit h2 then
              match match_minutes r2 with
              | Some (g2, g3) => Some (String h1 (String h2 EmptyString), g2, g3)
              | None => one
              end
            else one
        | EmptyString => one
        end
      else None
  | _ => None
  end.

(** [re.exec(iso)]: the leftmost match. *)
Fixpoint regex_exec (s : string) : option (string * string * option string) :=
  match match_here s with
  | Some g => Some g
  | None =>
      match s with
      | String _ r => regex_exec r
      | EmptyString => None
      end
  end.

(** ** Data model *)

Inductive DutyStatus : Type := OFF | SB | D | ON.

Record Segment : Type := mkSegment {
  status : DutyStatus;
  start_iso : string;
  end_iso : string
}.

Record LogbookDay : Type := mkLogbookDay {
  date : string;
  segments : list Segment
}.

Inductive YesNo : Type := yes | no.

(** The two fields of [LogbookFormData] the arithmetic reads; both optional. *)
Record LogbookFormData : Type := mkForm {
  ending_shift_location : option YesNo;
  sleeper_berth_time : option string
}.

Record RecapValues : Type := mkRecap {
  onDutyToday : num;
  seventyA : num;
  seventyB : num;
  seventyC : num;
  sixtyA : num;
  sixtyB : num;
  sixtyC : num
}.

(** [Record<DutyStatus, number>]. *)
Record Totals : Type := mkTotals {
  tOFF : num;
  tSB : num;
  tD : num;
  tON : num
}.

(** The fields of the plan the page computes with; [distance_m] is a number
    of the JSON response, so a finite one. *)
Record TripPlan : Type := mkPlan {
  distance_m : Q;
  logs : list LogbookDay
}.

(** What the code reads from a valid [Date] object. *)
Record JSDate : Type := mkDate {
  getTime : Z;            (* milliseconds since the epoch *)
  getUTCHours : Z;
  getUTCMinutes : Z;
  getUTCSeconds : Z
}.

Definition YesNo_eqb (a b : YesNo) : bool :=
  match a, b with yes, yes | no, no => true | _, _ => false end.

Definition statusToRowIndex (s : DutyStatus) : Z :=
  match s with
  | OFF => 0
  | SB => 1
  | D => 2
  | ON => 3
  end%Z.

(** A segment with its two times in hours, as built by
    [{...seg, startH, endH}]. *)
Record HSegment : Type := mkHSegment {
  seg : Segment;
  startH : num;
  endH : num
}.

(** State of the totals loop: the four counters and [prevEnd]. *)
Record LoopState : Type := mkLoop {
  totals : Totals;
  prevEnd : num
}.

Definition zeroTotals : Totals := mkTotals (lit 0) (lit 0) (lit 0) (lit 0).

(** [totalsByStatus[st] += x]. *)
Definition addTo (t : Totals) (st : DutyStatus) (x : num) : Totals :=
  match st with
  | OFF => mkTotals (tOFF t + x) (tSB t) (tD t) (tON t)
  | SB => mkTotals (tOFF t) (tSB t + x) (tD t) (tON t)
  | D => mkTotals (tOFF t) (tSB t) (tD t + x) (tON t)
  | ON => mkTotals (tOFF t) (tSB t) (tD t) (tON t + x)
  end%num.

(** [totalHoursSum]. *)
Definition totalHoursSum (t : Totals) : num :=
  (tOFF t + tSB t + tD t + tON t)%num.

(** ** Sorting by [startH]

    [segments.sort((a, b) => a.startH - b.startH)]: the sort is stable, so it
    is the insertion sort that moves an element past those that compare
    strictly smaller. *)
Definition compareFn (a b : HSegment) : num := (startH a - startH b)%num.

Fixpoint insertSeg (x : HSegment) (l : list HSegment) : list HSegment :=
  match l with
  | [] => [x]
  | y :: r =>
      if (compareFn x y >? lit 0)%num then y :: insertSeg x r
      else x :: l
  end.

Definition sortSegs (l : list HSegment) : list HSegment :=
  fold_right insertSeg [] l.

(** ** Geometry constants of the sheet *)

Module Geometry.
Definition W : Q := 850.
Definition pad : Q := 22.
Definition contentMargin : Q := 40.
Definition contentX : Q := pad + contentMargin.
Definition contentW : Q := W - pad * 2 - contentMargin * 2.
Definition infoY : Q := 142.
Definition infoH : Q := 104.
Definition gridX : Q := contentX.
Definition gridY : Q := infoY + infoH + 50.
Definition gridW : Q := contentW - 35.
Definition dutyGridLeftMargin : Q := 30.
Definition dutyGridW : Q := gridW - dutyGridLeftMargin.
Definition dutyGridX : Q := gridX + dutyGridLeftMargin.
Definition dutyHourW : Q := dutyGridW / 24.
Definition headerH : Q := 55.
Definition rowH : Q := dutyHourW.
Definition gridBodyY : Q := gridY + headerH.
End Geometry.

(** A drawn [<line x1 y1 x2 y2>] . *)
Record Line : Type := mkLine {
  x1 : num; y1 : num; x2 : num; y2 : num
}.

(** [1e-6]. *)
Definition eps : Q := 1 # 1000000.

(** [l.map((x, idx) => f x idx)]. *)
Fixpoint mapi_from (A B : Type) (f : A -> nat -> B) (i : nat) (l : list A) : list B :=
  match l with
  | [] => []
  | x :: r => f x i :: mapi_from f (S i) r
  end.

Definition mapi (A B : Type) (f : A -> nat -> B) (l : list A) : list B :=
  mapi_from f 0 l.

(** [l[i]] for an integer [i]: [undefined] outside the array. *)
Definition index (l : list num) (i : Z) : jsval :=
  if (i <? 0)%Z then None else nth_error l (Z.to_nat i).

(** ** Concrete built-ins and inputs for the examples

    [Number_digits] agrees with [Number] on the strings the examples use: the
    empty string (0), runs of decimal digits (their value) and words that
    are not numeric literals ([NaN]). [Date_example] knows four instants of
    1 and 2 March 2024 (UTC) and takes every other string for an invalid
    date. *)

Fixpoint all_digits (s : string) : bool :=
  match s with
  | String c r => is_digit c && all_digits r
  | EmptyString => true
  end.

Definition Number_digits (s : string) : num :=
  match s with
  | EmptyString => lit 0
  | _ => if all_digits s then lit (digits_value 0 s) else NaN
  end.

Definition Date_example (s : string) : option JSDate :=
  if String.eqb s "2024-03-01T08:00:00Z" then Some (mkDate 1709280000000 8 0 0)
  else if String.eqb s "2024-03-01T10:00:00Z" then Some (mkDate 1709287200000 10 0 0)
  else if String.eqb s "2024-03-02T07:00:00Z" then Some (mkDate 1709362800000 7 0 0)
  else if String.eqb s "2024-03-02T15:00:00Z" then Some (mkDate 1709391600000 15 0 0)
  else None.

(** The form of a driver who stays in the sleeper berth from [time] on. *)
Definition sleeperForm (time : string) : LogbookFormData :=
  mkForm (Some yes) (Some time).

(** A day that drives from 07:00 to 15:00. *)
Definition drivingDay : LogbookDay :=
  mkLogbookDay "2024-03-01"
    [mkSegment D "2024-03-01T07:00:00" "2024-03-01T15:00:00"].

(** A day without segments. *)
Definition emptyDay : LogbookDay := mkLogbookDay "2024-03-01" [].


(** ON 07:00-08:00, D 08:00-12:00, OFF 12:00-12:30, D 12:30-15:00. *)
Definition scenarioDay : LogbookDay :=
  mkLogbookDay "2024-03-01"
    [mkSegment ON "2024-03-01T07:00:00" "2024-03-01T08:00:00";
     mkSegment D "2024-03-01T08:00:00" "2024-03-01T12:00:00";
     mkSegment OFF "2024-03-01T12:00:00" "2024-03-01T12:30:00";
     mkSegment D "2024-03-01T12:30:00" "2024-03-01T15:00:00"].

(** Eight days of eight hours on duty. *)
Definition eightDays : list num :=
  [lit 8; lit 8; lit 8; lit 8; lit 8; lit 8; lit 8; lit 8].

(** A trip of 1609.34 km that drives two hours on the first day and eight on
    the second. *)
Definition twoDayPlan : TripPlan :=
  mkPlan 1609340
    [mkLogbookDay "2024-03-01"
       [mkSegment D "2024-03-01T08:00:00Z" "2024-03-01T10:00:00Z"];
     mkLogbookDay "2024-03-02"
       [mkSegment D "2024-03-02T07:00:00Z" "2024-03-02T15:00:00Z"]].

(** A trip whose only day is on duty without driving. *)
Definition noDrivingPlan : TripPlan :=
  mkPlan 1609340
    [mkLogbookDay "2024-03-01"
       [mkSegment ON "2024-03-01T08:00:00Z" "2024-03-01T10:00:00Z"]].

(** The scenario day with its first two segments listed the other way
    round. *)
Definition shuffledScenarioDay : LogbookDay :=
  mkLogbookDay "2024-03-01"
    [mkSegment D "2024-03-01T08:00:00" "2024-03-01T12:00:00";
     mkSegment ON "2024-03-01T07:00:00" "2024-03-01T08:00:00";
     mkSegment OFF "2024-03-01T12:00:00" "2024-03-01T12:30:00";
     mkSegment D "2024-03-01T12:30:00" "2024-03-01T15:00:00"].

(** Eight days of eight hours, as rationals. *)
Definition eightHours : list Q := [8; 8; 8; 8; 8; 8; 8; 8].

(** A trip whose second day has a driving segment with an unreadable start. *)
Definition badDatePlan : TripPlan :=
  mkPlan 1609340
    [mkLogbookDay "2024-03-01"
       [mkSegment D "2024-03-01T08:00:00Z" "2024-03-01T10:00:00Z"];
     mkLogbookDay "2024-03-02"
       [mkSegment D "seven o'clock" "2024-03-02T15:00:00Z"]].

(** ** The program

    Two built-ins are left open: [Number] applied to a string, and
    [new Date] applied to a string ([None] stands for an invalid date, the one
    whose [getTime()] is [NaN]). *)
Section Logbook.

Variable Number : string -> num.
Variable Date_new : string -> option JSDate.

Set Default Proof Using "Type".

Local Open Scope num_scope.

(** *** LogbookSheet.tsx *)

Definition isoToHoursSinceMidnight (iso : string) : num :=
  match regex_exec iso with
  | None =>
      match Date_new iso with
      | None => lit 0
      | Some d =>
          lit (getUTCHours d) + lit (getUTCMinutes d) / lit 60
          + lit (getUTCSeconds d) / lit 3600
      end
  | Some (g1, g2, g3) =>
      let h := parseInt g1 in
      let m := parseInt g2 in
      let s := parseInt (match g3 with Some g => g | None => "0"%string end) in
      h + m / lit 60 + s / lit 3600
  end.

(** [formData ?? {}]. *)
Definition formOf (formData : option LogbookFormData) : LogbookFormData :=
  match formData with
  | Some f => f
  | None => mkForm None None
  end.

Definition sleeperBerthActiveForTotals (form : LogbookFormData) : bool :=
  YesNo_eqb (match ending_shift_location form with Some v => v | None => no end) yes
  && match sleeper_berth_time form with
     | Some t => negb (String.eqb (trim t) "")
     | None => false
     end.

(** The body of [if (sleeperBerthActiveForTotals) { ... }] on the trimmed
    text [t]: [h] and [m] are the first two elements of
    [t.split(':').map(Number)], [m] being [undefined] when there is no
    colon. *)
Definition parseSleeperBerthTime (t : string) : num :=
  let parts := map Number (split ":" t) in
  let h : jsval := nth_error parts 0 in
  let m : jsval := nth_error parts 1 in
  let hh : jsval := if Number_isNaN h then Some (lit 0) else h in
  let mm : jsval := if Number_isNaN m then Some (lit 0) else m in
  Num.max (lit 0) (Num.min (lit 24) (toNumber hh + toNumber mm / lit 60)).

Definition sbTimeHForTotals (form : LogbookFormData) : num :=
  if sleeperBerthActiveForTotals form then
    parseSleeperBerthTime
      (trim (match sleeper_berth_time form with Some t => t | None => ""%string end))
  else lit 24.

Definition toHSegment (s : Segment) : HSegment :=
  mkHSegment s (isoToHoursSinceMidnight (start_iso s))
               (isoToHoursSinceMidnight (end_iso s)).

(** One turn of [for (const seg of segments)]; returning the state
    unchanged is [continue]. *)
Definition totalsStep (active : bool) (sbT : num) (st : LoopState) (hs : HSegment)
  : LoopState :=
  let start := Num.max (lit 0) (Num.min (lit 24) (startH hs)) in
  let end0 := Num.max (lit 0) (Num.min (lit 24) (endH hs)) in
  if active && (start >=? sbT) then st
  else
    let end1 := if active then Num.min end0 sbT else end0 in
    if end1 <=? start then st
    else
      let t0 := totals st in
      let t1 := if start >? prevEnd st
                then addTo t0 OFF (start - prevEnd st) else t0 in
      let t2 := addTo t1 (status (seg hs)) (end1 - start) in
      mkLoop t2 (Num.max (prevEnd st) end1).

(** What follows the loop. *)
Definition totalsFinish (active : bool) (sbT : num) (st : LoopState) : Totals :=
  if active then
    let t1 := if prevEnd st <? sbT
              then addTo (totals st) OFF (sbT - prevEnd st) else totals st in
    if sbT <? lit 24 then addTo t1 SB (lit 24 - sbT) else t1
  else
    if prevEnd st <? lit 24
    then addTo (totals st) OFF (lit 24 - prevEnd st) else totals st.

Definition totalsByStatus (log : option LogbookDay) (formData : option LogbookFormData)
  : Totals :=
  let form := formOf formData in
  match log with
  | Some l =>
      match segments l with
      | [] => zeroTotals
      | _ :: _ =>
          let active := sleeperBerthActiveForTotals form in
          let sbT := sbTimeHForTotals form in
          let segs := sortSegs (map toHSegment (segments l)) in
          let st := fold_left (totalsStep active sbT) segs (mkLoop zeroTotals (lit 0)) in
          totalsFinish active sbT st
      end
  | None => zeroTotals
  end.

(** The vertical connector the duty overlay draws for [seg] after [prev]
    ([None] is [return null]). *)
Definition connector (prev s : Segment) : option Line :=
  let changeTime := isoToHoursSinceMidnight (start_iso s) in
  let prevEnd := isoToHoursSinceMidnight (end_iso prev) in
  if Num.abs (changeTime - prevEnd) >? Fin eps then None
  else
    let clamped := Num.max (lit 0) (Num.min (lit 24) changeTime) in
    if (clamped <=? lit 0) || (clamped >=? lit 24) then None
    else
      let x := Fin Geometry.dutyGridX + clamped * Fin Geometry.dutyHourW in
      let y1 := Fin Geometry.gridBodyY
                + lit (statusToRowIndex (status prev)) * Fin Geometry.rowH
                + Fin Geometry.rowH / lit 2 in
      let y2 := Fin Geometry.gridBodyY
                + lit (statusToRowIndex (status s)) * Fin Geometry.rowH
                + Fin Geometry.rowH / lit 2 in
      Some (mkLine x y1 x y2).

(** [log.segments.map((seg, idx) => ...)] of the connectors. *)
Definition connectors (segs : list Segment) : list (option Line) :=
  mapi (fun s idx =>
          if (idx =? 0)%nat then None
          else match nth_error segs (idx - 1) with
               | Some prev => connector prev s
               | None => None
               end) segs.

(** *** The logbook page *)

(** [new Date(iso).getTime()]. *)
Definition timeOf (iso : string) : num :=
  match Date_new iso with
  | Some d => lit (getTime d)
  | None => NaN
  end.

Definition segHours (s : Segment) : num :=
  (timeOf (end_iso s) - timeOf (start_iso s)) / (lit 1000 * lit 60 * lit 60).

Definition getDrivingPlusOnDutyHours (segs : list Segment) : num :=
  fold_left (fun total s =>
               match status s with
               | D | ON => total + segHours s
               | _ => total
               end) segs (lit 0).

Definition getDrivingHours (segs : list Segment) : num :=
  fold_left (fun total s =>
               match status s with
               | D => total + segHours s
               | _ => total
               end) segs (lit 0).

(** The loop of the local function [sum]: [j] runs from [a] while [j <= b]. *)
Fixpoint sumLoop (hoursByDay : list num) (n b : Z) (fuel : nat) (j : Z) (s : num) : num :=
  match fuel with
  | O => s
  | S fuel' =>
      if (j <=? b)%Z then
        let s' := if ((j >=? 0)%Z && (j <? n)%Z)%bool
                  then s + toNumber (index hoursByDay j) else s in
        sumLoop hoursByDay n b fuel' (j + 1)%Z s'
      else s
  end.

Definition sum (hoursByDay : list num) (a b : Z) : num :=
  sumLoop hoursByDay (Z.of_nat (List.length hoursByDay)) b (Z.to_nat (b - a + 1)) a (lit 0).

Definition getRecapForDay (hoursByDay : list num) (dayIndex : Z) : RecapValues :=
  let onDutyToday :=
    match index hoursByDay dayIndex with Some v => v | None => lit 0 end in
  let i := dayIndex in
  let seventyA := sum hoursByDay (Z.max 0 (i - 6)) i in
  let seventyC := sum hoursByDay (Z.max 0 (i - 7)) i in
  let seventyB := Num.max (lit 0) (lit 70 - seventyA) in
  let sixtyA := sum hoursByDay (Z.max 0 (i - 4)) i in
  let sixtyC := sum hoursByDay (Z.max 0 (i - 6)) i in
  let sixtyB := Num.max (lit 0) (lit 60 - sixtyA) in
  mkRecap onDutyToday seventyA seventyB seventyC sixtyA sixtyB sixtyC.

Definition hoursByDayOf (plan : TripPlan) : list num :=
  map (fun l => getDrivingPlusOnDutyHours (segments l)) (logs plan).

Definition totalMiles (plan : TripPlan) : num :=
  Fin (distance_m plan) / Fin (160934 # 100).

Definition totalDriveHours (plan : TripPlan) : num :=
  fold_left (fun acc l => acc + getDrivingHours (segments l)) (logs plan) (lit 0).

Definition perDayMiles (plan : TripPlan) (log : LogbookDay) : num :=
  let driveHoursThisDay := getDrivingHours (segments log) in
  if totalDriveHours plan >? lit 0
  then (driveHoursThisDay / totalDriveHours plan) * totalMiles plan
  else totalMiles plan.


Definition recapValuesAll (plan : TripPlan) : list RecapValues :=
  mapi (fun _ dayIndex => getRecapForDay (hoursByDayOf plan) (Z.of_nat dayIndex))
       (logs plan).

(** *** LogbookSheet.tsx: the duty overlay *)

(** [sleeperBerthActive] and [sbTimeH] of the drawing: the same test and the
    same parsing as for the totals, but the time is 0 when the override is
    not active. *)
Definition sleeperBerthActive (form : LogbookFormData) : bool :=
  YesNo_eqb (match ending_shift_location form with Some v => v | None => no end) yes
  && match sleeper_berth_time form with
     | Some t => negb (String.eqb (trim t) "")
     | None => false
     end.

Definition sbTimeH (form : LogbookFormData) : num :=
  if sleeperBerthActive form then
    let t := trim (match sleeper_berth_time form with Some t => t | None => ""%string end) in
    let parts := map Number (split ":" t) in
    let h : jsval := nth_error parts 0 in
    let m : jsval := nth_error parts 1 in
    let sbTimeH0 :=
      toNumber (if Number_isNaN h then Some (lit 0) else h)
      + toNumber (if Number_isNaN m then Some (lit 0) else m) / lit 60 in
    Num.max (lit 0) (Num.min (lit 24) sbTimeH0)
  else lit 0.

(** The horizontal line drawn for one segment of the plan ([None] is
    [return null]); the two end points are circles at the ends of the line. *)
Definition segmentLine (form : LogbookFormData) (s : Segment) : option Line :=
  let rowIndex := statusToRowIndex (status s) in
  let startH := isoToHoursSinceMidnight (start_iso s) in
  let endH0 := isoToHoursSinceMidnight (end_iso s) in
  let endH := if sleeperBerthActive form && (endH0 >? sbTimeH form)
              then sbTimeH form else endH0 in
  let clampedStart := Num.max (lit 0) (Num.min (lit 24) startH) in
  let clampedEnd := Num.max (lit 0) (Num.min (lit 24) endH) in
  if (clampedEnd <=? lit 0) || (clampedStart >=? lit 24) || (clampedEnd <=? clampedStart)
  then None
  else
    let y := Fin Geometry.gridBodyY + lit rowIndex * Fin Geometry.rowH
             + Fin Geometry.rowH / lit 2 in
    let x1 := Fin Geometry.dutyGridX + clampedStart * Fin Geometry.dutyHourW in
    let x2 := Fin Geometry.dutyGridX + clampedEnd * Fin Geometry.dutyHourW in
    Some (mkLine x1 y x2 y).

(** [log.segments.map((seg, idx) => ...)] of the segment lines. *)
Definition segmentLines (form : LogbookFormData) (segs : list Segment)
  : list (option Line) :=
  map (segmentLine form) segs.

(** [x || 0] on a number: 0 and [NaN] are falsy. *)
Definition orZero (x : num) : num :=
  match x with
  | NaN => lit 0
  | Fin q => if Qeq_bool q 0 then lit 0 else x
  | _ => x
  end.

(** One turn of the loop that looks for the earliest start: the pair is
    [(firstSeg, firstStart)]. *)
Definition firstStep (acc : Segment * num) (s : Segment) : Segment * num :=
  let h := orZero (isoToHoursSinceMidnight (start_iso s)) in
  if h <? snd acc then (s, h) else acc.

(** The synthetic OFF-duty line before the first segment, and the vertical
    connector from its end to the row of the first segment when drawn. *)
Record LeadingOff : Type := mkLeadingOff {
  offLine : Line;
  offConnector : option Line
}.

Definition leadingOff (form : LogbookFormData) (segs : list Segment)
  : option LeadingOff :=
  match segs with
  | [] => None
  | s0 :: _ =>
      let first :=
        fold_left firstStep segs
          (s0, orZero (isoToHoursSinceMidnight (start_iso s0))) in
      let firstSeg := fst first in
      let firstStart := snd first in
      if negb (firstStart >? lit 0) then None
      else
        let endCap := if sleeperBerthActive form && (firstStart >? sbTimeH form)
                      then sbTimeH form else firstStart in
        let clampedEnd := Num.max (lit 0) (Num.min (lit 24) endCap) in
        if clampedEnd <=? lit 0 then None
        else
          let offY := Fin Geometry.gridBodyY
                      + lit (statusToRowIndex OFF) * Fin Geometry.rowH
                      + Fin Geometry.rowH / lit 2 in
          let firstStatusY := Fin Geometry.gridBodyY
                              + lit (statusToRowIndex (status firstSeg)) * Fin Geometry.rowH
                              + Fin Geometry.rowH / lit 2 in
          let x1 := Fin Geometry.dutyGridX in
          let x2 := Fin Geometry.dutyGridX + clampedEnd * Fin Geometry.dutyHourW in
          Some (mkLeadingOff
                  (mkLine x1 offY x2 offY)
                  (if negb (sleeperBerthActive form) || (firstStart <=? sbTimeH form)
                   then Some (mkLine x2 offY x2 firstStatusY) else None))
  end.

(** One turn of the loop that looks for the latest end: the pair is
    [(lastSeg, lastEnd)]. *)
Definition lastStep (acc : Segment * num) (s : Segment) : Segment * num :=
  let h := orZero (isoToHoursSinceMidnight (end_iso s)) in
  if h >? snd acc then (s, h) else acc.

(** The lines of the end-of-day group: the vertical from the last status to
    OFF, then either the OFF line to midnight, or (sleeper berth) the OFF
    line to the sleeper-berth time, the vertical from OFF to SB and the SB
    line to midnight. *)
Record EndOfDay : Type := mkEndOfDay {
  toOffLine : option Line;
  offToSbLine : option Line;
  offSbVertical : option Line;
  sbLine : option Line;
  offToMidnight : option Line
}.

Definition endOfDay (form : LogbookFormData) (segs : list Segment) : option EndOfDay :=
  match segs with
  | [] => None
  | s0 :: _ =>
      let last :=
        fold_left lastStep segs
          (s0, orZero (isoToHoursSinceMidnight (end_iso s0))) in
      let lastSeg := fst last in
      let lastEnd := snd last in
      if negb ((lastEnd <? lit 24) && (lastEnd >? lit 0)) then None
      else
        let clampedEnd := Num.max (lit 0) (Num.min (lit 24) lastEnd) in
        if (clampedEnd <=? lit 0) || (clampedEnd >=? lit 24) then None
        else
          let transitionX := Fin Geometry.dutyGridX + clampedEnd * Fin Geometry.dutyHourW in
          let offY := Fin Geometry.gridBodyY
                      + lit (statusToRowIndex OFF) * Fin Geometry.rowH
                      + Fin Geometry.rowH / lit 2 in
          let fromStatusY := Fin Geometry.gridBodyY
                             + lit (statusToRowIndex (status lastSeg)) * Fin Geometry.rowH
                             + Fin Geometry.rowH / lit 2 in
          let sbY := Fin Geometry.gridBodyY
                     + lit (statusToRowIndex SB) * Fin Geometry.rowH
                     + Fin Geometry.rowH / lit 2 in
          let xEnd := Fin Geometry.dutyGridX + lit 24 * Fin Geometry.dutyHourW in
          let sleeper := sleeperBerthActive form && (sbTimeH form >? lit 0)
                         && (sbTimeH form <? lit 24) in
          let sbTimeX := if sleeper
                         then Fin Geometry.dutyGridX + sbTimeH form * Fin Geometry.dutyHourW
                         else transitionX in
          Some (mkEndOfDay
                  (match status lastSeg with
                   | OFF => None
                   | _ => Some (mkLine transitionX fromStatusY transitionX offY)
                   end)
                  (if sleeper && (lastEnd <? sbTimeH form)
                   then Some (mkLine transitionX offY sbTimeX offY) else None)
                  (if sleeper then Some (mkLine sbTimeX offY sbTimeX sbY) else None)
                  (if sleeper then Some (mkLine sbTimeX sbY xEnd sbY) else None)
                  (if sleeper then None
                   else Some (mkLine transitionX offY xEnd offY)))
  end.

(** ** Predicates and values used in the statements *)

(** [Math.max(0, Math.min(24, x))] on a finite number. *)
Definition clampQ (x : Q) : Q :=
  let m := if Qle_bool (inject_Z 24) x then inject_Z 24 else x in
  if Qle_bool (inject_Z 0) m then m else inject_Z 0.

Definition starts_digit (s : string) : bool :=
  match s with
  | String c _ => is_digit c
  | EmptyString => false
  end.

Definition groups_ok (g : string * string * option string) : Prop :=
  let '(g1, g2, g3) := g in
  starts_digit g1 = true /\ starts_digit g2 = true
  /\ match g3 with Some t => starts_digit t = true | None => True end.

(** Both times of [x] are finite: [a] its start and [e] its end. *)
Definition hours (x : HSegment) (a e : Q) : Prop :=
  startH x = Fin a /\ endH x = Fin e.

(** The intervals of [x] and [y] do not overlap. *)
Definition disjointH (x y : HSegment) : Prop :=
  exists ax ex ay ey,
    hours x ax ex /\ hours y ay ey /\ (ex <= ay \/ ey <= ax)%Q.

(** [x] starts no later than [y], and [y] starts after [x] has ended unless
    [y] is empty. *)
Definition before (x y : HSegment) : Prop :=
  exists ax ex ay ey,
    hours x ax ex /\ hours y ay ey /\ (ax <= ay)%Q /\ (ex <= ay \/ ey <= ay)%Q.

(** The same on the segments of the log. *)
Definition disjointSegs (a b : Segment) : Prop :=
  (isoToHoursSinceMidnight (end_iso a) <=? isoToHoursSinceMidnight (start_iso b)) = true
  \/ (isoToHoursSinceMidnight (end_iso b) <=? isoToHoursSinceMidnight (start_iso a)) = true.

(** The four counters are finite and add up to [p]. *)
Definition sumsTo (t : Totals) (p : Q) : Prop :=
  exists o s d n,
    t = mkTotals (Fin o) (Fin s) (Fin d) (Fin n) /\ (o + s + d + n == p)%Q.

(** The hour at which the day is cut: the sleeper-berth time when the
    override is active, midnight otherwise. *)
Definition cut (active : bool) (sb : Q) : Q := if active then sb else 24.

(** A segment still to come either is empty or starts at or after [p]. *)
Definition clearOf (p : Q) (y : HSegment) : Prop :=
  exists a e, hours y a e /\ (e <= a \/ p <= clampQ a)%Q.

(** An override is inactive when its time is missing or blank. *)
Definition blankTime (form : LogbookFormData) : Prop :=
  match sleeper_berth_time form with
  | Some t => trim t = ""%string
  | None => True
  end.

(** The sum of the spec, [sum(onDutyPerDay[lo .. hi])]: the days [lo], ...,
    [hi] of the sequence, added from left to right. *)
Definition specWindowSum (onDutyPerDay : list num) (lo hi : Z) : num :=
  fold_left Num.add
    (firstn (Z.to_nat (hi - lo + 1)) (skipn (Z.to_nat lo) onDutyPerDay))
    (lit 0).

(** [x >= 0]. *)
Definition nonneg (x : num) : Prop := (x >=? lit 0) = true.

(** A number that is finite or [NaN]: what a difference of two
    [getTime()] values can be. *)
Definition finOrNaN (x : num) : Prop := x = NaN \/ exists q, x = Fin q.


(** The four counters are finite and none is negative. *)
Definition nonnegTotals (t : Totals) : Prop :=
  exists o s d n,
    t = mkTotals (Fin o) (Fin s) (Fin d) (Fin n)
    /\ (0 <= o)%Q /\ (0 <= s)%Q /\ (0 <= d)%Q /\ (0 <= n)%Q.

(** A string without the letter T. *)
Fixpoint noT (s : string) : bool :=
  match s with
  | String c r => negb (Ascii.eqb c "T") && noT r
  | EmptyString => true
  end.

(** The number written by two decimal digits. *)
Definition twoDigits (a b : ascii) : Z := (10 * digit_val a + digit_val b)%Z.

(** [new Date] never gives negative clock fields. *)
Definition clockFieldsNonneg : Prop :=
  forall s d, Date_new s = Some d ->
              (0 <= getUTCHours d /\ 0 <= getUTCMinutes d /\ 0 <= getUTCSeconds d)%Z.

Definition status_eqb (a b : DutyStatus) : bool :=
  match a, b with
  | OFF, OFF | SB, SB | D, D | ON, ON => true
  | _, _ => false
  end.

(** [totalsByStatus[st]]. *)
Definition statusTotal (t : Totals) (st : DutyStatus) : num :=
  match st with
  | OFF => tOFF t
  | SB => tSB t
  | D => tD t
  | ON => tON t
  end.



(** The finite start and end of a segment in hours. *)
Definition startQ (x : HSegment) : Q :=
  match startH x with Fin a => a | _ => 0%Q end.

Definition endQ (x : HSegment) : Q :=
  match endH x with Fin e => e | _ => 0%Q end.

(** The hours one turn of the totals loop adds to the status of a segment
    from [a] to [e]. *)
Definition countedQ (active : bool) (sb a e : Q) : Q :=
  let ca := clampQ a in
  let ce := clampQ e in
  if active && Qle_bool sb ca then 0%Q
  else
    let e1 := if active then (if Qle_bool ce sb then ce else sb) else ce in
    if Qle_bool e1 ca then 0%Q else (e1 - ca)%Q.

(** The hours the loop adds to the status [k] for the segment [x]. *)
Definition countedFor (active : bool) (sb : Q) (k : DutyStatus) (x : HSegment) : Q :=
  if status_eqb (status (seg x)) k
  then countedQ active sb (startQ x) (endQ x) else 0%Q.

Definition sumOver (A : Type) (f : A -> Q) (l : list A) : Q :=
  fold_right (fun x acc => (f x + acc)%Q) 0%Q l.

(** The middle of the row of a status. *)
Definition rowCenter (st : DutyStatus) : Q :=
  (Geometry.gridBodyY + inject_Z (statusToRowIndex st) * Geometry.rowH
   + Geometry.rowH / 2)%Q.

(** The sum of the hours of the days [lo], ..., [lo + count - 1]. *)
Definition windowQ (qs : list Q) (lo count : nat) : Q :=
  fold_left Qplus (firstn count (skipn lo qs)) 0%Q.

(** The segment has two valid dates and does not end before it starts. *)
Definition chronological (s : Segment) : Prop :=
  exists ds de,
    Date_new (start_iso s) = Some ds /\ Date_new (end_iso s) = Some de
    /\ (getTime ds <= getTime de)%Z.

Definition isDriving (s : Segment) : bool := status_eqb (status s) D.

Definition isOnDuty (s : Segment) : bool :=
  status_eqb (status s) D || status_eqb (status s) ON.

(** Every driving or on-duty segment of the list is chronological. *)
Definition dutyChronological (segs : list Segment) : Prop :=
  Forall (fun s => isOnDuty s = true -> chronological s) segs.

(** ** Facts about numbers *)

Lemma Qlt_bool_iff (x y : Q) : Num.Qlt_bool x y = true <-> (x < y)%Q.
Proof.
  unfold Num.Qlt_bool. rewrite negb_true_iff.
  split; intros H.
  - apply Qnot_le_lt. intros Hle. apply Qle_bool_iff in Hle. congruence.
  - apply not_true_is_false. intros Hle. apply Qle_bool_iff in Hle.
    apply (Qlt_not_le _ _ H Hle).
Qed.

Lemma Qle_bool_false_iff (x y : Q) : Qle_bool x y = false <-> (y < x)%Q.
Proof.
  rewrite <- Qlt_bool_iff. unfold Num.Qlt_bool.
  destruct (Qle_bool x y); simpl; intuition congruence.
Qed.

Lemma Qlt_bool_false_iff (x y : Q) : Num.Qlt_bool x y = false <-> (y <= x)%Q.
Proof.
  unfold Num.Qlt_bool. rewrite negb_false_iff. apply Qle_bool_iff.
Qed.

(** Case analysis on the rational comparisons left in the goal or in a
    hypothesis, each branch recording the order it stands for. *)
Ltac qcases :=
  repeat match goal with
    | |- context [Qle_bool ?a ?b] =>
        let E := fresh "E" in
        destruct (Qle_bool a b) eqn:E;
        [apply Qle_bool_iff in E | apply Qle_bool_false_iff in E]
    | H : context [Qle_bool ?a ?b] |- _ =>
        let E := fresh "E" in
        destruct (Qle_bool a b) eqn:E;
        [apply Qle_bool_iff in E | apply Qle_bool_false_iff in E]
    end.

(** Unfolds the operations on finite numbers down to rational comparisons,
    and splits on these until none is left. *)
Ltac num_simpl :=
  cbn [negb andb addTo prevEnd totals tOFF tSB tD tON
       Num.geb Num.leb Num.gtb Num.ltb Num.min Num.max Num.sub Num.add
       Num.neg Num.eq];
  unfold Num.geb, Num.gtb, Num.Qlt_bool;
  cbn [negb andb addTo prevEnd totals tOFF tSB tD tON
       Num.geb Num.leb Num.gtb Num.ltb Num.min Num.max Num.sub Num.add
       Num.neg Num.eq].

Ltac crunch := repeat (num_simpl; progress qcases; try lra).

Lemma clamp_Fin (x : Q) :
  Num.max (lit 0) (Num.min (lit 24) (Fin x)) = Fin (clampQ x).
Proof.
  unfold clampQ, lit, Num.max, Num.min, Num.leb.
  destruct (Qle_bool (inject_Z 24) x); destruct (Qle_bool (inject_Z 0) _); reflexivity.
Qed.

Lemma clampQ_range (x : Q) : (0 <= clampQ x <= 24)%Q.
Proof.
  unfold clampQ, inject_Z. qcases; lra.
Qed.

Lemma clampQ_mono (x y : Q) : (x <= y)%Q -> (clampQ x <= clampQ y)%Q.
Proof.
  intros H. unfold clampQ, inject_Z. qcases; lra.
Qed.

(** The clamp of any number is [NaN] or lies in [[0, 24]]. *)
Lemma clamp_cases (x : num) :
  Num.max (lit 0) (Num.min (lit 24) x) = NaN
  \/ exists q, Num.max (lit 0) (Num.min (lit 24) x) = Fin q /\ (0 <= q <= 24)%Q.
Proof.
  destruct x as [q | | |].
  - right. exists (clampQ q). split; [apply clamp_Fin | apply clampQ_range].
  - right. exists (inject_Z 24). split; [reflexivity | unfold inject_Z; lra].
  - right. exists (inject_Z 0). split; [reflexivity | unfold inject_Z; lra].
  - left. reflexivity.
Qed.

(** ** [isoToHoursSinceMidnight] is a finite number *)

Lemma parseInt_digits (s : string) :
  starts_digit s = true -> parseInt s = lit (digits_value 0 s).
Proof.
  destruct s as [| c r]; simpl; [discriminate | intros ->; reflexivity].
Qed.

Lemma match_minutes_digits (s g2 : string) (g3 : option string) :
  match_minutes s = Some (g2, g3) ->
  starts_digit g2 = true
  /\ match g3 with Some t => starts_digit t = true | None => True end.
Proof.
  unfold match_minutes.
  destruct s as [| c [| m1 [| m2 r]]]; try discriminate.
  destruct (Ascii.eqb c ":"); simpl; try discriminate.
  destruct (is_digit m1) eqn:E1; simpl; try discriminate.
  destruct (is_digit m2) eqn:E2; simpl; try discriminate.
  destruct r as [| c' [| s1 [| s2 r']]];
    try (intros H; injection H as <- <-; simpl; auto; fail).
  destruct (Ascii.eqb c' ":"); simpl;
    try (intros H; injection H as <- <-; simpl; auto; fail).
  destruct (is_digit s1) eqn:E3; simpl;
    try (intros H; injection H as <- <-; simpl; auto; fail).
  destruct (is_digit s2) eqn:E4; simpl;
    intros H; injection H as <- <-; simpl; auto.
Qed.

Lemma match_here_digits (s : string) (g : string * string * option string) :
  match_here s = Some g -> groups_ok g.
Proof.
  unfold match_here.
  destruct s as [| t [| h1 r1]]; try discriminate.
  destruct (Ascii.eqb t "T"); simpl; try discriminate.
  destruct (is_digit h1) eqn:E1; simpl; try discriminate.
  assert (Hone : match match_minutes r1 with
                 | Some (g2, g3) => Some (String h1 EmptyString, g2, g3)
                 | None => None
                 end = Some g -> groups_ok g).
  { destruct (match_minutes r1) as [[g2 g3] |] eqn:Em; try discriminate.
    intros H. injection H as <-. apply match_minutes_digits in Em.
    destruct Em as [Hg2 Hg3]. simpl. auto. }
  destruct r1 as [| h2 r2]; try exact Hone.
  destruct (is_digit h2) eqn:E2; try exact Hone.
  destruct (match_minutes r2) as [[g2 g3] |] eqn:Em; try exact Hone.
  intros H. injection H as <-. apply match_minutes_digits in Em.
  destruct Em as [Hg2 Hg3]. simpl. auto.
Qed.

Lemma regex_exec_digits (s : string) (g : string * string * option string) :
  regex_exec s = Some g -> groups_ok g.
Proof.
  induction s as [| c r IH].
  - discriminate.
  - change (regex_exec (String c r))
      with (match match_here (String c r) with
            | Some g' => Some g'
            | None => regex_exec r
            end).
    destruct (match_here (String c r)) as [g' |] eqn:Eh.
    + intros H. injection H as <-. exact (match_here_digits _ Eh).
    + exact IH.
Qed.

Lemma isoToHoursSinceMidnight_finite (iso : string) :
  exists q, isoToHoursSinceMidnight iso = Fin q.
Proof.
  unfold isoToHoursSinceMidnight.
  destruct (regex_exec iso) as [[[g1 g2] g3] |] eqn:Er.
  - apply regex_exec_digits in Er. destruct Er as (H1 & H2 & H3).
    rewrite (parseInt_digits _ H1), (parseInt_digits _ H2).
    assert (H3' : starts_digit (match g3 with Some g => g | None => "0"%string end) = true)
      by (destruct g3; [exact H3 | reflexivity]).
    rewrite (parseInt_digits _ H3').
    eexists. reflexivity.
  - destruct (Date_new iso); eexists; reflexivity.
Qed.

(** ** The sorted segments of a day without overlap *)

Lemma hours_inj (x : HSegment) (a e a' e' : Q) :
  hours x a e -> hours x a' e' -> a = a' /\ e = e'.
Proof.
  intros [H1 H2] [H3 H4]. rewrite H1 in H3. rewrite H2 in H4.
  injection H3 as ->. injection H4 as ->. auto.
Qed.

Lemma toHSegment_hours (s : Segment) : exists a e, hours (toHSegment s) a e.
Proof.
  destruct (isoToHoursSinceMidnight_finite (start_iso s)) as [a Ha].
  destruct (isoToHoursSinceMidnight_finite (end_iso s)) as [e He].
  exists a, e. split; assumption.
Qed.

Lemma disjointSegs_disjointH (a b : Segment) :
  disjointSegs a b -> disjointH (toHSegment a) (toHSegment b).
Proof.
  unfold disjointSegs. intros H.
  destruct (toHSegment_hours a) as (ax & ex & Ha).
  destruct (toHSegment_hours b) as (ay & ey & Hb).
  exists ax, ex, ay, ey. split; [exact Ha |]. split; [exact Hb |].
  destruct Ha as [Ha1 Ha2], Hb as [Hb1 Hb2]. simpl in *.
  rewrite Ha1, Ha2, Hb1, Hb2 in H. simpl in H.
  rewrite !Qle_bool_iff in H. exact H.
Qed.

Lemma Forall_insertSeg (P : HSegment -> Prop) (x : HSegment) (l : list HSegment) :
  Forall P (insertSeg x l) <-> P x /\ Forall P l.
Proof.
  induction l as [| y r IH]; cbn [insertSeg].
  - split; [intros H; inversion H; auto | intros [H1 H2]; auto].
  - destruct (compareFn x y >? lit 0).
    + split.
      * intros H. inversion H as [| ? ? Hy Hr]; subst.
        apply IH in Hr. destruct Hr. auto.
      * intros [Hx H]. inversion H as [| ? ? Hy Hr]; subst.
        constructor; [exact Hy | apply IH; auto].
    + split; [intros H; inversion H; auto | intros [H1 H2]; auto].
Qed.

Lemma Forall_sortSegs (P : HSegment -> Prop) (l : list HSegment) :
  Forall P (sortSegs l) <-> Forall P l.
Proof.
  induction l as [| x r IH]; simpl.
  - tauto.
  - rewrite Forall_insertSeg, IH. split.
    + intros [H1 H2]. auto.
    + intros H. inversion H; auto.
Qed.

Lemma insertSeg_before (x : HSegment) (l : list HSegment) :
  ForallOrdPairs before l -> Forall (disjointH x) l ->
  ForallOrdPairs before (insertSeg x l).
Proof.
  induction l as [| y r IH]; intros Hl Hx; cbn [insertSeg].
  - repeat constructor.
  - inversion Hl as [| ? ? Hy Hr]; subst.
    inversion Hx as [| ? ? Hxy Hxr]; subst.
    destruct Hxy as (ax & ex & ay & ey & Hhx & Hhy & Hd).
    unfold compareFn. destruct Hhx as [Hx1 Hx2], Hhy as [Hy1 Hy2].
    rewrite Hx1, Hy1. simpl.
    destruct (Num.Qlt_bool (inject_Z 0) (ax + - ay)) eqn:E.
    + apply Qlt_bool_iff in E. unfold inject_Z in E.
      constructor; [| apply IH; assumption].
      apply Forall_insertSeg. split; [| exact Hy].
      exists ay, ey, ax, ex. repeat split; try assumption; lra.
    + apply Qlt_bool_false_iff in E. unfold inject_Z in E.
      constructor; [| exact Hl].
      constructor.
      * exists ax, ex, ay, ey. repeat split; try assumption; lra.
      * rewrite Forall_forall in *. intros z Hz.
        destruct (Hy z Hz) as (ay' & ey' & az & ez & Hhy' & Hhz & Hle & Hb).
        destruct (hours_inj Hhy' (conj Hy1 Hy2)) as [-> ->].
        destruct (Hxr z Hz) as (ax' & ex' & az' & ez' & Hhx' & Hhz' & Hd').
        destruct (hours_inj Hhx' (conj Hx1 Hx2)) as [-> ->].
        destruct (hours_inj Hhz' Hhz) as [-> ->].
        exists ax, ex, az, ez. repeat split; try apply Hhz; try assumption; lra.
Qed.

Lemma sortSegs_before (l : list HSegment) :
  ForallOrdPairs disjointH l -> ForallOrdPairs before (sortSegs l).
Proof.
  induction 1 as [| x r Hx Hr IH]; simpl.
  - constructor.
  - apply insertSeg_before; [exact IH | apply Forall_sortSegs; exact Hx].
Qed.

Lemma map_toHSegment_disjoint (segs : list Segment) :
  ForallOrdPairs disjointSegs segs ->
  ForallOrdPairs disjointH (map toHSegment segs).
Proof.
  induction 1 as [| x r Hx Hr IH]; simpl; constructor; [| exact IH].
  apply Forall_map. revert Hx. apply Forall_impl.
  intros b. apply disjointSegs_disjointH.
Qed.

(** ** The totals loop on a day without overlap *)

Lemma sumsTo_addTo (t : Totals) (p x : Q) (st : DutyStatus) :
  sumsTo t p -> sumsTo (addTo t st (Fin x)) (p + x).
Proof.
  intros (o & s & d & n & -> & H).
  destruct st; simpl; do 4 eexists; (split; [reflexivity | lra]).
Qed.

Lemma sumsTo_eq (t : Totals) (p q : Q) : sumsTo t p -> (p == q)%Q -> sumsTo t q.
Proof.
  intros (o & s & d & n & -> & H) Hpq.
  do 4 eexists; (split; [reflexivity | lra]).
Qed.


Lemma totalsStep_sum (active : bool) (sb : Q) (t : Totals) (p a e : Q) (hs : HSegment) :
  (0 <= sb <= 24)%Q -> hours hs a e -> sumsTo t p ->
  (0 <= p <= cut active sb)%Q ->
  (e <= a \/ p <= clampQ a)%Q ->
  exists t' p',
    totalsStep active (Fin sb) (mkLoop t (Fin p)) hs = mkLoop t' (Fin p')
    /\ sumsTo t' p' /\ (0 <= p' <= cut active sb)%Q
    /\ (p' == p \/ p' <= clampQ e)%Q.
Proof.
  intros Hsb [Ha He] Ht Hp Hok.
  unfold totalsStep. rewrite Ha, He, !clamp_Fin.
  pose proof (clampQ_range a) as Ra. pose proof (clampQ_range e) as Re.
  assert (Hm : (e <= a -> clampQ e <= clampQ a)%Q) by apply clampQ_mono.
  generalize dependent (clampQ a). generalize dependent (clampQ e).
  intros ce Re ca Ra Hm Hok.
  assert (Hskip : exists t' p',
             mkLoop t (Fin p) = mkLoop t' (Fin p')
             /\ sumsTo t' p' /\ (0 <= p' <= cut active sb)%Q
             /\ (p' == p \/ p' <= ce)%Q).
  { exists t, p. repeat split; try tauto. left. reflexivity. }
  destruct active; cbn [andb cut prevEnd totals] in *.
  - unfold Num.geb. cbn [Num.leb].
    destruct (Qle_bool sb ca) eqn:E1; [exact Hskip |].
    apply Qle_bool_false_iff in E1.
    cbn [Num.min Num.leb].
    destruct (Qle_bool ce sb) eqn:E2;
      [apply Qle_bool_iff in E2 | apply Qle_bool_false_iff in E2];
      cbn [Num.leb].
    + destruct (Qle_bool ce ca) eqn:E3; [exact Hskip |].
      apply Qle_bool_false_iff in E3.
      assert (Hpa : (p <= ca)%Q) by lra.
      unfold Num.gtb. cbn [Num.ltb Num.max Num.leb].
      assert (E4 : Qle_bool p ce = true) by (apply Qle_bool_iff; lra).
      rewrite E4.
      exists (addTo (if Num.Qlt_bool p ca then addTo t OFF (Fin ca - Fin p) else t)
                    (status (seg hs)) (Fin ce - Fin ca)), ce.
      split; [reflexivity |]. split; [| split; [lra | right; lra]].
      destruct (Num.Qlt_bool p ca) eqn:E5.
      * eapply sumsTo_eq; [apply sumsTo_addTo, sumsTo_addTo, Ht | lra].
      * apply Qlt_bool_false_iff in E5.
        eapply sumsTo_eq; [apply sumsTo_addTo, Ht | lra].
    + destruct (Qle_bool sb ca) eqn:E3;
        [apply Qle_bool_iff in E3; lra | clear E3].
      assert (Hpa : (p <= ca)%Q) by lra.
      unfold Num.gtb. cbn [Num.ltb Num.max Num.leb].
      assert (E4 : Qle_bool p sb = true) by (apply Qle_bool_iff; lra).
      rewrite E4.
      exists (addTo (if Num.Qlt_bool p ca then addTo t OFF (Fin ca - Fin p) else t)
                    (status (seg hs)) (Fin sb - Fin ca)), sb.
      split; [reflexivity |]. split; [| split; [lra | right; lra]].
      destruct (Num.Qlt_bool p ca) eqn:E5.
      * eapply sumsTo_eq; [apply sumsTo_addTo, sumsTo_addTo, Ht | lra].
      * apply Qlt_bool_false_iff in E5.
        eapply sumsTo_eq; [apply sumsTo_addTo, Ht | lra].
  - cbn [Num.leb].
    destruct (Qle_bool ce ca) eqn:E3; [exact Hskip |].
    apply Qle_bool_false_iff in E3.
    assert (Hpa : (p <= ca)%Q) by lra.
    unfold Num.gtb. cbn [Num.ltb Num.max Num.leb].
    assert (E4 : Qle_bool p ce = true) by (apply Qle_bool_iff; lra).
    rewrite E4.
    exists (addTo (if Num.Qlt_bool p ca then addTo t OFF (Fin ca - Fin p) else t)
                  (status (seg hs)) (Fin ce - Fin ca)), ce.
    split; [reflexivity |]. split; [| split; [lra | right; lra]].
    destruct (Num.Qlt_bool p ca) eqn:E5.
    + eapply sumsTo_eq; [apply sumsTo_addTo, sumsTo_addTo, Ht | lra].
    + apply Qlt_bool_false_iff in E5.
      eapply sumsTo_eq; [apply sumsTo_addTo, Ht | lra].
Qed.

Lemma totalsLoop_sum (active : bool) (sb : Q) (l : list HSegment) :
  (0 <= sb <= 24)%Q -> ForallOrdPairs before l ->
  forall (t : Totals) (p : Q),
    sumsTo t p -> (0 <= p <= cut active sb)%Q -> Forall (clearOf p) l ->
    exists t' p',
      fold_left (totalsStep active (Fin sb)) l (mkLoop t (Fin p)) = mkLoop t' (Fin p')
      /\ sumsTo t' p' /\ (0 <= p' <= cut active sb)%Q.
Proof.
  intros Hsb. induction 1 as [| x r Hx Hr IH]; intros t p Ht Hp Hclear.
  - exists t, p. simpl. auto.
  - inversion Hclear as [| ? ? Hcx Hcr]; subst.
    destruct Hcx as (a & e & Hh & Hok).
    destruct (totalsStep_sum active Hsb Hh Ht Hp Hok)
      as (t1 & p1 & Estep & Ht1 & Hp1 & Hnext).
    cbn [fold_left]. rewrite Estep.
    apply IH; try assumption.
    rewrite Forall_forall in *. intros y Hy.
    destruct (Hcr y Hy) as (ay & ey & Hhy & Hoky).
    exists ay, ey. split; [exact Hhy |].
    destruct Hnext as [Hsame | Hle]; [destruct Hoky; [left | right]; lra |].
    destruct (Hx y Hy) as (a' & e' & ay' & ey' & Hh' & Hhy' & Hle' & Hb).
    destruct (hours_inj Hh' Hh) as [-> ->].
    destruct (hours_inj Hhy' Hhy) as [-> ->].
    destruct Hb as [Hb | Hb]; [right | left; exact Hb].
    pose proof (clampQ_mono Hb). lra.
Qed.

Lemma totalsFinish_sum (active : bool) (sb : Q) (t : Totals) (p : Q) :
  (0 <= sb <= 24)%Q -> sumsTo t p -> (0 <= p <= cut active sb)%Q ->
  sumsTo (totalsFinish active (Fin sb) (mkLoop t (Fin p))) 24.
Proof.
  intros Hsb Ht Hp. unfold totalsFinish, cut in *.
  cbn [prevEnd totals]. unfold lit.
  destruct active; cbn [Num.ltb].
  - destruct (Num.Qlt_bool sb (inject_Z 24)) eqn:E1;
      [apply Qlt_bool_iff in E1 | apply Qlt_bool_false_iff in E1];
      unfold inject_Z in E1;
      (destruct (Num.Qlt_bool p sb) eqn:E2;
       [apply Qlt_bool_iff in E2 | apply Qlt_bool_false_iff in E2]).
    + eapply sumsTo_eq; [apply sumsTo_addTo, sumsTo_addTo, Ht | unfold inject_Z; lra].
    + eapply sumsTo_eq; [apply sumsTo_addTo, Ht | unfold inject_Z; lra].
    + eapply sumsTo_eq; [apply sumsTo_addTo, Ht | lra].
    + eapply sumsTo_eq; [exact Ht | lra].
  - destruct (Num.Qlt_bool p (inject_Z 24)) eqn:E2;
      [apply Qlt_bool_iff in E2 | apply Qlt_bool_false_iff in E2];
      unfold inject_Z in E2.
    + eapply sumsTo_eq; [apply sumsTo_addTo, Ht | unfold inject_Z; lra].
    + eapply sumsTo_eq; [exact Ht | lra].
Qed.

(** The sleeper-berth time is [NaN] or an hour of the day. *)
Lemma sbTimeHForTotals_cases (form : LogbookFormData) :
  sbTimeHForTotals form = NaN
  \/ exists sb, sbTimeHForTotals form = Fin sb /\ (0 <= sb <= 24)%Q.
Proof.
  unfold sbTimeHForTotals.
  destruct (sleeperBerthActiveForTotals form).
  - unfold parseSleeperBerthTime. apply clamp_cases.
  - right. exists (inject_Z 24). split; [reflexivity | unfold inject_Z; lra].
Qed.

Lemma sumsTo_zero : sumsTo zeroTotals 0.
Proof.
  unfold zeroTotals, lit. do 4 eexists. split; [reflexivity |].
  unfold inject_Z. lra.
Qed.

(** The totals of a day with at least one segment, no overlap and a
    sleeper-berth time that is a number add up to 24. *)
Lemma totalsByStatus_sumsTo_24 (log : LogbookDay) (formData : option LogbookFormData) :
  segments log <> [] ->
  ForallOrdPairs disjointSegs (segments log) ->
  sbTimeHForTotals (formOf formData) <> NaN ->
  sumsTo (totalsByStatus (Some log) formData) 24.
Proof.
  intros Hne Hdis Hsb. unfold totalsByStatus.
  destruct (segments log) as [| s0 r] eqn:Es; [congruence |].
  destruct (sbTimeHForTotals_cases (formOf formData)) as [E | (sb & E & Hr)];
    [congruence |].
  rewrite E.
  set (active := sleeperBerthActiveForTotals (formOf formData)).
  assert (Hcut : (cut active sb <= 24)%Q /\ (0 <= cut active sb)%Q)
    by (unfold cut; destruct active; lra).
  destruct (@totalsLoop_sum active sb (sortSegs (map toHSegment (s0 :: r))) Hr
              (sortSegs_before (map_toHSegment_disjoint Hdis))
              zeroTotals 0 sumsTo_zero)
    as (t' & p' & Efold & Ht' & Hp').
  - lra.
  - apply Forall_sortSegs, Forall_map, Forall_forall. intros s _.
    destruct (toHSegment_hours s) as (a & e & Hh).
    exists a, e. split; [exact Hh |]. right. apply clampQ_range.
  - unfold lit in *. change (inject_Z 0) with 0%Q. rewrite Efold.
    apply totalsFinish_sum; assumption.
Qed.

(** ** Claims about the totals *)


(** C3 (amended). For a day whose segment list is empty the totals block is
    not entered: OFF = SB = D = ON = 0 (their sum is 0), and nothing is
    raised. *)
Theorem C3_empty_day_totals_zero
    (log : LogbookDay) (formData : option LogbookFormData) :
  segments log = [] ->
  totalsByStatus (Some log) formData = mkTotals (lit 0) (lit 0) (lit 0) (lit 0)
  /\ totalHoursSum (totalsByStatus (Some log) formData) =n= lit 0.
Proof.
  intros E. unfold totalsByStatus. rewrite E. split; reflexivity.
Qed.

Lemma sbTime_20_00 :
  Number "20" = lit 20 -> Number "00" = lit 0 ->
  exists sb, sbTimeHForTotals (sleeperForm "20:00") = Fin sb /\ (sb == 20)%Q.
Proof.
  intros H20 H00. unfold sbTimeHForTotals.
  change (sleeperBerthActiveForTotals (sleeperForm "20:00")) with true.
  cbn [sleeperForm sleeper_berth_time].
  change (trim "20:00") with "20:00"%string.
  unfold parseSleeperBerthTime.
  change (split ":" "20:00") with ["20"%string; "00"%string].
  cbn [map nth_error]. rewrite H20, H00. cbn [Number_isNaN Num.isNaN lit toNumber].
  eexists. split; [reflexivity |]. vm_compute. reflexivity.
Qed.

(** C4. A day with the single segment D from 07:00 to 15:00 and an active
    sleeper-berth override at "20:00" has the totals OFF = 12, D = 8,
    SB = 4 and ON = 0, those of OFF[0,7) D[7,15) OFF[15,20) SB[20,24). *)
Theorem C4_sleeper_berth_truncation (log : LogbookDay) (s : Segment) :
  segments log = [s] ->
  status s = D ->
  isoToHoursSinceMidnight (start_iso s) =n= lit 7 ->
  isoToHoursSinceMidnight (end_iso s) =n= lit 15 ->
  Number "20" = lit 20 -> Number "00" = lit 0 ->
  let t := totalsByStatus (Some log) (Some (sleeperForm "20:00")) in
  tOFF t =n= lit 12 /\ tD t =n= lit 8 /\ tSB t =n= lit 4 /\ tON t =n= lit 0.
Proof.
  intros Es Hst Ha He H20 H00.
  destruct (sbTime_20_00 H20 H00) as (sb & Esb & Hsb).
  destruct (isoToHoursSinceMidnight (start_iso s)) as [a | | |] eqn:Ea;
    try contradiction.
  destruct (isoToHoursSinceMidnight (end_iso s)) as [e | | |] eqn:Ee;
    try contradiction.
  unfold Num.eq, lit, inject_Z in Ha, He.
  unfold totalsByStatus. rewrite Es. cbn [formOf]. rewrite Esb.
  change (sleeperBerthActiveForTotals (sleeperForm "20:00")) with true.
  cbn [map sortSegs fold_right insertSeg fold_left].
  unfold totalsStep, toHSegment. cbn [startH endH seg prevEnd totals].
  rewrite Ea, Ee, Hst, !clamp_Fin.
  unfold totalsFinish, clampQ, zeroTotals, lit, inject_Z.
  crunch; num_simpl; repeat split; lra.
Qed.

(** With the override at hour 0 every segment is skipped. *)
Lemma totalsLoop_all_skipped (sb : Q) (l : list HSegment) (st : LoopState) :
  (sb <= 0)%Q ->
  Forall (fun x => exists a e, hours x a e) l ->
  fold_left (totalsStep true (Fin sb)) l st = st.
Proof.
  intros Hsb. induction 1 as [| x r (a & e & Ha & He) Hr IH]; cbn [fold_left].
  - reflexivity.
  - assert (E : totalsStep true (Fin sb) st x = st).
    { unfold totalsStep. rewrite Ha, !clamp_Fin.
      unfold Num.geb. cbn [Num.leb andb].
      pose proof (clampQ_range a) as Ra.
      assert (E1 : Qle_bool sb (clampQ a) = true) by (apply Qle_bool_iff; lra).
      rewrite E1. reflexivity. }
    rewrite E. exact IH.
Qed.

Lemma sortSegs_hours (segs : list Segment) :
  Forall (fun x => exists a e, hours x a e) (sortSegs (map toHSegment segs)).
Proof.
  apply Forall_sortSegs, Forall_map, Forall_forall.
  intros s _. apply toHSegment_hours.
Qed.

Lemma split_trim_nonempty (t h m : string) (rest : list string) :
  split ":" (trim t) = h :: m :: rest -> String.eqb (trim t) "" = false.
Proof.
  destruct (trim t); [discriminate | reflexivity].
Qed.

(** C7 (amended). An override whose time is missing, empty or blank is not
    active: the totals are those of the day without override. An active
    override whose time has an hour part and a minute part (split at the
    colon) that are both not numbers is taken at 00:00: on a day with at
    least one segment the whole day is sleeper berth, SB = 24 and
    OFF = D = ON = 0. *)
Theorem C7_blank_time_inactive_unparsable_time_midnight :
  (forall (log : option LogbookDay) (form : LogbookFormData),
      blankTime form ->
      sleeperBerthActiveForTotals form = false
      /\ totalsByStatus log (Some form) = totalsByStatus log None)
  /\ (forall (log : LogbookDay) (t h m : string) (rest : list string),
         segments log <> [] ->
         split ":" (trim t) = h :: m :: rest ->
         Number h = NaN -> Number m = NaN ->
         sleeperBerthActiveForTotals (sleeperForm t) = true
         /\ sbTimeHForTotals (sleeperForm t) =n= lit 0
         /\ let tot := totalsByStatus (Some log) (Some (sleeperForm t)) in
            tOFF tot =n= lit 0 /\ tSB tot =n= lit 24
            /\ tD tot =n= lit 0 /\ tON tot =n= lit 0).
Proof.
  split.
  - intros log form Hblank.
    assert (E : sleeperBerthActiveForTotals form = false).
    { unfold sleeperBerthActiveForTotals, blankTime in *.
      destruct (sleeper_berth_time form) as [t |].
      - rewrite Hblank. apply andb_false_r.
      - apply andb_false_r. }
    split; [exact E |].
    unfold totalsByStatus, sbTimeHForTotals. cbn [formOf]. rewrite E.
    reflexivity.
  - intros log t h m rest Hne Esplit Hh Hm.
    assert (Eact : sleeperBerthActiveForTotals (sleeperForm t) = true).
    { unfold sleeperBerthActiveForTotals, sleeperForm.
      cbn [ending_shift_location sleeper_berth_time YesNo_eqb andb].
      rewrite (split_trim_nonempty _ Esplit). reflexivity. }
    assert (Esb : sbTimeHForTotals (sleeperForm t)
                  = Fin (clampQ (inject_Z 0 + inject_Z 0 / inject_Z 60))).
    { unfold sbTimeHForTotals. rewrite Eact.
      cbn [sleeperForm sleeper_berth_time].
      unfold parseSleeperBerthTime. rewrite Esplit.
      cbn [map nth_error]. rewrite Hh, Hm.
      cbn [Number_isNaN Num.isNaN toNumber].
      reflexivity. }
    split; [exact Eact |].
    set (sb := clampQ (inject_Z 0 + inject_Z 0 / inject_Z 60)) in *.
    assert (Hsb : (sb == 0)%Q) by (vm_compute; reflexivity).
    split; [rewrite Esb; exact Hsb |].
    unfold totalsByStatus. cbn [formOf]. rewrite Eact, Esb.
    destruct (segments log) as [| s0 r] eqn:Es; [congruence |].
    rewrite totalsLoop_all_skipped;
      [| lra | apply sortSegs_hours].
    unfold totalsFinish, zeroTotals, lit, inject_Z.
    crunch; num_simpl; repeat split; lra.
Qed.

(** ** Connectors of the duty overlay *)

Lemma nth_error_mapi_from (A B : Type) (f : A -> nat -> B) (l : list A) :
  forall i k,
    nth_error (mapi_from f i l) k
    = option_map (fun x => f x (i + k)%nat) (nth_error l k).
Proof.
  induction l as [| x r IH]; intros i k.
  - destruct k; reflexivity.
  - destruct k as [| k]; cbn [mapi_from nth_error option_map].
    + rewrite Nat.add_0_r. reflexivity.
    + rewrite IH. rewrite Nat.add_succ_r. reflexivity.
Qed.

Lemma connectors_nth (segs : list Segment) (idx : nat) (prev s : Segment) :
  nth_error segs idx = Some prev ->
  nth_error segs (S idx) = Some s ->
  nth_error (connectors segs) (S idx) = Some (connector prev s).
Proof.
  intros Hp Hs. unfold connectors, mapi.
  rewrite nth_error_mapi_from, Hs. cbn [option_map Nat.add Nat.eqb].
  rewrite Nat.sub_succ, Nat.sub_0_r, Hp. reflexivity.
Qed.

(** C8. For two consecutive segments of the list, the connector between
    their rows is drawn only when the end of the first and the start of the
    second are equal within 1e-6; when they differ by more than 1e-6 the
    entry of the second segment is empty. *)
Theorem C8_connector_only_when_times_meet
    (segs : list Segment) (idx : nat) (prev s : Segment) :
  nth_error segs idx = Some prev ->
  nth_error segs (S idx) = Some s ->
  exists a e,
    isoToHoursSinceMidnight (start_iso s) = Fin a
    /\ isoToHoursSinceMidnight (end_iso prev) = Fin e
    /\ (forall line, nth_error (connectors segs) (S idx) = Some (Some line) ->
                     (Qabs (a - e) <= eps)%Q)
    /\ ((eps < Qabs (a - e))%Q ->
        nth_error (connectors segs) (S idx) = Some None).
Proof.
  intros Hp Hs.
  destruct (isoToHoursSinceMidnight_finite (start_iso s)) as [a Ea].
  destruct (isoToHoursSinceMidnight_finite (end_iso prev)) as [e Ee].
  exists a, e. split; [exact Ea |]. split; [exact Ee |].
  rewrite (@connectors_nth segs idx prev s Hp Hs).
  unfold connector. rewrite Ea, Ee.
  unfold Num.gtb. cbn [Num.sub Num.neg Num.add Num.abs Num.ltb].
  change (a + - e)%Q with (a - e)%Q.
  destruct (Num.Qlt_bool eps (Qabs (a - e))) eqn:E.
  - apply Qlt_bool_iff in E. split; [intros line H; discriminate | reflexivity].
  - apply Qlt_bool_false_iff in E. split; [intros; exact E |].
    intros Hlt. lra.
Qed.

(** ** Recap windows *)

Lemma skipn_nth_error (A : Type) (l : list A) (k : nat) (x : A) :
  nth_error l k = Some x -> skipn k l = x :: skipn (S k) l.
Proof.
  revert k. induction l as [| y r IH]; intros [| k] H; try discriminate.
  - injection H as ->. reflexivity.
  - cbn [nth_error] in H. cbn [skipn]. rewrite (IH _ H). reflexivity.
Qed.

Lemma index_in_range (l : list num) (j : Z) :
  (0 <= j < Z.of_nat (List.length l))%Z ->
  exists x, index l j = Some x /\ nth_error l (Z.to_nat j) = Some x.
Proof.
  intros Hj. unfold index.
  destruct (j <? 0)%Z eqn:E; [apply Z.ltb_lt in E; lia |].
  destruct (nth_error l (Z.to_nat j)) as [x |] eqn:En.
  - exists x. auto.
  - apply nth_error_None in En. lia.
Qed.

Lemma sumLoop_window (l : list num) (b : Z) :
  (b < Z.of_nat (List.length l))%Z ->
  forall (fuel : nat) (j : Z) (s : num),
    (0 <= j)%Z -> (j + Z.of_nat fuel = b + 1)%Z ->
    sumLoop l (Z.of_nat (List.length l)) b fuel j s
    = fold_left Num.add (firstn fuel (skipn (Z.to_nat j) l)) s.
Proof.
  intros Hb. induction fuel as [| fuel IH]; intros j s Hj Hf.
  - reflexivity.
  - cbn [sumLoop].
    assert (E1 : (j <=? b)%Z = true) by (apply Z.leb_le; lia).
    assert (E2 : (j >=? 0)%Z = true) by (apply Z.geb_le; lia).
    assert (E3 : (j <? Z.of_nat (List.length l))%Z = true) by (apply Z.ltb_lt; lia).
    rewrite E1, E2, E3. cbn [andb].
    destruct (@index_in_range l j ltac:(lia)) as (x & Ei & En).
    rewrite Ei. cbn [toNumber].
    rewrite (skipn_nth_error _ _ En). cbn [firstn fold_left].
    rewrite IH by lia.
    replace (Z.to_nat (j + 1)) with (S (Z.to_nat j)) by lia.
    reflexivity.
Qed.

(** On a window inside the sequence the loop of the code adds exactly the
    days of the window. *)
Lemma sum_window (l : list num) (a b : Z) :
  (0 <= a <= b)%Z -> (b < Z.of_nat (List.length l))%Z ->
  sum l a b = specWindowSum l a b.
Proof.
  intros Hab Hb. unfold sum, specWindowSum.
  apply sumLoop_window; lia.
Qed.

(** The loop has stopped by the time its counter of turns is used up: more
    turns change nothing. *)
Lemma sumLoop_fuel (l : list num) (n b : Z) :
  forall (fuel : nat) (j : Z) (s : num),
    (b - j + 1 <= Z.of_nat fuel)%Z ->
    sumLoop l n b fuel j s = sumLoop l n b (Z.to_nat (b - j + 1)) j s.
Proof.
  induction fuel as [| fuel IH]; intros j s Hf.
  - replace (Z.to_nat (b - j + 1)) with O by lia. reflexivity.
  - cbn [sumLoop]. destruct (j <=? b)%Z eqn:E.
    + apply Z.leb_le in E.
      replace (Z.to_nat (b - j + 1)) with (S (Z.to_nat (b - (j + 1) + 1))) by lia.
      cbn [sumLoop].
      assert (E' : (j <=? b)%Z = true) by (apply Z.leb_le; lia).
      rewrite E'. apply IH. lia.
    + apply Z.leb_gt in E.
      replace (Z.to_nat (b - j + 1)) with O by lia. reflexivity.
Qed.

(** C2. For an index [i] inside the sequence the recap is: onDutyToday the
    day [i]; seventyA the sum of the days max(0, i-6) .. i, seventyC of
    max(0, i-7) .. i, sixtyA of max(0, i-4) .. i, sixtyC of max(0, i-6) .. i;
    seventyB = max(0, 70 - seventyA) and sixtyB = max(0, 60 - sixtyA). The
    windows start no earlier than day 0 and end at day [i]. *)
Theorem C2_recap_window_sums (onDutyPerDay : list num) (i : Z) :
  (0 <= i < Z.of_nat (List.length onDutyPerDay))%Z ->
  let r := getRecapForDay onDutyPerDay i in
  nth_error onDutyPerDay (Z.to_nat i) = Some (onDutyToday r)
  /\ seventyA r = specWindowSum onDutyPerDay (Z.max 0 (i - 6)) i
  /\ seventyC r = specWindowSum onDutyPerDay (Z.max 0 (i - 7)) i
  /\ sixtyA r = specWindowSum onDutyPerDay (Z.max 0 (i - 4)) i
  /\ sixtyC r = specWindowSum onDutyPerDay (Z.max 0 (i - 6)) i
  /\ seventyB r = Num.max (lit 0) (lit 70 - seventyA r)
  /\ sixtyB r = Num.max (lit 0) (lit 60 - sixtyA r).
Proof.
  intros Hi r. subst r. unfold getRecapForDay.
  cbn [onDutyToday seventyA seventyB seventyC sixtyA sixtyB sixtyC].
  destruct (index_in_range onDutyPerDay Hi) as (x & Ei & En).
  rewrite Ei, En.
  rewrite !sum_window by lia.
  repeat split; reflexivity.
Qed.

Lemma nonneg_cases (x : num) :
  nonneg x <-> x = PInf \/ exists q, x = Fin q /\ (0 <= q)%Q.
Proof.
  unfold nonneg, Num.geb, lit. destruct x as [q | | |]; cbn [Num.leb].
  - rewrite Qle_bool_iff. unfold inject_Z. split.
    + intros H. right. exists q. auto.
    + intros [H | (q' & H & Hq)]; [discriminate | injection H as ->; exact Hq].
  - split; auto.
  - split; [discriminate | intros [H | (q' & H & _)]; discriminate].
  - split; [discriminate | intros [H | (q' & H & _)]; discriminate].
Qed.

Lemma nonneg_add (a b : num) : nonneg a -> nonneg b -> nonneg (a + b).
Proof.
  rewrite !nonneg_cases.
  intros [-> | (p & -> & Hp)] [-> | (q & -> & Hq)]; cbn [Num.add]; auto.
  right. exists (p + q)%Q. split; [reflexivity | lra].
Qed.

Lemma nonneg_remaining (limit : Z) (a : num) :
  nonneg a -> nonneg (Num.max (lit 0) (lit limit - a)).
Proof.
  rewrite !nonneg_cases. intros [-> | (q & -> & Hq)].
  - right. exists (inject_Z 0). split; [reflexivity | unfold inject_Z; lra].
  - right. unfold lit. cbn [Num.sub Num.neg Num.add Num.max Num.leb].
    destruct (Qle_bool (inject_Z 0) (inject_Z limit + - q)) eqn:E.
    + apply Qle_bool_iff in E. unfold inject_Z in E at 1.
      eexists. split; [reflexivity | exact E].
    + exists (inject_Z 0). split; [reflexivity | unfold inject_Z; lra].
Qed.

Lemma nonneg_zero : nonneg (lit 0).
Proof. reflexivity. Qed.

Lemma sumLoop_nonneg (l : list num) (b : Z) :
  Forall nonneg l ->
  forall (fuel : nat) (j : Z) (s : num),
    nonneg s -> nonneg (sumLoop l (Z.of_nat (List.length l)) b fuel j s).
Proof.
  intros Hl. induction fuel as [| fuel IH]; intros j s Hs; cbn [sumLoop].
  - exact Hs.
  - destruct (j <=? b)%Z; [| exact Hs].
    apply IH.
    destruct (j >=? 0)%Z eqn:E2; cbn [andb]; [| exact Hs].
    destruct (j <? Z.of_nat (List.length l))%Z eqn:E3; [| exact Hs].
    apply Z.geb_le in E2. apply Z.ltb_lt in E3.
    destruct (@index_in_range l j (conj E2 E3)) as (x & Ei & En).
    rewrite Ei. cbn [toNumber].
    apply nonneg_add; [exact Hs |].
    rewrite Forall_forall in Hl. apply Hl. eapply nth_error_In. exact En.
Qed.

Lemma sum_nonneg (l : list num) (a b : Z) : Forall nonneg l -> nonneg (sum l a b).
Proof.
  intros Hl. unfold sum. apply sumLoop_nonneg; [exact Hl | apply nonneg_zero].
Qed.

(** C9 (amended). When every entry of the sequence is a non-negative number,
    every field of the recap is non-negative, for any index, inside the
    sequence or not. *)
Theorem C9_recap_nonneg_on_nonneg_hours (onDutyPerDay : list num) (dayIndex : Z) :
  Forall nonneg onDutyPerDay ->
  let r := getRecapForDay onDutyPerDay dayIndex in
  nonneg (onDutyToday r)
  /\ nonneg (seventyA r) /\ nonneg (seventyB r) /\ nonneg (seventyC r)
  /\ nonneg (sixtyA r) /\ nonneg (sixtyB r) /\ nonneg (sixtyC r).
Proof.
  intros Hl r. subst r. unfold getRecapForDay.
  cbn [onDutyToday seventyA seventyB seventyC sixtyA sixtyB sixtyC].
  repeat split;
    try (apply nonneg_remaining); try (apply sum_nonneg; exact Hl).
  unfold index. destruct (dayIndex <? 0)%Z; [apply nonneg_zero |].
  destruct (nth_error onDutyPerDay (Z.to_nat dayIndex)) as [x |] eqn:En;
    [| apply nonneg_zero].
  rewrite Forall_forall in Hl. apply Hl. eapply nth_error_In. exact En.
Qed.

(** ** Mileage *)

Lemma segHours_cases (s : Segment) : finOrNaN (segHours s).
Proof.
  unfold segHours, timeOf.
  destruct (Date_new (end_iso s)); destruct (Date_new (start_iso s));
    try (left; reflexivity).
  right. eexists. reflexivity.
Qed.

Lemma finOrNaN_add (a b : num) : finOrNaN a -> finOrNaN b -> finOrNaN (a + b).
Proof.
  intros [-> | (p & ->)] [-> | (q & ->)]; try (left; reflexivity).
  right. eexists. reflexivity.
Qed.

Lemma getDrivingHours_cases (segs : list Segment) : finOrNaN (getDrivingHours segs).
Proof.
  unfold getDrivingHours.
  assert (H : finOrNaN (lit 0)) by (right; eexists; reflexivity).
  revert H. generalize (lit 0).
  induction segs as [| s r IH]; intros acc Hacc; cbn [fold_left].
  - exact Hacc.
  - apply IH. destruct (status s); try exact Hacc.
    apply finOrNaN_add; [exact Hacc | apply segHours_cases].
Qed.

Lemma fold_add_NaN (A : Type) (g : A -> num) (ls : list A) :
  fold_left (fun acc l => acc + g l) ls NaN = NaN.
Proof.
  induction ls as [| l r IH]; cbn [fold_left]; [reflexivity | exact IH].
Qed.

Lemma fold_add_cases (A : Type) (g : A -> num) (ls : list A) :
  (forall l, finOrNaN (g l)) ->
  forall acc, finOrNaN (fold_left (fun acc l => acc + g l) ls (Fin acc)).
Proof.
  intros Hg. induction ls as [| l r IH]; intros acc; cbn [fold_left].
  - right. eexists. reflexivity.
  - destruct (Hg l) as [-> | (d & ->)]; cbn [Num.add].
    + rewrite fold_add_NaN. left. reflexivity.
    + apply IH.
Qed.

(** A finite total means every day is finite, and the total is their sum. *)
Lemma fold_add_Fin (A : Type) (g : A -> num) (ls : list A) :
  (forall l, finOrNaN (g l)) ->
  forall (acc T : Q),
    fold_left (fun acc l => acc + g l) ls (Fin acc) = Fin T ->
    exists ds, map g ls = map Fin ds /\ T = fold_left Qplus ds acc.
Proof.
  intros Hg. induction ls as [| l r IH]; intros acc T; cbn [fold_left].
  - intros H. injection H as <-. exists []. split; reflexivity.
  - destruct (Hg l) as [E | (d & E)]; rewrite E; cbn [Num.add].
    + rewrite fold_add_NaN. discriminate.
    + intros H. destruct (IH _ _ H) as (ds & Hm & HT).
      exists (d :: ds). cbn [map fold_left]. rewrite Hm, E. split; [reflexivity | exact HT].
Qed.


Lemma fold_add_map_Fin (f : Q -> Q) (ds : list Q) :
  forall acc : Q,
    fold_left Num.add (map (fun d => Fin (f d)) ds) (Fin acc)
    = Fin (fold_left Qplus (map f ds) acc).
Proof.
  induction ds as [| d r IH]; intros acc; cbn [map fold_left]; [reflexivity |].
  cbn [Num.add]. apply IH.
Qed.


Lemma perDayMiles_share (plan : TripPlan) (log : LogbookDay) (T M d : Q) :
  totalDriveHours plan = Fin T -> (0 < T)%Q -> totalMiles plan = Fin M ->
  getDrivingHours (segments log) = Fin d ->
  perDayMiles plan log = Fin (d / T * M).
Proof.
  intros ET HT EM Ed. unfold perDayMiles. rewrite ET, EM, Ed.
  unfold Num.gtb, lit. cbn [Num.ltb].
  assert (E1 : Num.Qlt_bool (inject_Z 0) T = true) by (apply Qlt_bool_iff; exact HT).
  rewrite E1. cbn [Num.div].
  destruct (Qeq_bool T 0) eqn:E2; [apply Qeq_bool_iff in E2; lra |].
  reflexivity.
Qed.


(** C6. When the driving hours of the whole trip add up to zero, every day
    is given the full totalMiles, and nothing is divided by zero. *)
Theorem C6_zero_driving_full_miles (plan : TripPlan) (log : LogbookDay) :
  totalDriveHours plan =n= lit 0 ->
  perDayMiles plan log = totalMiles plan
  /\ exists M, totalMiles plan = Fin M.
Proof.
  intros H. split; [| eexists; reflexivity].
  unfold perDayMiles.
  destruct (totalDriveHours plan) as [t | | |]; try contradiction.
  unfold Num.eq, lit in H. unfold Num.gtb, lit. cbn [Num.ltb].
  assert (E : Num.Qlt_bool (inject_Z 0) t = false).
  { apply Qlt_bool_false_iff. rewrite H. apply Qle_refl. }
  rewrite E. reflexivity.
Qed.

(** ** Sign of the totals *)

(** A time without a colon has no minute part: [m] is [undefined], which
    [Number.isNaN] does not catch, and the sleeper-berth time is [NaN]. *)
Lemma sbTime_without_colon (t h : string) :
  split ":" (trim t) = [h] ->
  sleeperBerthActiveForTotals (sleeperForm t) = true ->
  sbTimeHForTotals (sleeperForm t) = NaN.
Proof.
  intros Es Ea. unfold sbTimeHForTotals. rewrite Ea.
  cbn [sleeperForm sleeper_berth_time].
  unfold parseSleeperBerthTime. rewrite Es. cbn [map nth_error].
  cbn [Number_isNaN toNumber Num.div].
  destruct (Num.isNaN (Number h)); cbn [toNumber]; [reflexivity |].
  destruct (Number h); reflexivity.
Qed.

(** C10 (the code at the failing input). With the override active and the
    time "7", a string without a colon, the sleeper-berth time is [NaN]; on
    the day that drives from 07:00 to 15:00 the driving total and the sum
    of the totals are then [NaN], and the test D >= 0 is false. *)
Theorem C10_time_without_colon_gives_NaN_total :
  sbTimeHForTotals (sleeperForm "7") = NaN
  /\ tD (totalsByStatus (Some drivingDay) (Some (sleeperForm "7"))) = NaN
  /\ (tD (totalsByStatus (Some drivingDay) (Some (sleeperForm "7"))) >=? lit 0) = false
  /\ totalHoursSum (totalsByStatus (Some drivingDay) (Some (sleeperForm "7"))) = NaN.
Proof.
  assert (E : sbTimeHForTotals (sleeperForm "7") = NaN)
    by (apply (@sbTime_without_colon "7" "7"); reflexivity).
  split; [exact E |].
  unfold totalsByStatus. cbn [formOf drivingDay segments]. rewrite E.
  change (sleeperBerthActiveForTotals (sleeperForm "7")) with true.
  repeat split; vm_compute; reflexivity.
Qed.

Lemma nonnegTotals_addTo (t : Totals) (st : DutyStatus) (x : Q) :
  nonnegTotals t -> (0 <= x)%Q -> nonnegTotals (addTo t st (Fin x)).
Proof.
  intros (o & s & d & n & -> & Ho & Hs & Hd & Hn) Hx.
  destruct st; cbn [addTo tOFF tSB tD tON Num.add];
    do 4 eexists; (split; [reflexivity |]); repeat split; lra.
Qed.

Lemma totalsStep_nonneg (active : bool) (sb : Q) (t : Totals) (p a e : Q) (hs : HSegment) :
  hours hs a e -> nonnegTotals t ->
  exists t' p',
    totalsStep active (Fin sb) (mkLoop t (Fin p)) hs = mkLoop t' (Fin p')
    /\ nonnegTotals t'.
Proof.
  intros [Ha He] Ht.
  unfold totalsStep. rewrite Ha, He, !clamp_Fin.
  generalize (clampQ a) (clampQ e). intros ca ce.
  cbn [prevEnd totals].
  assert (Hskip : exists t' p',
             mkLoop t (Fin p) = mkLoop t' (Fin p') /\ nonnegTotals t')
    by (exists t, p; auto).
  assert (Hrun : forall end1 : Q,
             (Fin end1 <=? Fin ca) = false ->
             exists t' p',
               mkLoop (addTo (if Fin ca >? Fin p
                              then addTo t OFF (Fin ca - Fin p) else t)
                             (status (seg hs)) (Fin end1 - Fin ca))
                      (Num.max (Fin p) (Fin end1))
               = mkLoop t' (Fin p') /\ nonnegTotals t').
  { intros end1 E. cbn [Num.leb] in E. apply Qle_bool_false_iff in E.
    eexists. exists (if Qle_bool p end1 then end1 else p).
    split.
    - cbn [Num.max Num.leb]. destruct (Qle_bool p end1); reflexivity.
    - apply nonnegTotals_addTo; [| lra].
      unfold Num.gtb. cbn [Num.ltb].
      destruct (Num.Qlt_bool p ca) eqn:E5; [| exact Ht].
      apply Qlt_bool_iff in E5. apply nonnegTotals_addTo; [exact Ht | lra]. }
  destruct active; cbn [andb].
  - unfold Num.geb at 1. cbn [Num.leb].
    destruct (Qle_bool sb ca); [exact Hskip |].
    cbn [Num.min Num.leb].
    destruct (Qle_bool ce sb).
    + destruct (Fin ce <=? Fin ca) eqn:E; [exact Hskip | apply Hrun; exact E].
    + destruct (Fin sb <=? Fin ca) eqn:E; [exact Hskip | apply Hrun; exact E].
  - destruct (Fin ce <=? Fin ca) eqn:E; [exact Hskip | apply Hrun; exact E].
Qed.

Lemma totalsLoop_nonneg (active : bool) (sb : Q) (l : list HSegment) :
  Forall (fun x => exists a e, hours x a e) l ->
  forall (t : Totals) (p : Q),
    nonnegTotals t ->
    exists t' p',
      fold_left (totalsStep active (Fin sb)) l (mkLoop t (Fin p)) = mkLoop t' (Fin p')
      /\ nonnegTotals t'.
Proof.
  induction 1 as [| x r (a & e & Hh) Hr IH]; intros t p Ht; cbn [fold_left].
  - exists t, p. auto.
  - destruct (@totalsStep_nonneg active sb t p a e x Hh Ht) as (t1 & p1 & E & Ht1).
    rewrite E. apply IH. exact Ht1.
Qed.

Lemma totalsFinish_nonneg (active : bool) (sb : Q) (t : Totals) (p : Q) :
  (0 <= sb <= 24)%Q -> nonnegTotals t ->
  nonnegTotals (totalsFinish active (Fin sb) (mkLoop t (Fin p))).
Proof.
  intros Hsb Ht. unfold totalsFinish, lit. cbn [prevEnd totals Num.ltb].
  destruct active.
  - assert (H1 : nonnegTotals (if Num.Qlt_bool p sb
                               then addTo t OFF (Fin sb - Fin p) else t)).
    { destruct (Num.Qlt_bool p sb) eqn:E; [| exact Ht].
      apply Qlt_bool_iff in E. apply nonnegTotals_addTo; [exact Ht | lra]. }
    destruct (Num.Qlt_bool sb (inject_Z 24)) eqn:E; [| exact H1].
    apply Qlt_bool_iff in E. unfold inject_Z in E.
    apply nonnegTotals_addTo; [exact H1 | unfold inject_Z; lra].
  - destruct (Num.Qlt_bool p (inject_Z 24)) eqn:E; [| exact Ht].
    apply Qlt_bool_iff in E. unfold inject_Z in E.
    apply nonnegTotals_addTo; [exact Ht | unfold inject_Z; lra].
Qed.

(** Whenever the sleeper-berth time is a number, whatever the segments of
    the day (sorted or not, overlapping or not), no total is negative. *)
Lemma totalsByStatus_nonneg (log : option LogbookDay) (formData : option LogbookFormData) :
  sbTimeHForTotals (formOf formData) <> NaN ->
  nonnegTotals (totalsByStatus log formData).
Proof.
  intros Hsb.
  assert (Hz : nonnegTotals zeroTotals).
  { unfold zeroTotals, lit, inject_Z. do 4 eexists.
    split; [reflexivity |]. repeat split; lra. }
  unfold totalsByStatus.
  destruct log as [l |]; [| exact Hz].
  destruct (segments l) as [| s0 r] eqn:Es; [exact Hz |].
  destruct (sbTimeHForTotals_cases (formOf formData)) as [E | (sb & E & Hr)];
    [congruence |].
  rewrite E.
  destruct (@totalsLoop_nonneg (sleeperBerthActiveForTotals (formOf formData)) sb
              _ (sortSegs_hours (s0 :: r)) zeroTotals (inject_Z 0) Hz)
    as (t' & p' & Ef & Ht').
  unfold lit at 1. rewrite Ef.
  apply totalsFinish_nonneg; assumption.
Qed.

(** ** More on [isoToHoursSinceMidnight] *)

Lemma match_here_not_T (c : ascii) (r : string) :
  Ascii.eqb c "T" = false -> match_here (String c r) = None.
Proof.
  intros E. unfold match_here. destruct r as [| h1 r1]; [reflexivity |].
  rewrite E. reflexivity.
Qed.

Lemma regex_exec_skip_prefix (p rest : string) :
  noT p = true -> regex_exec (p ++ rest) = regex_exec rest.
Proof.
  induction p as [| c p IH]; intros H.
  - reflexivity.
  - cbn [noT] in H. apply andb_true_iff in H. destruct H as [Hc Hp].
    apply negb_true_iff in Hc.
    change (String c p ++ rest)%string with (String c (p ++ rest)%string).
    change (regex_exec (String c (p ++ rest)))
      with (match match_here (String c (p ++ rest)) with
            | Some g => Some g
            | None => regex_exec (p ++ rest)
            end).
    rewrite (@match_here_not_T c (p ++ rest) Hc). apply IH. exact Hp.
Qed.

Lemma regex_exec_clock (h1 h2 m1 m2 s1 s2 : ascii) (suffix : string) :
  is_digit h1 = true -> is_digit h2 = true ->
  is_digit m1 = true -> is_digit m2 = true ->
  is_digit s1 = true -> is_digit s2 = true ->
  regex_exec (String "T" (String h1 (String h2 (String ":" (String m1 (String m2
               (String ":" (String s1 (String s2 suffix)))))))))
  = Some (String h1 (String h2 EmptyString), String m1 (String m2 EmptyString),
          Some (String s1 (String s2 EmptyString))).
Proof.
  intros Hh1 Hh2 Hm1 Hm2 Hs1 Hs2.
  cbn [regex_exec match_here match_minutes].
  change (Ascii.eqb "T" "T") with true. change (Ascii.eqb ":" ":") with true.
  rewrite Hh1, Hh2, Hm1, Hm2, Hs1, Hs2. reflexivity.
Qed.

(** X1. The time of day is read as written: for a text made of a prefix
    without the letter T (a date), then THH:MM:SS, then anything (a fraction,
    Z, an offset), the result is HH + MM/60 + SS/3600, whatever [new Date]
    would make of the text. *)
Theorem X1_iso_reads_clock_as_written
    (prefix suffix : string) (h1 h2 m1 m2 s1 s2 : ascii) :
  noT prefix = true ->
  is_digit h1 = true -> is_digit h2 = true ->
  is_digit m1 = true -> is_digit m2 = true ->
  is_digit s1 = true -> is_digit s2 = true ->
  isoToHoursSinceMidnight
    (prefix ++ String "T" (String h1 (String h2 (String ":" (String m1 (String m2
               (String ":" (String s1 (String s2 suffix)))))))))
  = lit (twoDigits h1 h2) + lit (twoDigits m1 m2) / lit 60
    + lit (twoDigits s1 s2) / lit 3600.
Proof.
  intros Hp Hh1 Hh2 Hm1 Hm2 Hs1 Hs2.
  unfold isoToHoursSinceMidnight.
  rewrite (@regex_exec_skip_prefix prefix _ Hp).
  rewrite (@regex_exec_clock h1 h2 m1 m2 s1 s2 suffix Hh1 Hh2 Hm1 Hm2 Hs1 Hs2).
  unfold parseInt, twoDigits. cbn [digits_value].
  rewrite Hh1, Hh2, Hm1, Hm2, Hs1, Hs2.
  rewrite !Z.mul_0_r, !Z.add_0_l. reflexivity.
Qed.

Lemma digit_val_nonneg (c : ascii) : is_digit c = true -> (0 <= digit_val c)%Z.
Proof.
  unfold is_digit, digit_val. intros H. apply andb_true_iff in H.
  destruct H as [H _]. apply Nat.leb_le in H. lia.
Qed.

Lemma digits_value_nonneg (s : string) :
  forall acc, (0 <= acc)%Z -> (0 <= digits_value acc s)%Z.
Proof.
  induction s as [| c r IH]; intros acc Hacc; cbn [digits_value].
  - exact Hacc.
  - destruct (is_digit c) eqn:E; [| exact Hacc].
    apply IH. pose proof (digit_val_nonneg c E). lia.
Qed.

Lemma clock_value_nonneg (h m s : Z) :
  (0 <= h)%Z -> (0 <= m)%Z -> (0 <= s)%Z ->
  exists q, lit h + lit m / lit 60 + lit s / lit 3600 = Fin q /\ (0 <= q)%Q.
Proof.
  intros Hh Hm Hs.
  exists (inject_Z h + inject_Z m / 60 + inject_Z s / 3600)%Q.
  split; [reflexivity |].
  assert (Hh' : (0 <= inject_Z h)%Q) by (rewrite <- (Zle_Qle 0); exact Hh).
  assert (Hm' : (0 <= inject_Z m)%Q) by (rewrite <- (Zle_Qle 0); exact Hm).
  assert (Hs' : (0 <= inject_Z s)%Q) by (rewrite <- (Zle_Qle 0); exact Hs).
  change (inject_Z 0) with 0%Q in Hh', Hm', Hs'.
  revert Hh' Hm' Hs'.
  generalize (inject_Z h) (inject_Z m) (inject_Z s). intros a b c Ha Hb Hc.
  assert (H1 : (0 <= b / 60)%Q) by (apply Qle_shift_div_l; lra).
  assert (H2 : (0 <= c / 3600)%Q) by (apply Qle_shift_div_l; lra).
  lra.
Qed.

(** X2. [isoToHoursSinceMidnight] never returns [NaN], an infinity or a
    negative number: as long as the clock fields of a [Date] are not
    negative, its result is a finite number >= 0 for every text. *)
Theorem X2_iso_finite_and_nonneg (iso : string) :
  clockFieldsNonneg ->
  exists q, isoToHoursSinceMidnight iso = Fin q /\ (0 <= q)%Q.
Proof.
  intros Hd. unfold isoToHoursSinceMidnight.
  destruct (regex_exec iso) as [[[g1 g2] g3] |] eqn:Er.
  - apply regex_exec_digits in Er. destruct Er as (H1 & H2 & H3).
    assert (H3' : starts_digit (match g3 with Some g => g | None => "0"%string end) = true)
      by (destruct g3; [exact H3 | reflexivity]).
    rewrite (parseInt_digits _ H1), (parseInt_digits _ H2), (parseInt_digits _ H3').
    apply clock_value_nonneg; apply digits_value_nonneg; lia.
  - destruct (Date_new iso) as [d |] eqn:Ed.
    + destruct (Hd iso d Ed) as (Hh & Hm & Hs). apply clock_value_nonneg; assumption.
    + exists (inject_Z 0). split; [reflexivity | unfold inject_Z; lra].
Qed.

(** ** The lines of the duty overlay *)

Lemma sbTimeH_cases (form : LogbookFormData) :
  sbTimeH form = NaN \/ exists sb, sbTimeH form = Fin sb /\ (0 <= sb <= 24)%Q.
Proof.
  unfold sbTimeH. destruct (sleeperBerthActive form).
  - apply clamp_cases.
  - right. exists (inject_Z 0). split; [reflexivity | unfold inject_Z; lra].
Qed.


(** The end of a segment as drawn is a finite number. *)
Lemma drawn_end_finite (form : LogbookFormData) (e : Q) :
  exists e',
    (if sleeperBerthActive form && (Fin e >? sbTimeH form)
     then sbTimeH form else Fin e) = Fin e'.
Proof.
  destruct (sleeperBerthActive form); cbn [andb]; [| exists e; reflexivity].
  destruct (sbTimeH_cases form) as [E | (sb & E & _)]; rewrite E.
  - exists e. reflexivity.
  - destruct (Fin e >? Fin sb); [exists sb | exists e]; reflexivity.
Qed.

Lemma dutyHourW_value : (Geometry.dutyHourW == 661 # 24)%Q.
Proof. reflexivity. Qed.

Lemma rowH_value : (Geometry.rowH == 661 # 24)%Q.
Proof. reflexivity. Qed.

Lemma dutyGrid_values :
  (Geometry.dutyGridX == 92)%Q /\ (Geometry.dutyGridW == 661)%Q
  /\ (Geometry.gridBodyY == 351)%Q.
Proof. repeat split; reflexivity. Qed.

(** X3. Every line drawn for a segment stays on the 24-hour grid: it runs
    from left to right between the left edge (hour 0) and the right edge
    (hour 24), at the middle of the row of the segment's status, which lies
    inside the four rows of the grid body. This holds for every form, also
    one whose sleeper-berth time is not a number. *)
Theorem X3_segment_line_inside_grid
    (form : LogbookFormData) (s : Segment) (line : Line) :
  segmentLine form s = Some line ->
  exists xa xb y : Q,
    line = mkLine (Fin xa) (Fin y) (Fin xb) (Fin y)
    /\ (Geometry.dutyGridX <= xa)%Q /\ (xa < xb)%Q
    /\ (xb <= Geometry.dutyGridX + Geometry.dutyGridW)%Q
    /\ (y == Geometry.gridBodyY
             + (inject_Z (statusToRowIndex (status s)) + (1 # 2)) * Geometry.rowH)%Q
    /\ (Geometry.gridBodyY < y < Geometry.gridBodyY + 4 * Geometry.rowH)%Q.
Proof.
  unfold segmentLine. cbv zeta.
  destruct (isoToHoursSinceMidnight_finite (start_iso s)) as [a Ea].
  destruct (isoToHoursSinceMidnight_finite (end_iso s)) as [e Ee].
  rewrite Ea, Ee.
  destruct (drawn_end_finite form e) as [e' Ee']. rewrite Ee'.
  rewrite !clamp_Fin.
  pose proof (clampQ_range a) as Ra. pose proof (clampQ_range e') as Re.
  generalize dependent (clampQ a). generalize dependent (clampQ e').
  intros ce Re ca Ra.
  destruct (Fin ce <=? lit 0) eqn:E1; [discriminate |].
  destruct (Fin ca >=? lit 24) eqn:E2; [discriminate |].
  destruct (Fin ce <=? Fin ca) eqn:E3; [discriminate |].
  unfold Num.geb, lit in E1, E2. cbn [Num.leb] in E1, E2, E3.
  apply Qle_bool_false_iff in E1, E2, E3. unfold inject_Z in E1, E2.
  cbn [orb]. intros H. injection H as <-.
  destruct dutyGrid_values as (HX & HWd & HY).
  exists (Geometry.dutyGridX + ca * Geometry.dutyHourW)%Q,
         (Geometry.dutyGridX + ce * Geometry.dutyHourW)%Q,
         (Geometry.gridBodyY + inject_Z (statusToRowIndex (status s)) * Geometry.rowH
          + Geometry.rowH / 2)%Q.
  split; [reflexivity |].
  setoid_replace (Geometry.rowH / 2)%Q with (661 # 48)%Q by (vm_compute; reflexivity).
  rewrite HX, HWd, HY, dutyHourW_value, rowH_value.
  repeat split; try lra;
    destruct (status s); cbn [statusToRowIndex]; unfold inject_Z; lra.
Qed.

(** ** Totals against the drawn lines *)

Lemma statusTotal_addTo (t : Totals) (st k : DutyStatus) (x : num) :
  statusTotal (addTo t st x) k
  = if status_eqb st k then statusTotal t k + x else statusTotal t k.
Proof. destruct st, k; reflexivity. Qed.

Lemma hours_startQ_endQ (hs : HSegment) (a e : Q) :
  hours hs a e -> startQ hs = a /\ endQ hs = e.
Proof.
  intros [Ha He]. unfold startQ, endQ. rewrite Ha, He. auto.
Qed.

(** One turn of the loop adds [countedFor] to a status other than OFF. *)
Lemma totalsStep_status (active : bool) (sb : Q) (k : DutyStatus)
    (st : LoopState) (hs : HSegment) (a e d : Q) :
  k <> OFF -> hours hs a e ->
  statusTotal (totals st) k = Fin d ->
  exists d',
    statusTotal (totals (totalsStep active (Fin sb) st hs)) k = Fin d'
    /\ (d' == d + countedFor active sb k hs)%Q.
Proof.
  intros Hk Hh Hd.
  destruct (hours_startQ_endQ Hh) as [Es Ee].
  unfold countedFor, countedQ. rewrite Es, Ee.
  destruct Hh as [Ha He].
  unfold totalsStep. rewrite Ha, He, !clamp_Fin.
  generalize (clampQ a) (clampQ e). intros ca ce.
  assert (Hskip : forall z : Q, (z == 0)%Q ->
             exists d', statusTotal (totals st) k = Fin d'
                        /\ (d' == d + (if status_eqb (status (seg hs)) k then z else 0%Q))%Q).
  { intros z Hz. exists d. split; [exact Hd |].
    destruct (status_eqb (status (seg hs)) k); lra. }
  assert (Hrun : forall e1 : Q,
             exists d',
               statusTotal
                 (totals
                    (mkLoop
                       (addTo (if Fin ca >? prevEnd st
                               then addTo (totals st) OFF (Fin ca - prevEnd st)
                               else totals st)
                              (status (seg hs)) (Fin e1 - Fin ca))
                       (Num.max (prevEnd st) (Fin e1)))) k = Fin d'
               /\ (d' == d + (if status_eqb (status (seg hs)) k then (e1 - ca)%Q else 0%Q))%Q).
  { intros e1. cbn [totals]. rewrite statusTotal_addTo.
    assert (Hgap : statusTotal
                     (if Fin ca >? prevEnd st
                      then addTo (totals st) OFF (Fin ca - prevEnd st)
                      else totals st) k = Fin d).
    { destruct (Fin ca >? prevEnd st); [| exact Hd].
      rewrite statusTotal_addTo.
      destruct k; try contradiction; exact Hd. }
    rewrite Hgap.
    destruct (status_eqb (status (seg hs)) k).
    - eexists. split; [reflexivity |]. unfold Qminus. lra.
    - exists d. split; [reflexivity | lra]. }
  destruct active; cbn [andb].
  - unfold Num.geb at 1. cbn [Num.leb].
    destruct (Qle_bool sb ca); [apply Hskip; reflexivity |].
    cbn [Num.min Num.leb].
    destruct (Qle_bool ce sb); cbn [Num.leb].
    + destruct (Qle_bool ce ca); [apply Hskip; reflexivity | apply Hrun].
    + destruct (Qle_bool sb ca); [apply Hskip; reflexivity | apply Hrun].
  - cbn [Num.leb].
    destruct (Qle_bool ce ca); [apply Hskip; reflexivity | apply Hrun].
Qed.

Lemma totalsLoop_status (active : bool) (sb : Q) (k : DutyStatus) (l : list HSegment) :
  k <> OFF ->
  Forall (fun x => exists a e, hours x a e) l ->
  forall (st : LoopState) (d : Q),
    statusTotal (totals st) k = Fin d ->
    exists d',
      statusTotal (totals (fold_left (totalsStep active (Fin sb)) l st)) k = Fin d'
      /\ (d' == d + sumOver (countedFor active sb k) l)%Q.
Proof.
  intros Hk. induction 1 as [| x r (a & e & Hh) Hr IH]; intros st d Hd;
    cbn [fold_left sumOver fold_right].
  - exists d. split; [exact Hd | lra].
  - destruct (@totalsStep_status active sb k st x a e d Hk Hh Hd) as (d1 & E1 & H1).
    destruct (IH _ _ E1) as (d2 & E2 & H2).
    exists d2. split; [exact E2 |]. unfold sumOver in H2. lra.
Qed.

Lemma sumOver_insertSeg (f : HSegment -> Q) (x : HSegment) (l : list HSegment) :
  (sumOver f (insertSeg x l) == f x + sumOver f l)%Q.
Proof.
  induction l as [| y r IH]; cbn [insertSeg sumOver fold_right].
  - lra.
  - destruct (compareFn x y >? lit 0); cbn [sumOver fold_right].
    + unfold sumOver in IH. lra.
    + lra.
Qed.

(** Sorting does not change what is added up. *)
Lemma sumOver_sortSegs (f : HSegment -> Q) (l : list HSegment) :
  (sumOver f (sortSegs l) == sumOver f l)%Q.
Proof.
  induction l as [| x r IH].
  - reflexivity.
  - change (sumOver f (sortSegs (x :: r))) with (sumOver f (insertSeg x (sortSegs r))).
    change (sumOver f (x :: r)) with (f x + sumOver f r)%Q.
    rewrite sumOver_insertSeg, IH. reflexivity.
Qed.

Lemma totalsFinish_status (active : bool) (sbT : num) (st : LoopState) (k : DutyStatus) :
  k = D \/ k = ON ->
  statusTotal (totalsFinish active sbT st) k = statusTotal (totals st) k.
Proof.
  intros Hk. unfold totalsFinish.
  destruct active.
  - destruct (sbT <? lit 24); destruct (prevEnd st <? sbT);
      rewrite ?statusTotal_addTo; destruct Hk as [-> | ->]; reflexivity.
  - destruct (prevEnd st <? lit 24);
      rewrite ?statusTotal_addTo; destruct Hk as [-> | ->]; reflexivity.
Qed.

Lemma clampQ_id (x : Q) : (0 <= x <= 24)%Q -> (clampQ x == x)%Q.
Proof.
  intros H. unfold clampQ, inject_Z. qcases; lra.
Qed.






(** ** More on the connectors *)

Lemma clampQ_interior (a : Q) :
  ((0 < clampQ a /\ clampQ a < 24) <-> (0 < a /\ a < 24))%Q
  /\ ((0 < a /\ a < 24)%Q -> (clampQ a == a)%Q).
Proof.
  unfold clampQ, inject_Z. split; [split |]; intros H; qcases; lra.
Qed.

(** X5. Between two consecutive segments the connector is drawn if and only
    if the start of the second is within 1e-6 of the end of the first and
    lies strictly between hour 0 and hour 24. When drawn it is the vertical
    line at that start time, strictly inside the grid, from the middle of
    the row of the first status to the middle of the row of the second. *)
Theorem X5_connector_drawn_iff_times_meet_inside_day
    (segs : list Segment) (idx : nat) (prev s : Segment) :
  nth_error segs idx = Some prev ->
  nth_error segs (S idx) = Some s ->
  exists a e,
    isoToHoursSinceMidnight (start_iso s) = Fin a
    /\ isoToHoursSinceMidnight (end_iso prev) = Fin e
    /\ ((exists line, nth_error (connectors segs) (S idx) = Some (Some line))
        <-> (Qabs (a - e) <= eps /\ 0 < a /\ a < 24)%Q)
    /\ (forall line,
           nth_error (connectors segs) (S idx) = Some (Some line) ->
           exists x,
             line = mkLine (Fin x) (Fin (rowCenter (status prev)))
                           (Fin x) (Fin (rowCenter (status s)))
             /\ (x == Geometry.dutyGridX + a * Geometry.dutyHourW)%Q
             /\ (Geometry.dutyGridX < x < Geometry.dutyGridX + Geometry.dutyGridW)%Q).
Proof.
  intros Hp Hs.
  destruct (isoToHoursSinceMidnight_finite (start_iso s)) as [a Ea].
  destruct (isoToHoursSinceMidnight_finite (end_iso prev)) as [e Ee].
  exists a, e. split; [exact Ea |]. split; [exact Ee |].
  rewrite (@connectors_nth segs idx prev s Hp Hs).
  unfold connector. cbv zeta. rewrite Ea, Ee, !clamp_Fin.
  destruct (clampQ_interior a) as [Hin Hid].
  pose proof (clampQ_range a) as Ra.
  revert Hin Hid Ra. generalize (clampQ a). intros ca Hin Hid Ra.
  unfold Num.gtb. cbn [Num.sub Num.neg Num.add Num.abs Num.ltb].
  change (a + - e)%Q with (a - e)%Q.
  destruct (Num.Qlt_bool eps (Qabs (a - e))) eqn:E;
    [apply Qlt_bool_iff in E | apply Qlt_bool_false_iff in E].
  { split.
    - split; [intros [line H]; discriminate | intros (H & _); lra].
    - intros line H. discriminate. }
  unfold Num.geb, lit. cbn [Num.leb].
  destruct (Qle_bool ca (inject_Z 0)) eqn:E1;
    [apply Qle_bool_iff in E1 | apply Qle_bool_false_iff in E1];
    unfold inject_Z in E1; cbn [orb].
  { split.
    - split; [intros [line H]; discriminate | intros (_ & H); lra].
    - intros line H. discriminate. }
  destruct (Qle_bool (inject_Z 24) ca) eqn:E2;
    [apply Qle_bool_iff in E2 | apply Qle_bool_false_iff in E2];
    unfold inject_Z in E2.
  { split.
    - split; [intros [line H]; discriminate | intros (_ & H); lra].
    - intros line H. discriminate. }
  assert (Ha : (0 < a /\ a < 24)%Q) by (apply Hin; lra).
  split.
  - split; [intros _; repeat split; tauto | intros _; eexists; reflexivity].
  - intros line H. injection H as <-.
    exists (Geometry.dutyGridX + ca * Geometry.dutyHourW)%Q.
    split; [reflexivity |].
    destruct dutyGrid_values as (HX & HWd & HY).
    rewrite (Hid Ha), HX, HWd, dutyHourW_value.
    repeat split; lra.
Qed.

(** ** An override at the end of the day *)

Lemma totalsStep_at_24 (st : LoopState) (hs : HSegment) (a e : Q) :
  hours hs a e ->
  totalsStep true (lit 24) st hs = totalsStep false (lit 24) st hs.
Proof.
  intros [Ha He]. unfold totalsStep. rewrite Ha, He, !clamp_Fin.
  pose proof (clampQ_range a) as Ra. pose proof (clampQ_range e) as Re.
  revert Ra Re. generalize (clampQ a) (clampQ e). intros ca ce Ra Re.
  cbn [andb]. unfold Num.geb, lit. cbn [Num.leb Num.min].
  destruct (Qle_bool (inject_Z 24) ca) eqn:E1;
    [apply Qle_bool_iff in E1 | apply Qle_bool_false_iff in E1];
    unfold inject_Z in E1.
  - assert (E2 : Qle_bool ce ca = true) by (apply Qle_bool_iff; lra).
    rewrite E2. reflexivity.
  - assert (E2 : Qle_bool ce (inject_Z 24) = true)
      by (apply Qle_bool_iff; unfold inject_Z; lra).
    rewrite E2. reflexivity.
Qed.

Lemma totalsLoop_at_24 (l : list HSegment) :
  Forall (fun x => exists a e, hours x a e) l ->
  forall st,
    fold_left (totalsStep true (lit 24)) l st
    = fold_left (totalsStep false (lit 24)) l st.
Proof.
  induction 1 as [| x r (a & e & Hh) Hr IH]; intros st; cbn [fold_left].
  - reflexivity.
  - rewrite (totalsStep_at_24 st Hh). apply IH.
Qed.

(** X6. A sleeper-berth time of 24:00 or later is the same as no override:
    when the hour and minute parts are numbers with hour + minute/60 >= 24,
    the totals of any day are those computed without form data. *)
Theorem X6_override_at_end_of_day_changes_nothing
    (log : option LogbookDay) (t h m : string) (rest : list string) (qh qm : Q) :
  split ":" (trim t) = h :: m :: rest ->
  Number h = Fin qh -> Number m = Fin qm ->
  (24 <= qh + qm / 60)%Q ->
  sbTimeHForTotals (sleeperForm t) = lit 24
  /\ totalsByStatus log (Some (sleeperForm t)) = totalsByStatus log None.
Proof.
  intros Es Hh Hm Hge.
  assert (Eact : sleeperBerthActiveForTotals (sleeperForm t) = true).
  { unfold sleeperBerthActiveForTotals, sleeperForm.
    cbn [ending_shift_location sleeper_berth_time YesNo_eqb andb].
    rewrite (split_trim_nonempty _ Es). reflexivity. }
  assert (Esb : sbTimeHForTotals (sleeperForm t) = lit 24).
  { unfold sbTimeHForTotals. rewrite Eact.
    cbn [sleeperForm sleeper_berth_time].
    unfold parseSleeperBerthTime. rewrite Es.
    cbn [map nth_error]. rewrite Hh, Hm.
    cbn [Number_isNaN Num.isNaN toNumber].
    change (Fin qh + Fin qm / lit 60) with (Fin (qh + qm / 60)).
    cbn [Num.min Num.leb lit].
    assert (E : Qle_bool (inject_Z 24) (qh + qm / 60) = true)
      by (apply Qle_bool_iff; exact Hge).
    rewrite E. reflexivity. }
  split; [exact Esb |].
  unfold totalsByStatus. cbn [formOf]. rewrite Eact, Esb.
  destruct log as [l |]; [| reflexivity].
  destruct (segments l) as [| s0 r]; [reflexivity |].
  change (sleeperBerthActiveForTotals (mkForm None None)) with false.
  change (sbTimeHForTotals (mkForm None None)) with (lit 24).
  rewrite (totalsLoop_at_24 (sortSegs_hours (s0 :: r))).
  reflexivity.
Qed.

(** ** Range of the totals *)

(** X7. On a day with at least one segment, without overlap and with a
    sleeper-berth time that is a number, each of the four totals is a number
    of hours between 0 and 24. *)
Theorem X7_each_total_between_0_and_24
    (log : LogbookDay) (formData : option LogbookFormData) :
  segments log <> [] ->
  ForallOrdPairs disjointSegs (segments log) ->
  sbTimeHForTotals (formOf formData) <> NaN ->
  exists o s d n,
    totalsByStatus (Some log) formData = mkTotals (Fin o) (Fin s) (Fin d) (Fin n)
    /\ (0 <= o <= 24)%Q /\ (0 <= s <= 24)%Q /\ (0 <= d <= 24)%Q /\ (0 <= n <= 24)%Q.
Proof.
  intros Hne Hdis Hsb.
  destruct (@totalsByStatus_sumsTo_24 log formData Hne Hdis Hsb)
    as (o & s & d & n & E & Hsum).
  destruct (@totalsByStatus_nonneg (Some log) formData Hsb)
    as (o' & s' & d' & n' & E' & Ho & Hs & Hd & Hn).
  rewrite E in E'. injection E' as <- <- <- <-.
  exists o, s, d, n. split; [exact E |]. repeat split; lra.
Qed.

Lemma sumOver_zero (A : Type) (f : A -> Q) (l : list A) :
  Forall (fun x => (f x == 0)%Q) l -> (sumOver f l == 0)%Q.
Proof.
  induction 1 as [| x r Hx Hr IH]; cbn [sumOver fold_right].
  - reflexivity.
  - unfold sumOver in IH. rewrite Hx, IH. reflexivity.
Qed.

(** X8. With an active override at an hour [sb] and a plan without
    sleeper-berth segments, the Sleeper Berth total of a day with at least
    one segment is exactly the rest of the day, 24 - sb, whatever the
    segments are (sorted or not, overlapping or not). *)
Theorem X8_sleeper_berth_total_is_rest_of_day
    (log : LogbookDay) (formData : option LogbookFormData) (sb : Q) :
  segments log <> [] ->
  sleeperBerthActiveForTotals (formOf formData) = true ->
  sbTimeHForTotals (formOf formData) = Fin sb ->
  Forall (fun s => status s <> SB) (segments log) ->
  tSB (totalsByStatus (Some log) formData) =n= Fin (24 - sb).
Proof.
  intros Hne Hact Esb Hno.
  assert (Hr : (0 <= sb <= 24)%Q).
  { destruct (sbTimeHForTotals_cases (formOf formData)) as [E | (sb' & E & Hr)];
      rewrite Esb in E; [discriminate | injection E as <-; exact Hr]. }
  unfold totalsByStatus.
  destruct (segments log) as [| s0 r] eqn:Es; [congruence |].
  rewrite Hact, Esb.
  assert (Hz : statusTotal (totals (mkLoop zeroTotals (lit 0))) SB = Fin (inject_Z 0))
    by reflexivity.
  destruct (@totalsLoop_status true sb SB
              (sortSegs (map toHSegment (s0 :: r))) ltac:(discriminate)
              (sortSegs_hours (s0 :: r)) _ _ Hz) as (d' & Ed & Hd).
  assert (Hzero : (sumOver (countedFor true sb SB) (sortSegs (map toHSegment (s0 :: r))) == 0)%Q).
  { apply sumOver_zero, Forall_sortSegs, Forall_map.
    revert Hno. apply Forall_impl. intros s Hs.
    unfold countedFor. cbn [toHSegment seg].
    destruct (status s); try reflexivity. contradiction. }
  rewrite Hzero in Hd.
  set (st := fold_left (totalsStep true (Fin sb)) (sortSegs (map toHSegment (s0 :: r)))
               (mkLoop zeroTotals (lit 0))) in *.
  cbn [statusTotal] in Ed.
  unfold totalsFinish, lit. cbn [Num.ltb].
  destruct (Num.Qlt_bool sb (inject_Z 24)) eqn:E24;
    [apply Qlt_bool_iff in E24 | apply Qlt_bool_false_iff in E24];
    unfold inject_Z in E24.
  - set (t1 := if prevEnd st <? Fin sb
               then addTo (totals st) OFF (Fin sb - prevEnd st)
               else totals st).
    assert (E1 : tSB t1 = Fin d')
      by (subst t1; destruct (prevEnd st <? Fin sb); exact Ed).
    change (tSB (addTo t1 SB (Fin (inject_Z 24) - Fin sb)))
      with (tSB t1 + (Fin (inject_Z 24) - Fin sb)).
    rewrite E1. cbn [Num.sub Num.neg Num.add Num.eq].
    unfold inject_Z in *. lra.
  - set (t1 := if prevEnd st <? Fin sb
               then addTo (totals st) OFF (Fin sb - prevEnd st)
               else totals st).
    assert (E1 : tSB t1 = Fin d')
      by (subst t1; destruct (prevEnd st <? Fin sb); exact Ed).
    rewrite E1. cbn [Num.eq]. unfold inject_Z in *. lra.
Qed.

(** ** More on the recap *)

Lemma fold_Qplus_acc (l : list Q) :
  forall acc : Q, (fold_left Qplus l acc == acc + fold_left Qplus l 0)%Q.
Proof.
  induction l as [| x r IH]; intros acc; cbn [fold_left].
  - lra.
  - rewrite (IH (acc + x)%Q), (IH (0 + x)%Q). lra.
Qed.

Lemma windowQ_extend (qs : list Q) (lo count : nat) (x : Q) :
  nth_error qs lo = Some x ->
  (windowQ qs lo (S count) == x + windowQ qs (S lo) count)%Q.
Proof.
  intros H. unfold windowQ. rewrite (skipn_nth_error _ _ H).
  cbn [firstn fold_left]. rewrite fold_Qplus_acc. lra.
Qed.

(** On finite hours the loop of the code gives the rational window sum. *)
Lemma sum_windowQ (qs : list Q) (a b : Z) :
  (0 <= a <= b)%Z -> (b < Z.of_nat (List.length qs))%Z ->
  sum (map Fin qs) a b = Fin (windowQ qs (Z.to_nat a) (Z.to_nat (b - a + 1))).
Proof.
  intros Hab Hb. rewrite sum_window by (rewrite ?length_map; lia).
  unfold specWindowSum, windowQ, lit.
  rewrite skipn_map, firstn_map.
  rewrite <- (map_id (firstn _ (skipn _ qs))) at 2.
  apply (fold_add_map_Fin (fun d => d)).
Qed.


Lemma windowQ_grow (qs : list Q) :
  Forall (fun q => (0 <= q)%Q) qs ->
  forall (d lo c : nat),
    (lo + d <= List.length qs)%nat ->
    (windowQ qs (lo + d) c <= windowQ qs lo (d + c))%Q.
Proof.
  intros Hq. induction d as [| d IH]; intros lo c Hlen.
  - rewrite Nat.add_0_r. cbn [Nat.add]. apply Qle_refl.
  - destruct (nth_error qs lo) as [x |] eqn:En;
      [| apply nth_error_None in En; lia].
    cbn [Nat.add]. rewrite (@windowQ_extend qs lo (d + c) x En).
    assert (Hx : (0 <= x)%Q).
    { rewrite Forall_forall in Hq. apply Hq. eapply nth_error_In. exact En. }
    specialize (IH (S lo) c ltac:(lia)).
    replace (lo + S d)%nat with (S lo + d)%nat by lia. lra.
Qed.

(** A window that starts earlier holds at least as many hours. *)
Lemma sum_mono_start (qs : list Q) (a a' b : Z) :
  Forall (fun q => (0 <= q)%Q) qs ->
  (0 <= a' <= a)%Z -> (a <= b)%Z -> (b < Z.of_nat (List.length qs))%Z ->
  exists x x',
    sum (map Fin qs) a b = Fin x /\ sum (map Fin qs) a' b = Fin x' /\ (x <= x')%Q.
Proof.
  intros Hq Ha Hab Hb. rewrite !sum_windowQ by lia.
  do 2 eexists. split; [reflexivity |]. split; [reflexivity |].
  pose proof (@windowQ_grow qs Hq (Z.to_nat (a - a')) (Z.to_nat a')
                (Z.to_nat (b - a + 1)) ltac:(lia)) as H.
  replace (Z.to_nat a' + Z.to_nat (a - a'))%nat with (Z.to_nat a) in H by lia.
  replace (Z.to_nat (a - a') + Z.to_nat (b - a + 1))%nat
    with (Z.to_nat (b - a' + 1)) in H by lia.
  exact H.
Qed.

(** X10. For hours that are all finite and non-negative and a day inside
    the sequence, a longer window never holds fewer hours:
    0 <= onDutyToday <= sixtyA (5 days) <= seventyA = sixtyC (7 days)
    <= seventyC (8 days). *)
Theorem X10_longer_window_holds_more_hours (qs : list Q) (i : Z) :
  Forall (fun q => (0 <= q)%Q) qs ->
  (0 <= i < Z.of_nat (List.length qs))%Z ->
  let r := getRecapForDay (map Fin qs) i in
  exists t a5 a7 c8,
    onDutyToday r = Fin t /\ sixtyA r = Fin a5 /\ seventyA r = Fin a7
    /\ sixtyC r = Fin a7 /\ seventyC r = Fin c8
    /\ (0 <= t)%Q /\ (t <= a5)%Q /\ (a5 <= a7)%Q /\ (a7 <= c8)%Q.
Proof.
  intros Hq Hi r. subst r. unfold getRecapForDay.
  cbn [onDutyToday seventyA seventyC sixtyA sixtyC].
  destruct (nth_error qs (Z.to_nat i)) as [t |] eqn:En;
    [| apply nth_error_None in En; lia].
  assert (Ei : index (map Fin qs) i = Some (Fin t)).
  { unfold index. destruct (i <? 0)%Z eqn:E; [apply Z.ltb_lt in E; lia |].
    rewrite nth_error_map, En. reflexivity. }
  assert (Ht : (0 <= t)%Q).
  { rewrite Forall_forall in Hq. apply Hq. eapply nth_error_In. exact En. }
  destruct (@sum_mono_start qs i (Z.max 0 (i - 4)) i Hq ltac:(lia) ltac:(lia) ltac:(lia))
    as (x1 & a5 & E1 & E5 & H15).
  destruct (@sum_mono_start qs (Z.max 0 (i - 4)) (Z.max 0 (i - 6)) i Hq
              ltac:(lia) ltac:(lia) ltac:(lia))
    as (a5' & a7 & E5' & E7 & H57).
  destruct (@sum_mono_start qs (Z.max 0 (i - 6)) (Z.max 0 (i - 7)) i Hq
              ltac:(lia) ltac:(lia) ltac:(lia))
    as (a7' & c8 & E7' & E8 & H78).
  rewrite E5 in E5'. injection E5' as <-.
  rewrite E7 in E7'. injection E7' as <-.
  assert (Hx1 : (x1 == t)%Q).
  { rewrite sum_windowQ in E1 by lia. injection E1 as <-.
    replace (Z.to_nat (i - i + 1)) with 1%nat by lia.
    unfold windowQ. rewrite (skipn_nth_error _ _ En). cbn [firstn fold_left]. lra. }
  rewrite Ei, E5, E7, E8.
  exists t, a5, a7, c8. repeat split; lra.
Qed.

Lemma Num_eq_refl (a : num) : a =n= a.
Proof. destruct a; cbn [Num.eq]; auto. reflexivity. Qed.

Lemma Num_eq_add (a a' b b' : num) : a =n= a' -> b =n= b' -> a + b =n= a' + b'.
Proof.
  destruct a, a'; cbn [Num.eq]; try contradiction;
    destruct b, b'; cbn [Num.eq Num.add]; try contradiction; auto.
  intros H1 H2. rewrite H1, H2. reflexivity.
Qed.

Lemma Num_eq_add_zero (a a' : num) : a =n= a' -> a =n= a' + lit 0.
Proof.
  destruct a, a'; cbn [Num.eq lit Num.add]; try contradiction; auto.
  intros H. rewrite H. unfold inject_Z. lra.
Qed.

Lemma Num_eq_remaining (limit : Z) (a a' : num) :
  a =n= a' -> Num.max (lit 0) (lit limit - a) =n= Num.max (lit 0) (lit limit - a').
Proof.
  destruct a as [p | | |], a' as [q | | |]; cbn [Num.eq]; try contradiction;
    try (intros _; apply Num_eq_refl).
  intros H. unfold lit. cbn [Num.sub Num.neg Num.add Num.max Num.leb].
  assert (E : Qle_bool (inject_Z 0) (inject_Z limit + - p)
              = Qle_bool (inject_Z 0) (inject_Z limit + - q))
    by (rewrite H; reflexivity).
  rewrite E. destruct (Qle_bool (inject_Z 0) (inject_Z limit + - q)); cbn [Num.eq].
  - rewrite H. reflexivity.
  - reflexivity.
Qed.

Lemma index_padded (l : list num) (k : nat) (j : Z) :
  (0 <= j)%Z ->
  index (l ++ repeat (lit 0) k) j
  = if (j <? Z.of_nat (List.length l))%Z then index l j
    else if (j <? Z.of_nat (List.length l + k))%Z then Some (lit 0) else None.
Proof.
  intros Hj. unfold index.
  destruct (j <? 0)%Z eqn:E0; [apply Z.ltb_lt in E0; lia |].
  destruct (j <? Z.of_nat (List.length l))%Z eqn:E1.
  - apply Z.ltb_lt in E1. apply nth_error_app1. lia.
  - apply Z.ltb_ge in E1. rewrite nth_error_app2 by lia.
    destruct (j <? Z.of_nat (List.length l + k))%Z eqn:E2.
    + apply Z.ltb_lt in E2. apply nth_error_repeat. lia.
    + apply Z.ltb_ge in E2. apply nth_error_None. rewrite repeat_length. lia.
Qed.

Lemma sumLoop_padded (l : list num) (k : nat) (b : Z) :
  forall (fuel : nat) (j : Z) (s s' : num),
    s =n= s' ->
    sumLoop l (Z.of_nat (List.length l)) b fuel j s
    =n= sumLoop (l ++ repeat (lit 0) k)
          (Z.of_nat (List.length (l ++ repeat (lit 0) k))) b fuel j s'.
Proof.
  rewrite length_app, repeat_length.
  induction fuel as [| fuel IH]; intros j s s' Hs; cbn [sumLoop].
  - exact Hs.
  - destruct (j <=? b)%Z; [| exact Hs].
    apply IH.
    destruct (j >=? 0)%Z eqn:E0; cbn [andb]; [| exact Hs].
    apply Z.geb_le in E0. rewrite (index_padded l k E0).
    destruct (j <? Z.of_nat (List.length l))%Z eqn:E1.
    + assert (E2 : (j <? Z.of_nat (List.length l + k))%Z = true)
        by (apply Z.ltb_lt; apply Z.ltb_lt in E1; lia).
      rewrite E2. apply Num_eq_add; [exact Hs | apply Num_eq_refl].
    + destruct (j <? Z.of_nat (List.length l + k))%Z; [| exact Hs].
      cbn [toNumber]. apply Num_eq_add_zero. exact Hs.
Qed.

Lemma sum_padded (l : list num) (k : nat) (a b : Z) :
  sum l a b =n= sum (l ++ repeat (lit 0) k) a b.
Proof.
  unfold sum. apply sumLoop_padded. apply Num_eq_refl.
Qed.

(** X11. Days past the end of the sequence count as days of 0 hours: for
    every day index, the recap over the sequence equals, field by field, the
    recap over the sequence followed by any number of days of 0 hours. *)
Theorem X11_missing_days_count_as_zero_hours (l : list num) (k : nat) (i : Z) :
  let r := getRecapForDay l i in
  let r' := getRecapForDay (l ++ repeat (lit 0) k) i in
  onDutyToday r = onDutyToday r'
  /\ seventyA r =n= seventyA r' /\ seventyB r =n= seventyB r'
  /\ seventyC r =n= seventyC r'
  /\ sixtyA r =n= sixtyA r' /\ sixtyB r =n= sixtyB r' /\ sixtyC r =n= sixtyC r'.
Proof.
  intros r r'. subst r r'. unfold getRecapForDay.
  cbn [onDutyToday seventyA seventyB seventyC sixtyA sixtyB sixtyC].
  split.
  - destruct (i <? 0)%Z eqn:E0.
    + unfold index. rewrite E0. reflexivity.
    + apply Z.ltb_ge in E0. rewrite (index_padded l k E0).
      destruct (i <? Z.of_nat (List.length l))%Z eqn:E1; [reflexivity |].
      apply Z.ltb_ge in E1.
      assert (En : index l i = None).
      { unfold index. destruct (i <? 0)%Z; [reflexivity |].
        apply nth_error_None. lia. }
      rewrite En. destruct (i <? Z.of_nat (List.length l + k))%Z; reflexivity.
  - repeat split; try apply Num_eq_remaining; apply sum_padded.
Qed.



(** ** The page: recap and hours of each day *)

Lemma mapi_from_length (A B : Type) (f : A -> nat -> B) (l : list A) :
  forall i, List.length (mapi_from f i l) = List.length l.
Proof.
  induction l as [| x r IH]; intros i; cbn [mapi_from List.length].
  - reflexivity.
  - rewrite IH. reflexivity.
Qed.

(** X13. The page computes one recap per day of the plan, and the recap of
    day i is the recap of the per-day D+ON hours at index i; its onDutyToday
    is the driving plus on-duty hours of the segments of that very day. *)
Theorem X13_recap_of_each_day_of_the_plan (plan : TripPlan) :
  List.length (recapValuesAll plan) = List.length (logs plan)
  /\ forall (i : nat) (log : LogbookDay),
       nth_error (logs plan) i = Some log ->
       nth_error (recapValuesAll plan) i
       = Some (getRecapForDay (hoursByDayOf plan) (Z.of_nat i))
       /\ onDutyToday (getRecapForDay (hoursByDayOf plan) (Z.of_nat i))
          = getDrivingPlusOnDutyHours (segments log).
Proof.
  split.
  - unfold recapValuesAll, mapi. apply mapi_from_length.
  - intros i log Hi. split.
    + unfold recapValuesAll, mapi. rewrite nth_error_mapi_from, Hi. reflexivity.
    + unfold getRecapForDay. cbn [onDutyToday]. unfold index.
      destruct (Z.of_nat i <? 0)%Z eqn:E; [apply Z.ltb_lt in E; lia |].
      rewrite Nat2Z.id. unfold hoursByDayOf.
      rewrite nth_error_map, Hi. reflexivity.
Qed.

(** ** Hours of a day from its timestamps *)

Lemma getDrivingHours_from (segs : list Segment) :
  forall acc,
    fold_left (fun total s => match status s with
                              | D => total + segHours s
                              | _ => total
                              end) segs acc
    = fold_left (fun total s => match status s with
                                | D => total + segHours s
                                | _ => total
                                end) (filter isDriving segs) acc.
Proof.
  induction segs as [| s r IH]; intros acc; cbn [filter fold_left].
  - reflexivity.
  - unfold isDriving at 1. destruct (status s) eqn:E;
      cbn [status_eqb fold_left]; rewrite ?E; apply IH.
Qed.

Lemma getDrivingPlusOnDutyHours_from (segs : list Segment) :
  forall acc,
    fold_left (fun total s => match status s with
                              | D | ON => total + segHours s
                              | _ => total
                              end) segs acc
    = fold_left (fun total s => match status s with
                                | D | ON => total + segHours s
                                | _ => total
                                end) (filter isOnDuty segs) acc.
Proof.
  induction segs as [| s r IH]; intros acc; cbn [filter fold_left].
  - reflexivity.
  - unfold isOnDuty at 1. destruct (status s) eqn:E;
      cbn [status_eqb orb fold_left]; rewrite ?E; apply IH.
Qed.

(** X14. Off-duty and sleeper-berth segments never enter the hours of a
    day: the driving hours are those of the driving segments alone, and the
    driving plus on-duty hours those of the driving and on-duty segments
    alone, even when the other segments carry invalid dates. *)
Theorem X14_only_duty_segments_count (segs : list Segment) :
  getDrivingHours segs = getDrivingHours (filter isDriving segs)
  /\ getDrivingPlusOnDutyHours segs
     = getDrivingPlusOnDutyHours (filter isOnDuty segs).
Proof.
  split.
  - apply getDrivingHours_from.
  - apply getDrivingPlusOnDutyHours_from.
Qed.

Lemma segHours_chronological (s : Segment) :
  chronological s -> exists h, segHours s = Fin h /\ (0 <= h)%Q.
Proof.
  intros (ds & de & Es & Ee & Hle). unfold segHours, timeOf. rewrite Es, Ee.
  exists ((inject_Z (getTime de) - inject_Z (getTime ds)) / 3600000)%Q.
  split; [reflexivity |].
  apply Qle_shift_div_l; [reflexivity |].
  rewrite Zle_Qle in Hle. lra.
Qed.

Lemma duty_hours_bounds (segs : list Segment) :
  dutyChronological segs ->
  forall d t : Q,
    (0 <= d <= t)%Q ->
    exists d' t',
      fold_left (fun total s => match status s with
                                | D => total + segHours s
                                | _ => total
                                end) segs (Fin d) = Fin d'
      /\ fold_left (fun total s => match status s with
                                   | D | ON => total + segHours s
                                   | _ => total
                                   end) segs (Fin t) = Fin t'
      /\ (0 <= d' <= t')%Q.
Proof.
  induction 1 as [| s r Hs Hr IH]; intros d t Hdt; cbn [fold_left].
  - exists d, t. auto.
  - unfold isOnDuty in Hs.
    destruct (status s) eqn:E; cbn [status_eqb orb] in Hs;
      try (apply IH; exact Hdt);
      destruct (segHours_chronological (Hs eq_refl)) as (h & Eh & Hh);
      rewrite Eh; cbn [Num.add]; apply IH; lra.
Qed.

(** X15. When every driving and on-duty segment of a day has two valid
    dates and does not end before it starts, the hours of the day are
    finite with 0 <= driving hours <= driving plus on-duty hours. *)
Theorem X15_driving_within_on_duty_hours (segs : list Segment) :
  dutyChronological segs ->
  exists d t,
    getDrivingHours segs = Fin d /\ getDrivingPlusOnDutyHours segs = Fin t
    /\ (0 <= d <= t)%Q.
Proof.
  intros H.
  destruct (duty_hours_bounds H (d := inject_Z 0) (t := inject_Z 0)) as (d & t & Ed & Et & Hdt).
  - unfold inject_Z. lra.
  - exists d, t. split; [exact Ed |]. split; [exact Et | exact Hdt].
Qed.

Lemma on_duty_hours_nonneg (l : LogbookDay) :
  dutyChronological (segments l) ->
  exists t, getDrivingPlusOnDutyHours (segments l) = Fin t /\ (0 <= t)%Q.
Proof.
  intros H.
  destruct (duty_hours_bounds H (d := inject_Z 0) (t := inject_Z 0)) as (d & t & Ed & Et & Hdt).
  - unfold inject_Z. lra.
  - exists t. split; [exact Et | lra].
Qed.

(** X16. On a plan all of whose driving and on-duty segments are
    chronological, every recap value the page hands to every day's sheet is
    non-negative. *)
Theorem X16_recap_values_of_a_chronological_plan_nonneg (plan : TripPlan) :
  Forall (fun l => dutyChronological (segments l)) (logs plan) ->
  forall (i : nat) (r : RecapValues),
    nth_error (recapValuesAll plan) i = Some r ->
    nonneg (onDutyToday r)
    /\ nonneg (seventyA r) /\ nonneg (seventyB r) /\ nonneg (seventyC r)
    /\ nonneg (sixtyA r) /\ nonneg (sixtyB r) /\ nonneg (sixtyC r).
Proof.
  intros Hplan i r Hr.
  assert (Hh : Forall nonneg (hoursByDayOf plan)).
  { unfold hoursByDayOf. apply Forall_map. revert Hplan. apply Forall_impl.
    intros l Hl. destruct (on_duty_hours_nonneg l Hl) as (t & Et & Ht).
    rewrite Et. apply nonneg_cases. right. exists t. auto. }
  unfold recapValuesAll, mapi in Hr. rewrite nth_error_mapi_from in Hr.
  destruct (nth_error (logs plan) i) as [log |]; [| discriminate].
  cbn [option_map Nat.add] in Hr. injection Hr as <-.
  unfold getRecapForDay.
  cbn [onDutyToday seventyA seventyB seventyC sixtyA sixtyB sixtyC].
  repeat split;
    try (apply nonneg_remaining); try (apply sum_nonneg; exact Hh).
  unfold index. destruct (Z.of_nat i <? 0)%Z; [apply nonneg_zero |].
  destruct (nth_error (hoursByDayOf plan) (Z.to_nat (Z.of_nat i))) as [x |] eqn:En;
    [| apply nonneg_zero].
  rewrite Forall_forall in Hh. apply Hh. eapply nth_error_In. exact En.
Qed.

(** ** Mileage: invalid dates and the size of the shares *)

Lemma add_NaN_r (a : num) : a + NaN = NaN.
Proof. destruct a; reflexivity. Qed.

Lemma drivingFold_NaN (segs : list Segment) :
  fold_left (fun total s => match status s with
                            | D => total + segHours s
                            | _ => total
                            end) segs NaN = NaN.
Proof.
  induction segs as [| s r IH]; cbn [fold_left]; [reflexivity |].
  destruct (status s); exact IH.
Qed.

Lemma getDrivingHours_invalid (segs : list Segment) (s : Segment) :
  In s segs -> status s = D ->
  Date_new (start_iso s) = None \/ Date_new (end_iso s) = None ->
  getDrivingHours segs = NaN.
Proof.
  intros Hin Hst Hbad.
  assert (Eh : segHours s = NaN).
  { unfold segHours, timeOf.
    destruct Hbad as [E | E]; rewrite E;
      [destruct (Date_new (end_iso s)) | destruct (Date_new (start_iso s))];
      reflexivity. }
  unfold getDrivingHours. generalize (lit 0).
  induction segs as [| x r IH]; intros acc; [contradiction |].
  cbn [fold_left]. destruct Hin as [-> | Hin].
  - rewrite Hst, Eh, add_NaN_r. apply drivingFold_NaN.
  - apply IH. exact Hin.
Qed.

Lemma totalFold_NaN (logs0 : list LogbookDay) (log : LogbookDay) :
  In log logs0 -> getDrivingHours (segments log) = NaN ->
  forall acc,
    fold_left (fun acc l => acc + getDrivingHours (segments l)) logs0 acc = NaN.
Proof.
  intros Hin Eh. induction logs0 as [| x r IH]; intros acc; [contradiction |].
  cbn [fold_left]. destruct Hin as [-> | Hin].
  - rewrite Eh, add_NaN_r.
    apply (fold_add_NaN (fun l => getDrivingHours (segments l))).
  - apply IH. exact Hin.
Qed.

(** X17. One invalid date spoils the apportionment: when some driving
    segment of some day has a start or an end that [new Date] cannot read,
    the driving hours of that day and of the trip are [NaN], and every day
    of the plan is given the full totalMiles. *)
Theorem X17_invalid_date_gives_every_day_full_miles
    (plan : TripPlan) (log : LogbookDay) (s : Segment) :
  In log (logs plan) -> In s (segments log) -> status s = D ->
  Date_new (start_iso s) = None \/ Date_new (end_iso s) = None ->
  getDrivingHours (segments log) = NaN
  /\ totalDriveHours plan = NaN
  /\ forall log', perDayMiles plan log' = totalMiles plan.
Proof.
  intros Hlog Hs Hst Hbad.
  assert (Eh : getDrivingHours (segments log) = NaN)
    by (exact (@getDrivingHours_invalid (segments log) s Hs Hst Hbad)).
  assert (Et : totalDriveHours plan = NaN)
    by (exact (@totalFold_NaN (logs plan) log Hlog Eh (lit 0))).
  split; [exact Eh |]. split; [exact Et |].
  intros log'. unfold perDayMiles. rewrite Et. reflexivity.
Qed.

Lemma fold_Qplus_member (ds : list Q) (d : Q) :
  Forall (fun q => (0 <= q)%Q) ds -> In d ds ->
  (d <= fold_left Qplus ds 0)%Q /\ (0 <= fold_left Qplus ds 0)%Q.
Proof.
  induction 1 as [| x r Hx Hr IH]; intros Hin; [contradiction |].
  cbn [fold_left]. rewrite fold_Qplus_acc.
  assert (Hnn : (0 <= fold_left Qplus r 0)%Q).
  { clear IH Hin. induction Hr as [| y r' Hy Hr' IH']; cbn [fold_left].
    - lra.
    - rewrite fold_Qplus_acc. lra. }
  destruct Hin as [-> | Hin].
  - split; lra.
  - destruct (IH Hin) as [H1 H2]. split; lra.
Qed.

(** X18. When the trip has driving hours and no day has negative ones, and
    the distance is not negative, every day's share of the mileage lies
    between 0 and totalMiles, and a day without driving gets 0. *)
Theorem X18_mileage_share_between_0_and_total (plan : TripPlan) (log : LogbookDay) :
  (totalDriveHours plan >? lit 0) = true ->
  Forall (fun l => nonneg (getDrivingHours (segments l))) (logs plan) ->
  (0 <= distance_m plan)%Q ->
  In log (logs plan) ->
  exists m M d,
    perDayMiles plan log = Fin m /\ totalMiles plan = Fin M
    /\ getDrivingHours (segments log) = Fin d
    /\ (0 <= m <= M)%Q /\ ((d == 0)%Q -> (m == 0)%Q).
Proof.
  intros Hpos Hnn Hdist Hin.
  set (g := fun l : LogbookDay => getDrivingHours (segments l)).
  assert (Hg : forall l, finOrNaN (g l)) by (intros l; apply getDrivingHours_cases).
  assert (Etot : totalDriveHours plan
                 = fold_left (fun acc l => acc + g l) (logs plan) (Fin (inject_Z 0)))
    by reflexivity.
  destruct (fold_add_cases g (logs plan) Hg (inject_Z 0)) as [E | (T & E)].
  { rewrite Etot, E in Hpos. discriminate. }
  destruct (@fold_add_Fin _ g (logs plan) Hg _ _ E) as (ds & Hm & HT).
  rewrite <- Etot in E.
  assert (HTpos : (0 < T)%Q).
  { rewrite E in Hpos. unfold Num.gtb, lit in Hpos. cbn [Num.ltb] in Hpos.
    apply Qlt_bool_iff in Hpos. exact Hpos. }
  assert (Hd : exists d, g log = Fin d /\ In d ds).
  { apply (in_map g) in Hin. rewrite Hm in Hin. apply in_map_iff in Hin.
    destruct Hin as (d & Hd & Hind). exists d. auto. }
  destruct Hd as (d & Ed & Hind).
  assert (Hds : Forall (fun q => (0 <= q)%Q) ds).
  { apply Forall_forall. intros q Hq.
    assert (Hq' : In (Fin q) (map g (logs plan))) by (rewrite Hm; apply in_map; exact Hq).
    apply in_map_iff in Hq'. destruct Hq' as (l & El & Hl).
    rewrite Forall_forall in Hnn. specialize (Hnn l Hl).
    fold (g l) in Hnn. rewrite El in Hnn.
    apply nonneg_cases in Hnn. destruct Hnn as [Hn | (q' & Hn & Hq')];
      [discriminate | injection Hn as <-; exact Hq']. }
  destruct (@fold_Qplus_member ds d Hds Hind) as [HdT _].
  change (fold_left Qplus ds 0%Q) with (fold_left Qplus ds (inject_Z 0)) in HdT.
  rewrite <- HT in HdT.
  assert (Hd0 : (0 <= d)%Q) by (rewrite Forall_forall in Hds; apply Hds; exact Hind).
  set (M := (distance_m plan / (160934 # 100))%Q).
  assert (EM : totalMiles plan = Fin M) by reflexivity.
  assert (HM : (0 <= M)%Q) by (subst M; apply Qle_shift_div_l; [reflexivity | lra]).
  exists (d / T * M)%Q, M, d.
  split; [exact (@perDayMiles_share plan log T M d E HTpos EM Ed) |].
  split; [exact EM |]. split; [exact Ed |].
  assert (Hr0 : (0 <= d / T)%Q) by (apply Qle_shift_div_l; lra).
  assert (Hr1 : (d / T <= 1)%Q) by (apply Qle_shift_div_r; lra).
  split; [split |].
  - apply Qmult_le_0_compat; assumption.
  - setoid_replace M with (1 * M)%Q at 2 by ring.
    apply Qmult_le_compat_r; assumption.
  - intros Hz. rewrite Hz. field. lra.
Qed.

(** ** The order of the segments in the input *)

Lemma totalsFinish_SB (active : bool) (sb : Q) (st : LoopState) (d : Q) :
  (0 <= sb <= 24)%Q -> tSB (totals st) = Fin d ->
  exists d',
    tSB (totalsFinish active (Fin sb) st) = Fin d'
    /\ (d' == d + (if active then 24 - sb else 0))%Q.
Proof.
  intros Hsb Ed. unfold totalsFinish, lit. cbn [Num.ltb].
  destruct active.
  - set (t1 := if prevEnd st <? Fin sb
               then addTo (totals st) OFF (Fin sb - prevEnd st)
               else totals st).
    assert (E1 : tSB t1 = Fin d)
      by (subst t1; destruct (prevEnd st <? Fin sb); exact Ed).
    destruct (Num.Qlt_bool sb (inject_Z 24)) eqn:E24;
      [apply Qlt_bool_iff in E24 | apply Qlt_bool_false_iff in E24];
      unfold inject_Z in E24.
    + change (tSB (addTo t1 SB (Fin (inject_Z 24) - Fin sb)))
        with (tSB t1 + (Fin (inject_Z 24) - Fin sb)).
      rewrite E1. eexists. split; [reflexivity |]. unfold inject_Z. lra.
    + exists d. split; [exact E1 | lra].
  - assert (E1 : tSB (if prevEnd st <? Fin (inject_Z 24)
                      then addTo (totals st) OFF (Fin (inject_Z 24) - prevEnd st)
                      else totals st) = Fin d)
      by (destruct (prevEnd st <? Fin (inject_Z 24)); exact Ed).
    exists d. split; [exact E1 | lra].
Qed.

(** The total of a status other than OFF, whatever the order and the
    overlap of the segments: what the segments of that status contribute,
    plus the rest of the day for SB under an active override. *)
Lemma statusTotal_formula (log : LogbookDay) (formData : option LogbookFormData)
    (k : DutyStatus) (sb : Q) :
  k <> OFF -> segments log <> [] ->
  sbTimeHForTotals (formOf formData) = Fin sb ->
  exists q,
    statusTotal (totalsByStatus (Some log) formData) k = Fin q
    /\ (q == sumOver (countedFor (sleeperBerthActiveForTotals (formOf formData)) sb k)
                 (map toHSegment (segments log))
             + (if status_eqb k SB && sleeperBerthActiveForTotals (formOf formData)
                then 24 - sb else 0))%Q.
Proof.
  intros Hk Hne Esb.
  assert (Hr : (0 <= sb <= 24)%Q).
  { destruct (sbTimeHForTotals_cases (formOf formData)) as [E | (sb' & E & Hr)];
      rewrite Esb in E; [discriminate | injection E as <-; exact Hr]. }
  unfold totalsByStatus.
  destruct (segments log) as [| s0 r] eqn:Es; [congruence |].
  rewrite Esb.
  set (active := sleeperBerthActiveForTotals (formOf formData)).
  assert (Hz : statusTotal (totals (mkLoop zeroTotals (lit 0))) k = Fin (inject_Z 0))
    by (destruct k; reflexivity).
  destruct (@totalsLoop_status active sb k
              (sortSegs (map toHSegment (s0 :: r))) Hk (sortSegs_hours (s0 :: r))
              _ _ Hz) as (d' & Ed & Hd).
  rewrite sumOver_sortSegs in Hd. unfold inject_Z in Hd.
  destruct k; try contradiction; cbn [status_eqb andb].
  - cbn [statusTotal] in Ed |- *.
    destruct (totalsFinish_SB active _ Hr Ed) as (d2 & E2 & H2).
    exists d2. split; [exact E2 | lra].
  - rewrite (totalsFinish_status active (Fin sb) _ (or_introl eq_refl)).
    exists d'. split; [exact Ed | lra].
  - rewrite (totalsFinish_status active (Fin sb) _ (or_intror eq_refl)).
    exists d'. split; [exact Ed | lra].
Qed.

Lemma sumOver_Permutation (A : Type) (f : A -> Q) (l l' : list A) :
  Permutation l l' -> (sumOver f l == sumOver f l')%Q.
Proof.
  induction 1 as [| x l l' Hp IH | x y l | l l' l'' H1 IH1 H2 IH2];
    cbn [sumOver fold_right].
  - reflexivity.
  - unfold sumOver in IH. rewrite IH. reflexivity.
  - lra.
  - rewrite IH1. exact IH2.
Qed.

Lemma ForallOrdPairs_Permutation (A : Type) (R : A -> A -> Prop) (l l' : list A) :
  (forall x y, R x y -> R y x) ->
  Permutation l l' -> ForallOrdPairs R l -> ForallOrdPairs R l'.
Proof.
  intros Hsym. induction 1 as [| x l l' Hp IH | x y l | l l' l'' H1 IH1 H2 IH2];
    intros H.
  - exact H.
  - inversion H as [| ? ? Hx Hl]; subst. constructor.
    + exact (Permutation_Forall Hp Hx).
    + apply IH. exact Hl.
  - inversion H as [| ? ? Hy Hl]; subst.
    inversion Hl as [| ? ? Hx Hl']; subst.
    inversion Hy as [| ? ? Hyx Hyl]; subst.
    constructor; [constructor; [apply Hsym; exact Hyx | exact Hx] |].
    constructor; [exact Hyl | exact Hl'].
  - apply IH2, IH1, H.
Qed.

Lemma disjointSegs_sym (a b : Segment) : disjointSegs a b -> disjointSegs b a.
Proof. unfold disjointSegs. intros [H | H]; [right | left]; exact H. Qed.

(** X19. The order in which the plan lists the segments of a day does not
    matter: for a day without overlap and a sleeper-berth time that is a
    number, listing the same segments in another order gives the same four
    totals. *)
Theorem X19_totals_do_not_depend_on_segment_order
    (log log' : LogbookDay) (formData : option LogbookFormData) :
  Permutation (segments log) (segments log') ->
  segments log <> [] ->
  ForallOrdPairs disjointSegs (segments log) ->
  sbTimeHForTotals (formOf formData) <> NaN ->
  let t := totalsByStatus (Some log) formData in
  let t' := totalsByStatus (Some log') formData in
  tOFF t =n= tOFF t' /\ tSB t =n= tSB t' /\ tD t =n= tD t' /\ tON t =n= tON t'.
Proof.
  intros Hp Hne Hdis Hsb t t'. subst t t'.
  assert (Hne' : segments log' <> []).
  { intros E. rewrite E in Hp. apply Permutation_sym, Permutation_nil in Hp. congruence. }
  assert (Hdis' : ForallOrdPairs disjointSegs (segments log'))
    by (exact (ForallOrdPairs_Permutation disjointSegs_sym Hp Hdis)).
  destruct (sbTimeHForTotals_cases (formOf formData)) as [E | (sb & Esb & _)];
    [congruence |].
  assert (Hk : forall k, k <> OFF ->
             exists q q',
               statusTotal (totalsByStatus (Some log) formData) k = Fin q
               /\ statusTotal (totalsByStatus (Some log') formData) k = Fin q'
               /\ (q == q')%Q).
  { intros k Hk.
    destruct (@statusTotal_formula log formData k sb Hk Hne Esb) as (q & Eq & Hq).
    destruct (@statusTotal_formula log' formData k sb Hk Hne' Esb) as (q' & Eq' & Hq').
    exists q, q'. split; [exact Eq |]. split; [exact Eq' |].
    rewrite Hq, Hq'.
    rewrite (sumOver_Permutation _ (Permutation_map toHSegment Hp)). reflexivity. }
  destruct (Hk SB ltac:(discriminate)) as (s & s' & Es & Es' & Hs).
  destruct (Hk D ltac:(discriminate)) as (d & d' & Ed & Ed' & Hd).
  destruct (Hk ON ltac:(discriminate)) as (n & n' & En & En' & Hn).
  destruct (@totalsByStatus_sumsTo_24 log formData Hne Hdis Hsb)
    as (o1 & s1 & d1 & n1 & E1 & H1).
  destruct (@totalsByStatus_sumsTo_24 log' formData Hne' Hdis' Hsb)
    as (o2 & s2 & d2 & n2 & E2 & H2).
  rewrite E1 in Es, Ed, En |- *. rewrite E2 in Es', Ed', En' |- *.
  cbn [statusTotal tOFF tSB tD tON] in *.
  injection Es as <-. injection Ed as <-. injection En as <-.
  injection Es' as <-. injection Ed' as <-. injection En' as <-.
  cbn [Num.eq]. repeat split; lra.
Qed.

(** ** The OFF-duty line before the first segment *)

Lemma orZero_Fin (a : Q) : exists a', orZero (Fin a) = Fin a' /\ (a' == a)%Q.
Proof.
  cbn [orZero]. destruct (Qeq_bool a 0) eqn:E.
  - apply Qeq_bool_iff in E. exists (inject_Z 0). split; [reflexivity |].
    rewrite E. reflexivity.
  - exists a. split; reflexivity.
Qed.

Lemma start_orZero (s : Segment) :
  exists a a',
    isoToHoursSinceMidnight (start_iso s) = Fin a
    /\ orZero (isoToHoursSinceMidnight (start_iso s)) = Fin a' /\ (a' == a)%Q.
Proof.
  destruct (isoToHoursSinceMidnight_finite (start_iso s)) as [a Ea].
  destruct (orZero_Fin a) as (a' & Ea' & Ha).
  exists a, a'. rewrite Ea. auto.
Qed.

(** The loop ends on the earliest start, and on a segment that has it. *)
Lemma firstLoop_min (segs : list Segment) :
  forall (fs : Segment) (f0 : Q),
    exists fs' f',
      fold_left firstStep segs (fs, Fin f0) = (fs', Fin f')
      /\ (f' <= f0)%Q
      /\ (forall s, In s segs ->
            exists a, isoToHoursSinceMidnight (start_iso s) = Fin a /\ (f' <= a)%Q)
      /\ ((fs' = fs /\ f' = f0)
          \/ (In fs' segs
              /\ exists a, isoToHoursSinceMidnight (start_iso fs') = Fin a /\ (f' == a)%Q)).
Proof.
  induction segs as [| x r IH]; intros fs f0; cbn [fold_left].
  - exists fs, f0. split; [reflexivity |]. split; [apply Qle_refl |].
    split; [intros s [] | left; auto].
  - destruct (start_orZero x) as (a & a' & Ea & Ea' & Ha).
    unfold firstStep at 2. cbv zeta. cbn [snd]. rewrite Ea'. cbn [Num.ltb].
    destruct (Num.Qlt_bool a' f0) eqn:E;
      [apply Qlt_bool_iff in E | apply Qlt_bool_false_iff in E].
    + destruct (IH x a') as (fs' & f' & Ef & Hle & Hall & Hwho).
      exists fs', f'. split; [exact Ef |]. split; [lra |]. split.
      * intros s [<- | Hs]; [exists a; split; [exact Ea | lra] | apply Hall; exact Hs].
      * right. destruct Hwho as [[-> ->] | (Hin & b & Eb & Hb)].
        -- split; [left; reflexivity | exists a; split; [exact Ea | exact Ha]].
        -- split; [right; exact Hin | exists b; auto].
    + destruct (IH fs f0) as (fs' & f' & Ef & Hle & Hall & Hwho).
      exists fs', f'. split; [exact Ef |]. split; [exact Hle |]. split.
      * intros s [<- | Hs]; [exists a; split; [exact Ea | lra] | apply Hall; exact Hs].
      * destruct Hwho as [[-> ->] | (Hin & b & Eb & Hb)]; [left; auto |].
        right. split; [right; exact Hin | exists b; auto].
Qed.

(** X20. The OFF-duty line drawn before the first segment starts at hour 0
    and ends at an hour c with 0 < c <= 24 that is no later than the start of
    any segment of the day. Its connector, when drawn, is the vertical line
    at c from the OFF row to the row of a segment of the day whose start is
    the earliest of all. *)
Theorem X20_leading_off_line_ends_before_every_segment
    (form : LogbookFormData) (segs : list Segment) (lo : LeadingOff) :
  leadingOff form segs = Some lo ->
  exists c : Q,
    offLine lo = mkLine (Fin Geometry.dutyGridX) (Fin (rowCenter OFF))
                        (Fin (Geometry.dutyGridX + c * Geometry.dutyHourW))
                        (Fin (rowCenter OFF))
    /\ (0 < c <= 24)%Q
    /\ (forall s, In s segs ->
          exists a, isoToHoursSinceMidnight (start_iso s) = Fin a /\ (c <= a)%Q)
    /\ (forall conn, offConnector lo = Some conn ->
          exists s a,
            In s segs
            /\ isoToHoursSinceMidnight (start_iso s) = Fin a
            /\ (forall s', In s' segs ->
                  exists a', isoToHoursSinceMidnight (start_iso s') = Fin a'
                             /\ (a <= a')%Q)
            /\ conn = mkLine (Fin (Geometry.dutyGridX + c * Geometry.dutyHourW))
                             (Fin (rowCenter OFF))
                             (Fin (Geometry.dutyGridX + c * Geometry.dutyHourW))
                             (Fin (rowCenter (status s)))).
Proof.
  unfold leadingOff. destruct segs as [| s0 r]; [discriminate |].
  destruct (start_orZero s0) as (a0 & a0' & Ea0 & Ea0' & Ha0). rewrite Ea0'.
  destruct (firstLoop_min (s0 :: r) s0 a0') as (fs & f & Ef & Hle & Hall & Hwho).
  rewrite Ef. cbv zeta. cbn [fst snd].
  set (drawConnector := negb (sleeperBerthActive form) || (Fin f <=? sbTimeH form)).
  assert (Hfs : In fs (s0 :: r)
                /\ exists a, isoToHoursSinceMidnight (start_iso fs) = Fin a /\ (f == a)%Q).
  { destruct Hwho as [[-> ->] | H]; [| exact H].
    split; [left; reflexivity | exists a0; split; [exact Ea0 | exact Ha0]]. }
  destruct Hfs as (Hfin & af & Eaf & Haf).
  unfold Num.gtb at 1. unfold lit at 1. cbn [Num.ltb].
  destruct (Num.Qlt_bool (inject_Z 0) f) eqn:Epos; cbn [negb]; [| discriminate].
  apply Qlt_bool_iff in Epos. unfold inject_Z in Epos.
  assert (Hcap : exists cap,
             (if sleeperBerthActive form && (Fin f >? sbTimeH form)
              then sbTimeH form else Fin f) = Fin cap
             /\ (cap <= f)%Q).
  { destruct (sleeperBerthActive form); cbn [andb];
      [| exists f; split; [reflexivity | apply Qle_refl]].
    destruct (sbTimeH_cases form) as [E | (sb & E & _)]; rewrite E.
    - exists f. split; [reflexivity | apply Qle_refl].
    - unfold Num.gtb. cbn [Num.ltb].
      destruct (Num.Qlt_bool sb f) eqn:E1.
      + apply Qlt_bool_iff in E1. exists sb. split; [reflexivity | lra].
      + exists f. split; [reflexivity | apply Qle_refl]. }
  destruct Hcap as (cap & Ecap & Hcap). rewrite Ecap, clamp_Fin.
  pose proof (clampQ_range cap) as Rc.
  assert (Hc : (0 <= cap -> clampQ cap <= cap)%Q).
  { intros H0. unfold clampQ, inject_Z. qcases; lra. }
  assert (Hc' : (cap < 0 -> clampQ cap == 0)%Q).
  { intros H0. unfold clampQ, inject_Z. qcases; lra. }
  revert Rc Hc Hc'. generalize (clampQ cap). intros c Rc Hc Hc'.
  unfold lit at 1. cbn [Num.leb].
  destruct (Qle_bool c (inject_Z 0)) eqn:Ec; [discriminate |].
  apply Qle_bool_false_iff in Ec. unfold inject_Z in Ec.
  intros H. injection H as <-. cbn [offLine offConnector].
  assert (Hcf : (c <= f)%Q).
  { destruct (Qlt_le_dec cap 0) as [Hn | Hn]; [rewrite (Hc' Hn) in Ec; lra |].
    specialize (Hc Hn). lra. }
  exists c. split; [reflexivity |]. split; [lra |]. split.
  - intros s Hs. destruct (Hall s Hs) as (a & Ea & Hfa).
    exists a. split; [exact Ea | lra].
  - intros conn Hconn.
    destruct drawConnector; [| discriminate].
    injection Hconn as <-.
    exists fs, af. split; [exact Hfin |]. split; [exact Eaf |]. split.
    + intros s' Hs'. destruct (Hall s' Hs') as (a' & Ea' & Hfa').
      exists a'. split; [exact Ea' | lra].
    + reflexivity.
Qed.

(** ** The end-of-day lines *)

Lemma end_orZero (s : Segment) :
  exists e e',
    isoToHoursSinceMidnight (end_iso s) = Fin e
    /\ orZero (isoToHoursSinceMidnight (end_iso s)) = Fin e' /\ (e' == e)%Q.
Proof.
  destruct (isoToHoursSinceMidnight_finite (end_iso s)) as [e Ee].
  destruct (orZero_Fin e) as (e' & Ee' & He).
  exists e, e'. rewrite Ee. auto.
Qed.

(** The loop ends on the latest end, and on a segment that has it. *)
Lemma lastLoop_max (segs : list Segment) :
  forall (ls : Segment) (l0 : Q),
    exists ls' l',
      fold_left lastStep segs (ls, Fin l0) = (ls', Fin l')
      /\ (l0 <= l')%Q
      /\ (forall s, In s segs ->
            exists e, isoToHoursSinceMidnight (end_iso s) = Fin e /\ (e <= l')%Q)
      /\ ((ls' = ls /\ l' = l0)
          \/ (In ls' segs
              /\ exists e, isoToHoursSinceMidnight (end_iso ls') = Fin e /\ (l' == e)%Q)).
Proof.
  induction segs as [| x r IH]; intros ls l0; cbn [fold_left].
  - exists ls, l0. split; [reflexivity |]. split; [apply Qle_refl |].
    split; [intros s [] | left; auto].
  - destruct (end_orZero x) as (e & e' & Ee & Ee' & He).
    unfold lastStep at 2. cbv zeta. cbn [snd]. rewrite Ee'.
    unfold Num.gtb. cbn [Num.ltb].
    destruct (Num.Qlt_bool l0 e') eqn:E;
      [apply Qlt_bool_iff in E | apply Qlt_bool_false_iff in E].
    + destruct (IH x e') as (ls' & l' & Ef & Hle & Hall & Hwho).
      exists ls', l'. split; [exact Ef |]. split; [lra |]. split.
      * intros s [<- | Hs]; [exists e; split; [exact Ee | lra] | apply Hall; exact Hs].
      * right. destruct Hwho as [[-> ->] | (Hin & b & Eb & Hb)].
        -- split; [left; reflexivity | exists e; split; [exact Ee | exact He]].
        -- split; [right; exact Hin | exists b; auto].
    + destruct (IH ls l0) as (ls' & l' & Ef & Hle & Hall & Hwho).
      exists ls', l'. split; [exact Ef |]. split; [exact Hle |]. split.
      * intros s [<- | Hs]; [exists e; split; [exact Ee | lra] | apply Hall; exact Hs].
      * destruct Hwho as [[-> ->] | (Hin & b & Eb & Hb)]; [left; auto |].
        right. split; [right; exact Hin | exists b; auto].
Qed.

(** What [endOfDay] draws, in terms of the hour [c] of the latest end. *)
Lemma endOfDay_shape (form : LogbookFormData) (segs : list Segment) (eo : EndOfDay) :
  endOfDay form segs = Some eo ->
  exists (c : Q) (ls : Segment) (e : Q),
    (0 < c < 24)%Q
    /\ (forall s, In s segs ->
          exists e', isoToHoursSinceMidnight (end_iso s) = Fin e' /\ (e' <= c)%Q)
    /\ In ls segs /\ isoToHoursSinceMidnight (end_iso ls) = Fin e /\ (e == c)%Q
    /\ toOffLine eo
       = match status ls with
         | OFF => None
         | _ => Some (mkLine (Fin (Geometry.dutyGridX + c * Geometry.dutyHourW))
                             (Fin (rowCenter (status ls)))
                             (Fin (Geometry.dutyGridX + c * Geometry.dutyHourW))
                             (Fin (rowCenter OFF)))
         end
    /\ ((sbLine eo = None
         /\ offToMidnight eo
            = Some (mkLine (Fin (Geometry.dutyGridX + c * Geometry.dutyHourW))
                           (Fin (rowCenter OFF))
                           (Fin (Geometry.dutyGridX + inject_Z 24 * Geometry.dutyHourW))
                           (Fin (rowCenter OFF))))
        \/ (exists sb,
               sleeperBerthActive form = true /\ sbTimeH form = Fin sb
               /\ (0 < sb < 24)%Q
               /\ offToMidnight eo = None
               /\ sbLine eo
                  = Some (mkLine (Fin (Geometry.dutyGridX + sb * Geometry.dutyHourW))
                                 (Fin (rowCenter SB))
                                 (Fin (Geometry.dutyGridX
                                       + inject_Z 24 * Geometry.dutyHourW))
                                 (Fin (rowCenter SB))))).
Proof.
  unfold endOfDay. destruct segs as [| s0 r]; [discriminate |].
  destruct (end_orZero s0) as (e0 & e0' & Ee0 & Ee0' & He0). rewrite Ee0'.
  destruct (lastLoop_max (s0 :: r) s0 e0') as (ls & l & Ef & Hle & Hall & Hwho).
  rewrite Ef. cbv zeta. cbn [fst snd].
  assert (Hls : In ls (s0 :: r)
                /\ exists e, isoToHoursSinceMidnight (end_iso ls) = Fin e /\ (l == e)%Q).
  { destruct Hwho as [[-> ->] | H]; [| exact H].
    split; [left; reflexivity | exists e0; split; [exact Ee0 | exact He0]]. }
  destruct Hls as (Hlin & el & Eel & Hel).
  set (sleeper := sleeperBerthActive form && (sbTimeH form >? lit 0)
                  && (sbTimeH form <? lit 24)).
  set (toSb := sleeper && (Fin l <? sbTimeH form)).
  unfold Num.gtb at 1. unfold lit at 1 2. cbn [Num.ltb].
  destruct (Num.Qlt_bool l (inject_Z 24)) eqn:E24; cbn [andb negb]; [| discriminate].
  destruct (Num.Qlt_bool (inject_Z 0) l) eqn:E0; cbn [negb]; [| discriminate].
  apply Qlt_bool_iff in E24, E0. unfold inject_Z in E24, E0.
  rewrite clamp_Fin.
  assert (Hc : (clampQ l == l)%Q) by (apply clampQ_id; lra).
  revert Hc. generalize (clampQ l). intros c Hc.
  unfold Num.geb. unfold lit at 1 2. cbn [Num.leb].
  destruct (Qle_bool c (inject_Z 0)) eqn:Ec0; [discriminate |].
  destruct (Qle_bool (inject_Z 24) c) eqn:Ec24; [discriminate |].
  cbn [orb]. intros H. injection H as <-.
  cbn [toOffLine sbLine offToMidnight].
  exists c, ls, el. split; [lra |]. split.
  { intros s Hs. destruct (Hall s Hs) as (e' & Ee' & He').
    exists e'. split; [exact Ee' | lra]. }
  split; [exact Hlin |]. split; [exact Eel |]. split; [lra |]. split.
  { destruct (status ls); reflexivity. }
  destruct sleeper eqn:Esl.
  - right. subst sleeper.
    apply andb_true_iff in Esl. destruct Esl as [Esl E2].
    apply andb_true_iff in Esl. destruct Esl as [Eact E1].
    destruct (sbTimeH_cases form) as [E | (sb & E & Hr)]; rewrite E in E1, E2;
      [discriminate |].
    unfold Num.gtb, lit in E1, E2. cbn [Num.ltb] in E1, E2.
    apply Qlt_bool_iff in E1, E2. unfold inject_Z in E1, E2.
    exists sb. split; [exact Eact |]. split; [exact E |]. split; [lra |].
    split; [reflexivity |]. rewrite E. reflexivity.
  - left. split; reflexivity.
Qed.

(** X21. The end-of-day lines are drawn only when the latest end c of the
    segments lies strictly between hour 0 and hour 24; no segment ends after
    c; the vertical back to the OFF row is drawn at c from the row of a
    segment ending at c unless that segment is OFF; and the day is closed up
    to hour 24 by exactly one line: the OFF line from c, or, with an active
    sleeper-berth time strictly between 0 and 24, the SB line from that
    time. *)
Theorem X21_end_of_day_lines_close_the_day
    (form : LogbookFormData) (segs : list Segment) (eo : EndOfDay) :
  endOfDay form segs = Some eo ->
  exists (c : Q) (ls : Segment) (e : Q),
    (0 < c < 24)%Q
    /\ (forall s, In s segs ->
          exists e', isoToHoursSinceMidnight (end_iso s) = Fin e' /\ (e' <= c)%Q)
    /\ In ls segs /\ isoToHoursSinceMidnight (end_iso ls) = Fin e /\ (e == c)%Q
    /\ toOffLine eo
       = match status ls with
         | OFF => None
         | _ => Some (mkLine (Fin (Geometry.dutyGridX + c * Geometry.dutyHourW))
                             (Fin (rowCenter (status ls)))
                             (Fin (Geometry.dutyGridX + c * Geometry.dutyHourW))
                             (Fin (rowCenter OFF)))
         end
    /\ ((sbLine eo = None
         /\ offToMidnight eo
            = Some (mkLine (Fin (Geometry.dutyGridX + c * Geometry.dutyHourW))
                           (Fin (rowCenter OFF))
                           (Fin (Geometry.dutyGridX + inject_Z 24 * Geometry.dutyHourW))
                           (Fin (rowCenter OFF))))
        \/ (exists sb,
               sleeperBerthActive form = true /\ sbTimeH form = Fin sb
               /\ (0 < sb < 24)%Q
               /\ offToMidnight eo = None
               /\ sbLine eo
                  = Some (mkLine (Fin (Geometry.dutyGridX + sb * Geometry.dutyHourW))
                                 (Fin (rowCenter SB))
                                 (Fin (Geometry.dutyGridX
                                       + inject_Z 24 * Geometry.dutyHourW))
                                 (Fin (rowCenter SB))))).
Proof.
  apply endOfDay_shape.
Qed.


(** ** Two things the overlay never draws *)


(** X24. With an active sleeper-berth time that is a number, no segment is
    drawn past it: every drawn line ends at or before the sleeper-berth
    hour. *)
Theorem X24_no_segment_drawn_past_sleeper_time
    (form : LogbookFormData) (s : Segment) (line : Line) (sb : Q) :
  sleeperBerthActive form = true ->
  sbTimeH form = Fin sb ->
  segmentLine form s = Some line ->
  exists xb : Q,
    x2 line = Fin xb
    /\ (xb <= Geometry.dutyGridX + sb * Geometry.dutyHourW)%Q.
Proof.
  intros Hact Esb.
  assert (Hr : (0 <= sb <= 24)%Q).
  { destruct (sbTimeH_cases form) as [E | (sb' & E & Hr)];
      rewrite Esb in E; [discriminate | injection E as <-; exact Hr]. }
  unfold segmentLine. cbv zeta.
  destruct (isoToHoursSinceMidnight_finite (start_iso s)) as [a Ea].
  destruct (isoToHoursSinceMidnight_finite (end_iso s)) as [e Ee].
  rewrite Ea, Ee, Hact, Esb. cbn [andb]. unfold Num.gtb. cbn [Num.ltb].
  assert (He : exists e',
             (if Num.Qlt_bool sb e then Fin sb else Fin e) = Fin e' /\ (e' <= sb)%Q).
  { destruct (Num.Qlt_bool sb e) eqn:E1.
    - exists sb. split; [reflexivity | apply Qle_refl].
    - apply Qlt_bool_false_iff in E1. exists e. split; [reflexivity | exact E1]. }
  destruct He as (e' & Ee' & Hle). rewrite Ee', !clamp_Fin.
  pose proof (clampQ_mono Hle) as Hm. rewrite (clampQ_id Hr) in Hm.
  revert Hm. generalize (clampQ e') (clampQ a). intros ce ca Hm.
  destruct ((Fin ce <=? lit 0) || (Fin ca >=? lit 24) || (Fin ce <=? Fin ca));
    [discriminate |].
  intros H. injection H as <-. cbn [x2].
  exists (Geometry.dutyGridX + ce * Geometry.dutyHourW)%Q.
  split; [reflexivity |]. rewrite dutyHourW_value. lra.
Qed.

End Logbook.

(** ** The claims on concrete inputs *)

(** The scenario day without override: OFF = 16.5, SB = 0, D = 6.5, ON = 1. *)
Example scenario_day_totals :
  let t := totalsByStatus Number_digits Date_example (Some scenarioDay) None in
  tOFF t =n= Fin (33 # 2) /\ tSB t =n= lit 0 /\ tD t =n= Fin (13 # 2) /\ tON t =n= lit 1.
Proof.
  vm_compute. repeat split; reflexivity.
Qed.

(** Eight days of eight hours, asked for the last day: A = 56, B = 14 and
    C = 64 for the 70-hour cycle. *)
Example scenario_recap_eight_days :
  let r := getRecapForDay eightDays 7 in
  seventyA r = lit 56 /\ seventyB r = lit 14 /\ seventyC r = lit 64.
Proof.
  vm_compute. repeat split; reflexivity.
Qed.



(** On the empty day OFF is 0, not 24. *)
Lemma C3_counterexample_empty_day_off_is_zero :
  tOFF (totalsByStatus Number_digits Date_example (Some emptyDay) None) = lit 0
  /\ ~ (tOFF (totalsByStatus Number_digits Date_example (Some emptyDay) None) =n= lit 24).
Proof.
  split; [reflexivity |]. vm_compute. discriminate.
Qed.

Lemma C3_witness :
  totalsByStatus Number_digits Date_example (Some emptyDay) (Some (sleeperForm "20:00"))
  = mkTotals (lit 0) (lit 0) (lit 0) (lit 0)
  /\ totalHoursSum (totalsByStatus Number_digits Date_example (Some emptyDay)
                      (Some (sleeperForm "20:00"))) =n= lit 0.
Proof.
  apply (@C3_empty_day_totals_zero Number_digits Date_example emptyDay
           (Some (sleeperForm "20:00"))).
  reflexivity.
Defined.

Lemma C4_witness :
  let t := totalsByStatus Number_digits Date_example (Some drivingDay)
             (Some (sleeperForm "20:00")) in
  tOFF t =n= lit 12 /\ tD t =n= lit 8 /\ tSB t =n= lit 4 /\ tON t =n= lit 0.
Proof.
  apply (@C4_sleeper_berth_truncation Number_digits Date_example drivingDay
           (mkSegment D "2024-03-01T07:00:00" "2024-03-01T15:00:00")).
  - reflexivity.
  - reflexivity.
  - vm_compute. reflexivity.
  - vm_compute. reflexivity.
  - reflexivity.
  - reflexivity.
Defined.

(** With the override chosen and the time left empty, the day that drives
    from 07:00 to 15:00 keeps OFF = 16 and D = 8 and has SB = 0, while the
    override at "00:00" makes SB = 24. *)
Lemma C7_counterexample_empty_time_is_not_midnight :
  let blank := totalsByStatus Number_digits Date_example (Some drivingDay)
                 (Some (sleeperForm "")) in
  let midnight := totalsByStatus Number_digits Date_example (Some drivingDay)
                    (Some (sleeperForm "00:00")) in
  (tOFF blank =n= lit 16 /\ tSB blank =n= lit 0 /\ tD blank =n= lit 8)
  /\ tSB midnight =n= lit 24
  /\ ~ (tSB blank =n= tSB midnight).
Proof.
  vm_compute. repeat split; try reflexivity. discriminate.
Qed.

Lemma C7_witness :
  (sleeperBerthActiveForTotals (sleeperForm "  ") = false
   /\ totalsByStatus Number_digits Date_example (Some drivingDay) (Some (sleeperForm "  "))
      = totalsByStatus Number_digits Date_example (Some drivingDay) None)
  /\ (sleeperBerthActiveForTotals (sleeperForm "ab:cd") = true
      /\ sbTimeHForTotals Number_digits (sleeperForm "ab:cd") =n= lit 0
      /\ let tot := totalsByStatus Number_digits Date_example (Some drivingDay)
                      (Some (sleeperForm "ab:cd")) in
         tOFF tot =n= lit 0 /\ tSB tot =n= lit 24
         /\ tD tot =n= lit 0 /\ tON tot =n= lit 0).
Proof.
  split.
  - apply (proj1 (C7_blank_time_inactive_unparsable_time_midnight
                    Number_digits Date_example)).
    reflexivity.
  - apply (proj2 (C7_blank_time_inactive_unparsable_time_midnight
                    Number_digits Date_example)
             drivingDay "ab:cd"%string "ab"%string "cd"%string []).
    + discriminate.
    + reflexivity.
    + reflexivity.
    + reflexivity.
Defined.

Lemma C8_witness :
  exists a e,
    isoToHoursSinceMidnight Date_example "2024-03-01T08:00:00" = Fin a
    /\ isoToHoursSinceMidnight Date_example "2024-03-01T08:00:00" = Fin e
    /\ (forall line,
           nth_error (connectors Date_example (segments scenarioDay)) 1
           = Some (Some line) -> (Qabs (a - e) <= eps)%Q)
    /\ ((eps < Qabs (a - e))%Q ->
        nth_error (connectors Date_example (segments scenarioDay)) 1 = Some None).
Proof.
  apply (@C8_connector_only_when_times_meet Date_example (segments scenarioDay) 0
           (mkSegment ON "2024-03-01T07:00:00" "2024-03-01T08:00:00")
           (mkSegment D "2024-03-01T08:00:00" "2024-03-01T12:00:00")).
  - reflexivity.
  - reflexivity.
Defined.

Lemma C2_witness :
  let r := getRecapForDay eightDays 7 in
  nth_error eightDays (Z.to_nat 7) = Some (onDutyToday r)
  /\ seventyA r = specWindowSum eightDays (Z.max 0 (7 - 6)) 7
  /\ seventyC r = specWindowSum eightDays (Z.max 0 (7 - 7)) 7
  /\ sixtyA r = specWindowSum eightDays (Z.max 0 (7 - 4)) 7
  /\ sixtyC r = specWindowSum eightDays (Z.max 0 (7 - 6)) 7
  /\ seventyB r = Num.max (lit 0) (Num.sub (lit 70) (seventyA r))
  /\ sixtyB r = Num.max (lit 0) (Num.sub (lit 60) (sixtyA r)).
Proof.
  apply (@C2_recap_window_sums eightDays 7).
  simpl. lia.
Defined.

(** A negative entry comes back as onDutyToday and as the sums. *)
Lemma C9_counterexample_negative_hours :
  onDutyToday (getRecapForDay [lit (-1)] 0) = lit (-1)
  /\ (Num.geb (onDutyToday (getRecapForDay [lit (-1)] 0)) (lit 0)) = false
  /\ (Num.geb (seventyA (getRecapForDay [lit (-1)] 0)) (lit 0)) = false.
Proof.
  repeat split; vm_compute; reflexivity.
Qed.

Lemma C9_witness :
  let r := getRecapForDay eightDays 7 in
  nonneg (onDutyToday r)
  /\ nonneg (seventyA r) /\ nonneg (seventyB r) /\ nonneg (seventyC r)
  /\ nonneg (sixtyA r) /\ nonneg (sixtyB r) /\ nonneg (sixtyC r).
Proof.
  apply (@C9_recap_nonneg_on_nonneg_hours eightDays 7).
  repeat constructor.
Defined.


Lemma C6_witness :
  perDayMiles Date_example noDrivingPlan
    (mkLogbookDay "2024-03-01"
       [mkSegment ON "2024-03-01T08:00:00Z" "2024-03-01T10:00:00Z"])
  = totalMiles noDrivingPlan
  /\ exists M, totalMiles noDrivingPlan = Fin M.
Proof.
  apply (@C6_zero_driving_full_miles Date_example noDrivingPlan).
  vm_compute. reflexivity.
Defined.

(** ** Further properties on concrete inputs *)

Lemma X1_witness :
  isoToHoursSinceMidnight Date_example "2024-03-01T07:30:15+05:00"
  = Num.add (Num.add (lit (twoDigits "0" "7"))
                     (Num.div (lit (twoDigits "3" "0")) (lit 60)))
            (Num.div (lit (twoDigits "1" "5")) (lit 3600)).
Proof.
  apply (@X1_iso_reads_clock_as_written Date_example "2024-03-01" "+05:00"
           "0" "7" "3" "0" "1" "5"); reflexivity.
Defined.

Lemma X2_witness :
  exists q, isoToHoursSinceMidnight Date_example "2024-03-02T07:00:00Z" = Fin q
            /\ (0 <= q)%Q.
Proof.
  apply (@X2_iso_finite_and_nonneg Date_example "2024-03-02T07:00:00Z").
  intros s d. unfold Date_example.
  repeat (destruct (String.eqb s _);
          [intros H; injection H as <-; simpl; lia |]).
  discriminate.
Defined.

Lemma X3_witness :
  exists line,
    segmentLine Number_digits Date_example (sleeperForm "20:00")
      (mkSegment D "2024-03-01T07:00:00" "2024-03-01T15:00:00") = Some line
    /\ exists xa xb y : Q,
         line = mkLine (Fin xa) (Fin y) (Fin xb) (Fin y)
         /\ (Geometry.dutyGridX <= xa)%Q /\ (xa < xb)%Q
         /\ (xb <= Geometry.dutyGridX + Geometry.dutyGridW)%Q
         /\ (y == Geometry.gridBodyY
                  + (inject_Z (statusToRowIndex D) + (1 # 2)) * Geometry.rowH)%Q
         /\ (Geometry.gridBodyY < y < Geometry.gridBodyY + 4 * Geometry.rowH)%Q.
Proof.
  eexists. split; [vm_compute; reflexivity |].
  apply (@X3_segment_line_inside_grid Number_digits Date_example (sleeperForm "20:00")
           (mkSegment D "2024-03-01T07:00:00" "2024-03-01T15:00:00")).
  vm_compute. reflexivity.
Defined.


Lemma X5_witness :
  exists a e,
    isoToHoursSinceMidnight Date_example "2024-03-01T08:00:00" = Fin a
    /\ isoToHoursSinceMidnight Date_example "2024-03-01T08:00:00" = Fin e
    /\ ((exists line,
            nth_error (connectors Date_example (segments scenarioDay)) 1
            = Some (Some line))
        <-> (Qabs (a - e) <= eps /\ 0 < a /\ a < 24)%Q)
    /\ (forall line,
           nth_error (connectors Date_example (segments scenarioDay)) 1
           = Some (Some line) ->
           exists x,
             line = mkLine (Fin x) (Fin (rowCenter ON)) (Fin x) (Fin (rowCenter D))
             /\ (x == Geometry.dutyGridX + a * Geometry.dutyHourW)%Q
             /\ (Geometry.dutyGridX < x < Geometry.dutyGridX + Geometry.dutyGridW)%Q).
Proof.
  apply (@X5_connector_drawn_iff_times_meet_inside_day Date_example
           (segments scenarioDay) 0
           (mkSegment ON "2024-03-01T07:00:00" "2024-03-01T08:00:00")
           (mkSegment D "2024-03-01T08:00:00" "2024-03-01T12:00:00"));
    reflexivity.
Defined.

Lemma X6_witness :
  sbTimeHForTotals Number_digits (sleeperForm "24:00") = lit 24
  /\ totalsByStatus Number_digits Date_example (Some scenarioDay)
       (Some (sleeperForm "24:00"))
     = totalsByStatus Number_digits Date_example (Some scenarioDay) None.
Proof.
  apply (@X6_override_at_end_of_day_changes_nothing Number_digits Date_example
           (Some scenarioDay) "24:00" "24" "00" [] (inject_Z 24) (inject_Z 0)).
  - reflexivity.
  - reflexivity.
  - reflexivity.
  - vm_compute. discriminate.
Defined.

Lemma X7_witness :
  exists o s d n,
    totalsByStatus Number_digits Date_example (Some scenarioDay)
      (Some (sleeperForm "20:00"))
    = mkTotals (Fin o) (Fin s) (Fin d) (Fin n)
    /\ (0 <= o <= 24)%Q /\ (0 <= s <= 24)%Q /\ (0 <= d <= 24)%Q /\ (0 <= n <= 24)%Q.
Proof.
  apply (@X7_each_total_between_0_and_24 Number_digits Date_example scenarioDay
           (Some (sleeperForm "20:00"))).
  - discriminate.
  - repeat constructor; left; vm_compute; reflexivity.
  - vm_compute. discriminate.
Defined.

Lemma X8_witness :
  tSB (totalsByStatus Number_digits Date_example (Some drivingDay)
         (Some (sleeperForm "20:00")))
  =n= Fin (24 - (1200 # 60)).
Proof.
  apply (@X8_sleeper_berth_total_is_rest_of_day Number_digits Date_example drivingDay
           (Some (sleeperForm "20:00")) (1200 # 60)).
  - discriminate.
  - reflexivity.
  - vm_compute. reflexivity.
  - repeat constructor. discriminate.
Defined.


Lemma X10_witness :
  let r := getRecapForDay (map Fin eightHours) 7 in
  exists t a5 a7 c8,
    onDutyToday r = Fin t /\ sixtyA r = Fin a5 /\ seventyA r = Fin a7
    /\ sixtyC r = Fin a7 /\ seventyC r = Fin c8
    /\ (0 <= t)%Q /\ (t <= a5)%Q /\ (a5 <= a7)%Q /\ (a7 <= c8)%Q.
Proof.
  apply (@X10_longer_window_holds_more_hours eightHours 7).
  - repeat constructor; vm_compute; discriminate.
  - simpl. lia.
Defined.


Lemma X13_witness :
  nth_error (recapValuesAll Date_example twoDayPlan) 1
  = Some (getRecapForDay (hoursByDayOf Date_example twoDayPlan) (Z.of_nat 1))
  /\ onDutyToday (getRecapForDay (hoursByDayOf Date_example twoDayPlan) (Z.of_nat 1))
     = getDrivingPlusOnDutyHours Date_example
         [mkSegment D "2024-03-02T07:00:00Z" "2024-03-02T15:00:00Z"].
Proof.
  apply (proj2 (X13_recap_of_each_day_of_the_plan Date_example twoDayPlan) 1%nat
           (mkLogbookDay "2024-03-02"
              [mkSegment D "2024-03-02T07:00:00Z" "2024-03-02T15:00:00Z"])).
  reflexivity.
Defined.

Lemma X15_witness :
  exists d t,
    getDrivingHours Date_example
      [mkSegment D "2024-03-02T07:00:00Z" "2024-03-02T15:00:00Z";
       mkSegment ON "2024-03-01T08:00:00Z" "2024-03-01T10:00:00Z"] = Fin d
    /\ getDrivingPlusOnDutyHours Date_example
         [mkSegment D "2024-03-02T07:00:00Z" "2024-03-02T15:00:00Z";
          mkSegment ON "2024-03-01T08:00:00Z" "2024-03-01T10:00:00Z"] = Fin t
    /\ (0 <= d <= t)%Q.
Proof.
  apply (@X15_driving_within_on_duty_hours Date_example).
  repeat constructor; intros _; do 2 eexists;
    (split; [reflexivity |]); (split; [reflexivity |]); simpl; lia.
Defined.

Lemma X16_witness :
  let r := getRecapForDay (hoursByDayOf Date_example twoDayPlan) 1 in
  nonneg (onDutyToday r)
  /\ nonneg (seventyA r) /\ nonneg (seventyB r) /\ nonneg (seventyC r)
  /\ nonneg (sixtyA r) /\ nonneg (sixtyB r) /\ nonneg (sixtyC r).
Proof.
  cbv zeta.
  refine (@X16_recap_values_of_a_chronological_plan_nonneg Date_example twoDayPlan
            _ 1%nat _ _).
  - repeat constructor; intros _; do 2 eexists;
      (split; [reflexivity |]); (split; [reflexivity |]); simpl; lia.
  - reflexivity.
Defined.

Lemma X17_witness :
  getDrivingHours Date_example
    [mkSegment D "seven o'clock" "2024-03-02T15:00:00Z"] = NaN
  /\ totalDriveHours Date_example badDatePlan = NaN
  /\ forall log', perDayMiles Date_example badDatePlan log' = totalMiles badDatePlan.
Proof.
  apply (@X17_invalid_date_gives_every_day_full_miles Date_example badDatePlan
           (mkLogbookDay "2024-03-02"
              [mkSegment D "seven o'clock" "2024-03-02T15:00:00Z"])
           (mkSegment D "seven o'clock" "2024-03-02T15:00:00Z")).
  - right. left. reflexivity.
  - left. reflexivity.
  - reflexivity.
  - left. reflexivity.
Defined.

Lemma X18_witness :
  exists m M d,
    perDayMiles Date_example twoDayPlan
      (mkLogbookDay "2024-03-01"
         [mkSegment D "2024-03-01T08:00:00Z" "2024-03-01T10:00:00Z"]) = Fin m
    /\ totalMiles twoDayPlan = Fin M
    /\ getDrivingHours Date_example
         [mkSegment D "2024-03-01T08:00:00Z" "2024-03-01T10:00:00Z"] = Fin d
    /\ (0 <= m <= M)%Q /\ ((d == 0)%Q -> (m == 0)%Q).
Proof.
  apply (@X18_mileage_share_between_0_and_total Date_example twoDayPlan
           (mkLogbookDay "2024-03-01"
              [mkSegment D "2024-03-01T08:00:00Z" "2024-03-01T10:00:00Z"])).
  - vm_compute. reflexivity.
  - repeat constructor; vm_compute; reflexivity.
  - vm_compute. discriminate.
  - left. reflexivity.
Defined.

Lemma X19_witness :
  let t := totalsByStatus Number_digits Date_example (Some scenarioDay) None in
  let t' := totalsByStatus Number_digits Date_example (Some shuffledScenarioDay) None in
  tOFF t =n= tOFF t' /\ tSB t =n= tSB t' /\ tD t =n= tD t' /\ tON t =n= tON t'.
Proof.
  apply (@X19_totals_do_not_depend_on_segment_order Number_digits Date_example
           scenarioDay shuffledScenarioDay None).
  - apply perm_swap.
  - discriminate.
  - repeat constructor; left; vm_compute; reflexivity.
  - vm_compute. discriminate.
Defined.

Lemma X20_witness :
  exists lo,
    leadingOff Number_digits Date_example (mkForm None None) (segments drivingDay)
    = Some lo
    /\ exists c : Q,
         offLine lo = mkLine (Fin Geometry.dutyGridX) (Fin (rowCenter OFF))
                             (Fin (Geometry.dutyGridX + c * Geometry.dutyHourW))
                             (Fin (rowCenter OFF))
         /\ (0 < c <= 24)%Q
         /\ (forall s, In s (segments drivingDay) ->
               exists a, isoToHoursSinceMidnight Date_example (start_iso s) = Fin a
                         /\ (c <= a)%Q)
         /\ (forall conn, offConnector lo = Some conn ->
               exists s a,
                 In s (segments drivingDay)
                 /\ isoToHoursSinceMidnight Date_example (start_iso s) = Fin a
                 /\ (forall s', In s' (segments drivingDay) ->
                       exists a', isoToHoursSinceMidnight Date_example (start_iso s')
                                  = Fin a' /\ (a <= a')%Q)
                 /\ conn = mkLine (Fin (Geometry.dutyGridX + c * Geometry.dutyHourW))
                                  (Fin (rowCenter OFF))
                                  (Fin (Geometry.dutyGridX + c * Geometry.dutyHourW))
                                  (Fin (rowCenter (status s)))).
Proof.
  eexists. split; [vm_compute; reflexivity |].
  apply (@X20_leading_off_line_ends_before_every_segment Number_digits Date_example
           (mkForm None None) (segments drivingDay)).
  vm_compute. reflexivity.
Defined.

Lemma X21_witness :
  exists eo,
    endOfDay Number_digits Date_example (sleeperForm "20:00") (segments drivingDay)
    = Some eo
    /\ exists (c : Q) (ls : Segment) (e : Q),
         (0 < c < 24)%Q
         /\ (forall s, In s (segments drivingDay) ->
               exists e', isoToHoursSinceMidnight Date_example (end_iso s) = Fin e'
                          /\ (e' <= c)%Q)
         /\ In ls (segments drivingDay)
         /\ isoToHoursSinceMidnight Date_example (end_iso ls) = Fin e /\ (e == c)%Q
         /\ toOffLine eo
            = match status ls with
              | OFF => None
              | _ => Some (mkLine (Fin (Geometry.dutyGridX + c * Geometry.dutyHourW))
                                  (Fin (rowCenter (status ls)))
                                  (Fin (Geometry.dutyGridX + c * Geometry.dutyHourW))
                                  (Fin (rowCenter OFF)))
              end
         /\ ((sbLine eo = None
              /\ offToMidnight eo
                 = Some (mkLine (Fin (Geometry.dutyGridX + c * Geometry.dutyHourW))
                                (Fin (rowCenter OFF))
                                (Fin (Geometry.dutyGridX
                                      + inject_Z 24 * Geometry.dutyHourW))
                                (Fin (rowCenter OFF))))
             \/ (exists sb,
                    sleeperBerthActive (sleeperForm "20:00") = true
                    /\ sbTimeH Number_digits (sleeperForm "20:00") = Fin sb
                    /\ (0 < sb < 24)%Q
                    /\ offToMidnight eo = None
                    /\ sbLine eo
                       = Some (mkLine (Fin (Geometry.dutyGridX
                                            + sb * Geometry.dutyHourW))
                                      (Fin (rowCenter SB))
                                      (Fin (Geometry.dutyGridX
                                            + inject_Z 24 * Geometry.dutyHourW))
                                      (Fin (rowCenter SB))))).
Proof.
  eexists. split; [vm_compute; reflexivity |].
  apply (@X21_end_of_day_lines_close_the_day Number_digits Date_example
           (sleeperForm "20:00") (segments drivingDay)).
  vm_compute. reflexivity.
Defined.



Lemma X24_witness :
  exists line,
    segmentLine Number_digits Date_example (sleeperForm "12:00")
      (mkSegment D "2024-03-01T07:00:00" "2024-03-01T15:00:00") = Some line
    /\ exists xb : Q,
         x2 line = Fin xb
         /\ (xb <= Geometry.dutyGridX + (720 # 60) * Geometry.dutyHourW)%Q.
Proof.
  eexists. split; [vm_compute; reflexivity |].
  apply (@X24_no_segment_drawn_past_sleeper_time Number_digits Date_example
           (sleeperForm "12:00")
           (mkSegment D "2024-03-01T07:00:00" "2024-03-01T15:00:00")).
  - reflexivity.
  - vm_compute. reflexivity.
  - vm_compute. reflexivity.
Defined.
